(** * Verification of the kafka-python administrative client

    A shallow embedding of

    - [kafka/protocol/admin.py] and [kafka/protocol/group.py]
      (the versioned request/response registries),
    - [kafka/coordinator/assignors/roundrobin.py]
      ([RoundRobinPartitionAssignor.assign]),
    - [kafka/admin/client.py] ([KafkaAdminClient]),

    followed by the properties proved about them.  Python objects are
    modelled by records and inductive types, insertion-ordered [dict]s by
    association lists with in-place update, unordered [set]s by [gset],
    exceptions by an error monad, and the network client (which is not
    part of these sources) by an explicit state with an environment of
    oracles. *)

From stdpp Require Import gmap strings list pretty sorting.
From Stdlib Require Import ZArith Lia Ascii.

Local Open Scope Z_scope.

(** ** Python preliminaries *)

Module Py.

(** An exception is its class (by [__name__]) and its message. *)
Record Exn := mkExn { exn_type : string; exn_msg : string }.

#[global] Instance Exn_eq_dec : EqDecision Exn.
Proof. solve_decision. Defined.

(** The outcome of running a piece of Python code: a value, a raised
    exception, or [Diverges] when a fuel-bounded loop of the model has not
    finished within its fuel. *)
Inductive Result (A : Type) : Type :=
| Ok (a : A)
| Raise (e : Exn)
| Diverges.
Arguments Ok {A} a.
Arguments Raise {A} e.
Arguments Diverges {A}.

#[global] Instance Result_ret : MRet Result := @Ok.
#[global] Instance Result_bind : MBind Result := fun A B k m =>
  match m with
  | Ok a => k a
  | Raise e => Raise e
  | Diverges => Diverges
  end.

(** [[f(x) for x in l]] for an [f] that may raise. *)
Fixpoint mapR {A B} (f : A -> Result B) (l : list A) : Result (list B) :=
  match l with
  | [] => Ok []
  | x :: l' =>
      match f x with
      | Ok b =>
          match mapR f l' with
          | Ok bs => Ok (b :: bs)
          | Raise e => Raise e
          | Diverges => Diverges
          end
      | Raise e => Raise e
      | Diverges => Diverges
      end
  end.

(** [sep.join(l)] *)
Definition join (sep : string) (l : list string) : string := String.concat sep l.

(** Truthiness of an optional integer: [None] and [0] are falsy. *)
Definition truthy (v : option Z) : bool :=
  match v with
  | None => false
  | Some z => negb (z =? 0)
  end.

(** [a or b] on a possibly-[None] integer and an integer. *)
Definition or_else (a : option Z) (b : Z) : Z :=
  match a with
  | Some z => if truthy a then z else b
  | None => b
  end.

(** *** Insertion-ordered dictionaries *)

Section Dict.
Context {K V : Type} `{EqDecision K}.

  (** [d.get(k)] *)
Fixpoint dict_get (k : K) (d : list (K * V)) : option V :=
    match d with
    | [] => None
    | (k', v) :: d' => if decide (k = k') then Some v else dict_get k d'
    end.

  (** [d[k] = v]: an existing key keeps its position. *)
Fixpoint dict_set (k : K) (v : V) (d : list (K * V)) : list (K * V) :=
    match d with
    | [] => [(k, v)]
    | (k', v') :: d' =>
        if decide (k = k') then (k, v) :: d' else (k', v') :: dict_set k v d'
    end.

  (** [dict(pairs)] *)
Definition dict_of (pairs : list (K * V)) : list (K * V) :=
    foldl (fun d kv => dict_set kv.1 kv.2 d) [] pairs.

Definition dict_keys (d : list (K * V)) : list K := d.*1.
End Dict.

(** [d[k].append(x)] on a [defaultdict(list)] *)
Definition dict_append {K V : Type} `{EqDecision K}
    (k : K) (x : V) (d : list (K * list V)) : list (K * list V) :=
  dict_set k (default [] (dict_get k d) ++ [x]) d.

End Py.


(** ** Error classes ([kafka.errors])

    [kafka/errors.py] is not part of these sources.  An error class is
    identified by its [__name__]; the table [for_code] from broker error
    codes to classes is a parameter of the client model (the field
    [for_code] of [Admin.Env]). *)

Module Errors.

Abbreviation ErrorClass := string.

Definition NoError : ErrorClass := "NoError".
Definition NotControllerError : ErrorClass := "NotControllerError".
Definition ElectionNotNeededError : ErrorClass := "ElectionNotNeededError".
Definition UnknownTopicOrPartitionError : ErrorClass := "UnknownTopicOrPartitionError".
Definition BrokerResponseError : ErrorClass := "BrokerResponseError".
Definition IncompatibleBrokerVersion : ErrorClass := "IncompatibleBrokerVersion".
Definition UnrecognizedBrokerVersion : ErrorClass := "UnrecognizedBrokerVersion".
Definition NodeNotReadyError : ErrorClass := "NodeNotReadyError".
Definition ValueError : ErrorClass := "ValueError".
Definition RuntimeError : ErrorClass := "RuntimeError".
Definition KeyError : ErrorClass := "KeyError".
Definition AttributeError : ErrorClass := "AttributeError".
Definition NotImplementedError : ErrorClass := "NotImplementedError".
Definition UnboundLocalError : ErrorClass := "UnboundLocalError".
Definition StopIteration : ErrorClass := "StopIteration".

End Errors.

(** ** The protocol registries ([kafka/protocol/admin.py], [kafka/protocol/group.py])

    Every class statement of the two modules that derives from [Request]
    or [Response] is listed with its base class and its class attributes
    ([SCHEMA] apart), followed by every module-level list ("registry") in
    source order. *)

Module Protocol.

Inductive Base := Request | Response.

#[global] Instance Base_eq_dec : EqDecision Base.
Proof. solve_decision. Defined.

Record ApiClass := mkApiClass {
  cls_name : string;
  cls_base : Base;
  API_KEY : Z;
  API_VERSION : Z;
  RESPONSE_TYPE : option string;
  FLEXIBLE_VERSION : bool }.

#[global] Instance ApiClass_eq_dec : EqDecision ApiClass.
Proof. solve_decision. Defined.

(* ---- kafka/protocol/admin.py ---- *)
Definition CreateTopicsResponse_v0 : ApiClass :=
  mkApiClass "CreateTopicsResponse_v0" Response 19 0 None false.
Definition CreateTopicsResponse_v1 : ApiClass :=
  mkApiClass "CreateTopicsResponse_v1" Response 19 1 None false.
Definition CreateTopicsResponse_v2 : ApiClass :=
  mkApiClass "CreateTopicsResponse_v2" Response 19 2 None false.
Definition CreateTopicsResponse_v3 : ApiClass :=
  mkApiClass "CreateTopicsResponse_v3" Response 19 3 None false.
Definition CreateTopicsRequest_v0 : ApiClass :=
  mkApiClass "CreateTopicsRequest_v0" Request 19 0 (Some "CreateTopicsResponse_v0") false.
Definition CreateTopicsRequest_v1 : ApiClass :=
  mkApiClass "CreateTopicsRequest_v1" Request 19 1 (Some "CreateTopicsResponse_v1") false.
Definition CreateTopicsRequest_v2 : ApiClass :=
  mkApiClass "CreateTopicsRequest_v2" Request 19 2 (Some "CreateTopicsResponse_v2") false.
Definition CreateTopicsRequest_v3 : ApiClass :=
  mkApiClass "CreateTopicsRequest_v3" Request 19 3 (Some "CreateTopicsResponse_v3") false.
Definition CreateTopicsRequest : list ApiClass :=
  [CreateTopicsRequest_v0;
   CreateTopicsRequest_v1;
   CreateTopicsRequest_v2;
   CreateTopicsRequest_v3].
Definition CreateTopicsResponse : list ApiClass :=
  [CreateTopicsResponse_v0;
   CreateTopicsResponse_v1;
   CreateTopicsResponse_v2;
   CreateTopicsResponse_v3].
Definition DeleteTopicsResponse_v0 : ApiClass :=
  mkApiClass "DeleteTopicsResponse_v0" Response 20 0 None false.
Definition DeleteTopicsResponse_v1 : ApiClass :=
  mkApiClass "DeleteTopicsResponse_v1" Response 20 1 None false.
Definition DeleteTopicsResponse_v2 : ApiClass :=
  mkApiClass "DeleteTopicsResponse_v2" Response 20 2 None false.
Definition DeleteTopicsResponse_v3 : ApiClass :=
  mkApiClass "DeleteTopicsResponse_v3" Response 20 3 None false.
Definition DeleteTopicsRequest_v0 : ApiClass :=
  mkApiClass "DeleteTopicsRequest_v0" Request 20 0 (Some "DeleteTopicsResponse_v0") false.
Definition DeleteTopicsRequest_v1 : ApiClass :=
  mkApiClass "DeleteTopicsRequest_v1" Request 20 1 (Some "DeleteTopicsResponse_v1") false.
Definition DeleteTopicsRequest_v2 : ApiClass :=
  mkApiClass "DeleteTopicsRequest_v2" Request 20 2 (Some "DeleteTopicsResponse_v2") false.
Definition DeleteTopicsRequest_v3 : ApiClass :=
  mkApiClass "DeleteTopicsRequest_v3" Request 20 3 (Some "DeleteTopicsResponse_v3") false.
Definition DeleteTopicsRequest : list ApiClass :=
  [DeleteTopicsRequest_v0;
   DeleteTopicsRequest_v1;
   DeleteTopicsRequest_v2;
   DeleteTopicsRequest_v3].
Definition DeleteTopicsResponse : list ApiClass :=
  [DeleteTopicsResponse_v0;
   DeleteTopicsResponse_v1;
   DeleteTopicsResponse_v2;
   DeleteTopicsResponse_v3].
Definition DeleteRecordsResponse_v0 : ApiClass :=
  mkApiClass "DeleteRecordsResponse_v0" Response 21 0 None false.
Definition DeleteRecordsRequest_v0 : ApiClass :=
  mkApiClass "DeleteRecordsRequest_v0" Request 21 0 (Some "DeleteRecordsResponse_v0") false.
Definition DeleteRecordsResponse : list ApiClass :=
  [DeleteRecordsResponse_v0].
Definition DeleteRecordsRequest : list ApiClass :=
  [DeleteRecordsRequest_v0].
Definition ListGroupsResponse_v0 : ApiClass :=
  mkApiClass "ListGroupsResponse_v0" Response 16 0 None false.
Definition ListGroupsResponse_v1 : ApiClass :=
  mkApiClass "ListGroupsResponse_v1" Response 16 1 None false.
Definition ListGroupsResponse_v2 : ApiClass :=
  mkApiClass "ListGroupsResponse_v2" Response 16 2 None false.
Definition ListGroupsRequest_v0 : ApiClass :=
  mkApiClass "ListGroupsRequest_v0" Request 16 0 (Some "ListGroupsResponse_v0") false.
Definition ListGroupsRequest_v1 : ApiClass :=
  mkApiClass "ListGroupsRequest_v1" Request 16 1 (Some "ListGroupsResponse_v1") false.
Definition ListGroupsRequest_v2 : ApiClass :=
  mkApiClass "ListGroupsRequest_v2" Request 16 1 (Some "ListGroupsResponse_v2") false.
Definition ListGroupsRequest : list ApiClass :=
  [ListGroupsRequest_v0;
   ListGroupsRequest_v1;
   ListGroupsRequest_v2].
Definition ListGroupsResponse : list ApiClass :=
  [ListGroupsResponse_v0;
   ListGroupsResponse_v1;
   ListGroupsResponse_v2].
Definition DescribeGroupsResponse_v0 : ApiClass :=
  mkApiClass "DescribeGroupsResponse_v0" Response 15 0 None false.
Definition DescribeGroupsResponse_v1 : ApiClass :=
  mkApiClass "DescribeGroupsResponse_v1" Response 15 1 None false.
Definition DescribeGroupsResponse_v2 : ApiClass :=
  mkApiClass "DescribeGroupsResponse_v2" Response 15 2 None false.
Definition DescribeGroupsResponse_v3 : ApiClass :=
  mkApiClass "DescribeGroupsResponse_v3" Response 15 3 None false.
Definition DescribeGroupsRequest_v0 : ApiClass :=
  mkApiClass "DescribeGroupsRequest_v0" Request 15 0 (Some "DescribeGroupsResponse_v0") false.
Definition DescribeGroupsRequest_v1 : ApiClass :=
  mkApiClass "DescribeGroupsRequest_v1" Request 15 1 (Some "DescribeGroupsResponse_v1") false.
Definition DescribeGroupsRequest_v2 : ApiClass :=
  mkApiClass "DescribeGroupsRequest_v2" Request 15 2 (Some "DescribeGroupsResponse_v2") false.
Definition DescribeGroupsRequest_v3 : ApiClass :=
  mkApiClass "DescribeGroupsRequest_v3" Request 15 3 (Some "DescribeGroupsResponse_v3") false.
Definition DescribeGroupsRequest : list ApiClass :=
  [DescribeGroupsRequest_v0;
   DescribeGroupsRequest_v1;
   DescribeGroupsRequest_v2;
   DescribeGroupsRequest_v3].
Definition DescribeGroupsResponse : list ApiClass :=
  [DescribeGroupsResponse_v0;
   DescribeGroupsResponse_v1;
   DescribeGroupsResponse_v2;
   DescribeGroupsResponse_v3].
Definition DescribeAclsResponse_v0 : ApiClass :=
  mkApiClass "DescribeAclsResponse_v0" Response 29 0 None false.
Definition DescribeAclsResponse_v1 : ApiClass :=
  mkApiClass "DescribeAclsResponse_v1" Response 29 1 None false.
Definition DescribeAclsResponse_v2 : ApiClass :=
  mkApiClass "DescribeAclsResponse_v2" Response 29 2 None false.
Definition DescribeAclsRequest_v0 : ApiClass :=
  mkApiClass "DescribeAclsRequest_v0" Request 29 0 (Some "DescribeAclsResponse_v0") false.
Definition DescribeAclsRequest_v1 : ApiClass :=
  mkApiClass "DescribeAclsRequest_v1" Request 29 1 (Some "DescribeAclsResponse_v1") false.
Definition DescribeAclsRequest_v2 : ApiClass :=
  mkApiClass "DescribeAclsRequest_v2" Request 29 2 (Some "DescribeAclsResponse_v2") false.
Definition DescribeAclsRequest : list ApiClass :=
  [DescribeAclsRequest_v0;
   DescribeAclsRequest_v1;
   DescribeAclsRequest_v2].
Definition DescribeAclsResponse : list ApiClass :=
  [DescribeAclsResponse_v0;
   DescribeAclsResponse_v1;
   DescribeAclsResponse_v2].
Definition CreateAclsResponse_v0 : ApiClass :=
  mkApiClass "CreateAclsResponse_v0" Response 30 0 None false.
Definition CreateAclsResponse_v1 : ApiClass :=
  mkApiClass "CreateAclsResponse_v1" Response 30 1 None false.
Definition CreateAclsRequest_v0 : ApiClass :=
  mkApiClass "CreateAclsRequest_v0" Request 30 0 (Some "CreateAclsResponse_v0") false.
Definition CreateAclsRequest_v1 : ApiClass :=
  mkApiClass "CreateAclsRequest_v1" Request 30 1 (Some "CreateAclsResponse_v1") false.
Definition CreateAclsRequest : list ApiClass :=
  [CreateAclsRequest_v0;
   CreateAclsRequest_v1].
Definition CreateAclsResponse : list ApiClass :=
  [CreateAclsResponse_v0;
   CreateAclsResponse_v1].
Definition DeleteAclsResponse_v0 : ApiClass :=
  mkApiClass "DeleteAclsResponse_v0" Response 31 0 None false.
Definition DeleteAclsResponse_v1 : ApiClass :=
  mkApiClass "DeleteAclsResponse_v1" Response 31 1 None false.
Definition DeleteAclsRequest_v0 : ApiClass :=
  mkApiClass "DeleteAclsRequest_v0" Request 31 0 (Some "DeleteAclsResponse_v0") false.
Definition DeleteAclsRequest_v1 : ApiClass :=
  mkApiClass "DeleteAclsRequest_v1" Request 31 1 (Some "DeleteAclsResponse_v1") false.
Definition DeleteAclsRequest : list ApiClass :=
  [DeleteAclsRequest_v0;
   DeleteAclsRequest_v1].
Definition DeleteAclsResponse : list ApiClass :=
  [DeleteAclsResponse_v0;
   DeleteAclsResponse_v1].
Definition AlterConfigsResponse_v0 : ApiClass :=
  mkApiClass "AlterConfigsResponse_v0" Response 33 0 None false.
Definition AlterConfigsResponse_v1 : ApiClass :=
  mkApiClass "AlterConfigsResponse_v1" Response 33 1 None false.
Definition AlterConfigsRequest_v0 : ApiClass :=
  mkApiClass "AlterConfigsRequest_v0" Request 33 0 (Some "AlterConfigsResponse_v0") false.
Definition AlterConfigsRequest_v1 : ApiClass :=
  mkApiClass "AlterConfigsRequest_v1" Request 33 1 (Some "AlterConfigsResponse_v1") false.
Definition AlterConfigsRequest : list ApiClass :=
  [AlterConfigsRequest_v0;
   AlterConfigsRequest_v1].
Definition AlterConfigsResponse : list ApiClass :=
  [AlterConfigsResponse_v0;
   AlterConfigsRequest_v1].
Definition DescribeConfigsResponse_v0 : ApiClass :=
  mkApiClass "DescribeConfigsResponse_v0" Response 32 0 None false.
Definition DescribeConfigsResponse_v1 : ApiClass :=
  mkApiClass "DescribeConfigsResponse_v1" Response 32 1 None false.
Definition DescribeConfigsResponse_v2 : ApiClass :=
  mkApiClass "DescribeConfigsResponse_v2" Response 32 2 None false.
Definition DescribeConfigsRequest_v0 : ApiClass :=
  mkApiClass "DescribeConfigsRequest_v0" Request 32 0 (Some "DescribeConfigsResponse_v0") false.
Definition DescribeConfigsRequest_v1 : ApiClass :=
  mkApiClass "DescribeConfigsRequest_v1" Request 32 1 (Some "DescribeConfigsResponse_v1") false.
Definition DescribeConfigsRequest_v2 : ApiClass :=
  mkApiClass "DescribeConfigsRequest_v2" Request 32 2 (Some "DescribeConfigsResponse_v2") false.
Definition DescribeConfigsRequest : list ApiClass :=
  [DescribeConfigsRequest_v0;
   DescribeConfigsRequest_v1;
   DescribeConfigsRequest_v2].
Definition DescribeConfigsResponse : list ApiClass :=
  [DescribeConfigsResponse_v0;
   DescribeConfigsResponse_v1;
   DescribeConfigsResponse_v2].
Definition DescribeLogDirsResponse_v0 : ApiClass :=
  mkApiClass "DescribeLogDirsResponse_v0" Response 35 0 None false.
Definition DescribeLogDirsRequest_v0 : ApiClass :=
  mkApiClass "DescribeLogDirsRequest_v0" Request 35 0 (Some "DescribeLogDirsResponse_v0") false.
Definition DescribeLogDirsResponse : list ApiClass :=
  [DescribeLogDirsResponse_v0].
Definition DescribeLogDirsRequest : list ApiClass :=
  [DescribeLogDirsRequest_v0].
Definition SaslAuthenticateResponse_v0 : ApiClass :=
  mkApiClass "SaslAuthenticateResponse_v0" Response 36 0 None false.
Definition SaslAuthenticateResponse_v1 : ApiClass :=
  mkApiClass "SaslAuthenticateResponse_v1" Response 36 1 None false.
Definition SaslAuthenticateRequest_v0 : ApiClass :=
  mkApiClass "SaslAuthenticateRequest_v0" Request 36 0 (Some "SaslAuthenticateResponse_v0") false.
Definition SaslAuthenticateRequest_v1 : ApiClass :=
  mkApiClass "SaslAuthenticateRequest_v1" Request 36 1 (Some "SaslAuthenticateResponse_v1") false.
Definition SaslAuthenticateRequest : list ApiClass :=
  [SaslAuthenticateRequest_v0;
   SaslAuthenticateRequest_v1].
Definition SaslAuthenticateResponse : list ApiClass :=
  [SaslAuthenticateResponse_v0;
   SaslAuthenticateResponse_v1].
Definition CreatePartitionsResponse_v0 : ApiClass :=
  mkApiClass "CreatePartitionsResponse_v0" Response 37 0 None false.
Definition CreatePartitionsResponse_v1 : ApiClass :=
  mkApiClass "CreatePartitionsResponse_v1" Response 37 1 None false.
Definition CreatePartitionsRequest_v0 : ApiClass :=
  mkApiClass "CreatePartitionsRequest_v0" Request 37 0 (Some "CreatePartitionsResponse_v0") false.
Definition CreatePartitionsRequest_v1 : ApiClass :=
  mkApiClass "CreatePartitionsRequest_v1" Request 37 1 (Some "CreatePartitionsResponse_v1") false.
Definition CreatePartitionsRequest : list ApiClass :=
  [CreatePartitionsRequest_v0;
   CreatePartitionsRequest_v1].
Definition CreatePartitionsResponse : list ApiClass :=
  [CreatePartitionsResponse_v0;
   CreatePartitionsResponse_v1].
Definition DeleteGroupsResponse_v0 : ApiClass :=
  mkApiClass "DeleteGroupsResponse_v0" Response 42 0 None false.
Definition DeleteGroupsResponse_v1 : ApiClass :=
  mkApiClass "DeleteGroupsResponse_v1" Response 42 1 None false.
Definition DeleteGroupsRequest_v0 : ApiClass :=
  mkApiClass "DeleteGroupsRequest_v0" Request 42 0 (Some "DeleteGroupsResponse_v0") false.
Definition DeleteGroupsRequest_v1 : ApiClass :=
  mkApiClass "DeleteGroupsRequest_v1" Request 42 1 (Some "DeleteGroupsResponse_v1") false.
Definition DeleteGroupsRequest : list ApiClass :=
  [DeleteGroupsRequest_v0;
   DeleteGroupsRequest_v1].
Definition DeleteGroupsResponse : list ApiClass :=
  [DeleteGroupsResponse_v0;
   DeleteGroupsResponse_v1].
Definition DescribeClientQuotasResponse_v0 : ApiClass :=
  mkApiClass "DescribeClientQuotasResponse_v0" Response 48 0 None false.
Definition DescribeClientQuotasRequest_v0 : ApiClass :=
  mkApiClass "DescribeClientQuotasRequest_v0" Request 48 0 (Some "DescribeClientQuotasResponse_v0") false.
Definition DescribeClientQuotasRequest : list ApiClass :=
  [DescribeClientQuotasRequest_v0].
Definition DescribeClientQuotasResponse : list ApiClass :=
  [DescribeClientQuotasResponse_v0].
Definition AlterPartitionReassignmentsResponse_v0 : ApiClass :=
  mkApiClass "AlterPartitionReassignmentsResponse_v0" Response 45 0 None true.
Definition AlterPartitionReassignmentsRequest_v0 : ApiClass :=
  mkApiClass "AlterPartitionReassignmentsRequest_v0" Request 45 0 (Some "AlterPartitionReassignmentsResponse_v0") true.
Definition AlterPartitionReassignmentsRequest : list ApiClass :=
  [AlterPartitionReassignmentsRequest_v0].
Definition AlterPartitionReassignmentsResponse : list ApiClass :=
  [AlterPartitionReassignmentsResponse_v0].
Definition ListPartitionReassignmentsResponse_v0 : ApiClass :=
  mkApiClass "ListPartitionReassignmentsResponse_v0" Response 46 0 None true.
Definition ListPartitionReassignmentsRequest_v0 : ApiClass :=
  mkApiClass "ListPartitionReassignmentsRequest_v0" Request 46 0 (Some "ListPartitionReassignmentsResponse_v0") true.
Definition ListPartitionReassignmentsRequest : list ApiClass :=
  [ListPartitionReassignmentsRequest_v0].
Definition ListPartitionReassignmentsResponse : list ApiClass :=
  [ListPartitionReassignmentsResponse_v0].
Definition ElectLeadersResponse_v0 : ApiClass :=
  mkApiClass "ElectLeadersResponse_v0" Response 43 1 None false.
Definition ElectLeadersRequest_v0 : ApiClass :=
  mkApiClass "ElectLeadersRequest_v0" Request 43 1 (Some "ElectLeadersResponse_v0") false.
Definition ElectLeadersResponse_v1 : ApiClass :=
  mkApiClass "ElectLeadersResponse_v1" Response 43 1 None false.
Definition ElectLeadersRequest_v1 : ApiClass :=
  mkApiClass "ElectLeadersRequest_v1" Request 43 1 (Some "ElectLeadersResponse_v1") false.
Definition ElectLeadersRequest : list ApiClass :=
  [ElectLeadersRequest_v0;
   ElectLeadersRequest_v1].
Definition ElectLeadersResponse : list ApiClass :=
  [ElectLeadersResponse_v0;
   ElectLeadersResponse_v1].
(* ---- kafka/protocol/group.py ---- *)
Definition JoinGroupResponse_v0 : ApiClass :=
  mkApiClass "JoinGroupResponse_v0" Response 11 0 None false.
Definition JoinGroupResponse_v1 : ApiClass :=
  mkApiClass "JoinGroupResponse_v1" Response 11 1 None false.
Definition JoinGroupResponse_v2 : ApiClass :=
  mkApiClass "JoinGroupResponse_v2" Response 11 2 None false.
Definition JoinGroupResponse_v3 : ApiClass :=
  mkApiClass "JoinGroupResponse_v3" Response 11 3 None false.
Definition JoinGroupResponse_v4 : ApiClass :=
  mkApiClass "JoinGroupResponse_v4" Response 11 4 None false.
Definition JoinGroupResponse_v5 : ApiClass :=
  mkApiClass "JoinGroupResponse_v5" Response 11 5 None false.
Definition JoinGroupRequest_v0 : ApiClass :=
  mkApiClass "JoinGroupRequest_v0" Request 11 0 (Some "JoinGroupResponse_v0") false.
Definition JoinGroupRequest_v1 : ApiClass :=
  mkApiClass "JoinGroupRequest_v1" Request 11 1 (Some "JoinGroupResponse_v1") false.
Definition JoinGroupRequest_v2 : ApiClass :=
  mkApiClass "JoinGroupRequest_v2" Request 11 2 (Some "JoinGroupResponse_v2") false.
Definition JoinGroupRequest_v3 : ApiClass :=
  mkApiClass "JoinGroupRequest_v3" Request 11 3 (Some "JoinGroupResponse_v3") false.
Definition JoinGroupRequest_v4 : ApiClass :=
  mkApiClass "JoinGroupRequest_v4" Request 11 4 (Some "JoinGroupResponse_v4") false.
Definition JoinGroupRequest_v5 : ApiClass :=
  mkApiClass "JoinGroupRequest_v5" Request 11 5 (Some "JoinGroupResponse_v5") false.
Definition JoinGroupRequest : list ApiClass :=
  [JoinGroupRequest_v0;
   JoinGroupRequest_v1;
   JoinGroupRequest_v2;
   JoinGroupRequest_v3;
   JoinGroupRequest_v4;
   JoinGroupRequest_v5].
Definition JoinGroupResponse : list ApiClass :=
  [JoinGroupResponse_v0;
   JoinGroupResponse_v1;
   JoinGroupResponse_v2;
   JoinGroupResponse_v3;
   JoinGroupResponse_v4;
   JoinGroupResponse_v5].
Definition SyncGroupResponse_v0 : ApiClass :=
  mkApiClass "SyncGroupResponse_v0" Response 14 0 None false.
Definition SyncGroupResponse_v1 : ApiClass :=
  mkApiClass "SyncGroupResponse_v1" Response 14 1 None false.
Definition SyncGroupResponse_v2 : ApiClass :=
  mkApiClass "SyncGroupResponse_v2" Response 14 2 None false.
Definition SyncGroupResponse_v3 : ApiClass :=
  mkApiClass "SyncGroupResponse_v3" Response 14 3 None false.
Definition SyncGroupRequest_v0 : ApiClass :=
  mkApiClass "SyncGroupRequest_v0" Request 14 0 (Some "SyncGroupResponse_v0") false.
Definition SyncGroupRequest_v1 : ApiClass :=
  mkApiClass "SyncGroupRequest_v1" Request 14 1 (Some "SyncGroupResponse_v1") false.
Definition SyncGroupRequest_v2 : ApiClass :=
  mkApiClass "SyncGroupRequest_v2" Request 14 2 (Some "SyncGroupResponse_v2") false.
Definition SyncGroupRequest_v3 : ApiClass :=
  mkApiClass "SyncGroupRequest_v3" Request 14 3 (Some "SyncGroupResponse_v3") false.
Definition SyncGroupRequest : list ApiClass :=
  [SyncGroupRequest_v0;
   SyncGroupRequest_v1;
   SyncGroupRequest_v2;
   SyncGroupRequest_v3].
Definition SyncGroupResponse : list ApiClass :=
  [SyncGroupResponse_v0;
   SyncGroupResponse_v1;
   SyncGroupResponse_v2;
   SyncGroupResponse_v3].
Definition HeartbeatResponse_v0 : ApiClass :=
  mkApiClass "HeartbeatResponse_v0" Response 12 0 None false.
Definition HeartbeatResponse_v1 : ApiClass :=
  mkApiClass "HeartbeatResponse_v1" Response 12 1 None false.
Definition HeartbeatResponse_v2 : ApiClass :=
  mkApiClass "HeartbeatResponse_v2" Response 12 2 None false.
Definition HeartbeatResponse_v3 : ApiClass :=
  mkApiClass "HeartbeatResponse_v3" Response 12 3 None false.
Definition HeartbeatRequest_v0 : ApiClass :=
  mkApiClass "HeartbeatRequest_v0" Request 12 0 (Some "HeartbeatResponse_v0") false.
Definition HeartbeatRequest_v1 : ApiClass :=
  mkApiClass "HeartbeatRequest_v1" Request 12 1 (Some "HeartbeatResponse_v1") false.
Definition HeartbeatRequest_v2 : ApiClass :=
  mkApiClass "HeartbeatRequest_v2" Request 12 2 (Some "HeartbeatResponse_v2") false.
Definition HeartbeatRequest_v3 : ApiClass :=
  mkApiClass "HeartbeatRequest_v3" Request 12 3 (Some "HeartbeatResponse_v3") false.
Definition HeartbeatRequest : list ApiClass :=
  [HeartbeatRequest_v0;
   HeartbeatRequest_v1;
   HeartbeatRequest_v2;
   HeartbeatRequest_v3].
Definition HeartbeatResponse : list ApiClass :=
  [HeartbeatResponse_v0;
   HeartbeatResponse_v1;
   HeartbeatResponse_v2;
   HeartbeatResponse_v3].
Definition LeaveGroupResponse_v0 : ApiClass :=
  mkApiClass "LeaveGroupResponse_v0" Response 13 0 None false.
Definition LeaveGroupResponse_v1 : ApiClass :=
  mkApiClass "LeaveGroupResponse_v1" Response 13 1 None false.
Definition LeaveGroupResponse_v2 : ApiClass :=
  mkApiClass "LeaveGroupResponse_v2" Response 13 2 None false.
Definition LeaveGroupResponse_v3 : ApiClass :=
  mkApiClass "LeaveGroupResponse_v3" Response 13 3 None false.
Definition LeaveGroupRequest_v0 : ApiClass :=
  mkApiClass "LeaveGroupRequest_v0" Request 13 0 (Some "LeaveGroupResponse_v0") false.
Definition LeaveGroupRequest_v1 : ApiClass :=
  mkApiClass "LeaveGroupRequest_v1" Request 13 1 (Some "LeaveGroupResponse_v1") false.
Definition LeaveGroupRequest_v2 : ApiClass :=
  mkApiClass "LeaveGroupRequest_v2" Request 13 2 (Some "LeaveGroupResponse_v2") false.
Definition LeaveGroupRequest_v3 : ApiClass :=
  mkApiClass "LeaveGroupRequest_v3" Request 13 3 (Some "LeaveGroupResponse_v3") false.
Definition LeaveGroupRequest : list ApiClass :=
  [LeaveGroupRequest_v0;
   LeaveGroupRequest_v1;
   LeaveGroupRequest_v2;
   LeaveGroupRequest_v3].
Definition LeaveGroupResponse : list ApiClass :=
  [LeaveGroupResponse_v0;
   LeaveGroupResponse_v1;
   LeaveGroupResponse_v2;
   LeaveGroupResponse_v3].

(** The registries of both modules, each with the base class its name
    announces. *)
Definition registries : list (string * Base * list ApiClass) :=
  [("CreateTopicsRequest", Request, CreateTopicsRequest);
   ("CreateTopicsResponse", Response, CreateTopicsResponse);
   ("DeleteTopicsRequest", Request, DeleteTopicsRequest);
   ("DeleteTopicsResponse", Response, DeleteTopicsResponse);
   ("DeleteRecordsResponse", Response, DeleteRecordsResponse);
   ("DeleteRecordsRequest", Request, DeleteRecordsRequest);
   ("ListGroupsRequest", Request, ListGroupsRequest);
   ("ListGroupsResponse", Response, ListGroupsResponse);
   ("DescribeGroupsRequest", Request, DescribeGroupsRequest);
   ("DescribeGroupsResponse", Response, DescribeGroupsResponse);
   ("DescribeAclsRequest", Request, DescribeAclsRequest);
   ("DescribeAclsResponse", Response, DescribeAclsResponse);
   ("CreateAclsRequest", Request, CreateAclsRequest);
   ("CreateAclsResponse", Response, CreateAclsResponse);
   ("DeleteAclsRequest", Request, DeleteAclsRequest);
   ("DeleteAclsResponse", Response, DeleteAclsResponse);
   ("AlterConfigsRequest", Request, AlterConfigsRequest);
   ("AlterConfigsResponse", Response, AlterConfigsResponse);
   ("DescribeConfigsRequest", Request, DescribeConfigsRequest);
   ("DescribeConfigsResponse", Response, DescribeConfigsResponse);
   ("DescribeLogDirsResponse", Response, DescribeLogDirsResponse);
   ("DescribeLogDirsRequest", Request, DescribeLogDirsRequest);
   ("SaslAuthenticateRequest", Request, SaslAuthenticateRequest);
   ("SaslAuthenticateResponse", Response, SaslAuthenticateResponse);
   ("CreatePartitionsRequest", Request, CreatePartitionsRequest);
   ("CreatePartitionsResponse", Response, CreatePartitionsResponse);
   ("DeleteGroupsRequest", Request, DeleteGroupsRequest);
   ("DeleteGroupsResponse", Response, DeleteGroupsResponse);
   ("DescribeClientQuotasRequest", Request, DescribeClientQuotasRequest);
   ("DescribeClientQuotasResponse", Response, DescribeClientQuotasResponse);
   ("AlterPartitionReassignmentsRequest", Request, AlterPartitionReassignmentsRequest);
   ("AlterPartitionReassignmentsResponse", Response, AlterPartitionReassignmentsResponse);
   ("ListPartitionReassignmentsRequest", Request, ListPartitionReassignmentsRequest);
   ("ListPartitionReassignmentsResponse", Response, ListPartitionReassignmentsResponse);
   ("ElectLeadersRequest", Request, ElectLeadersRequest);
   ("ElectLeadersResponse", Response, ElectLeadersResponse);
   ("JoinGroupRequest", Request, JoinGroupRequest);
   ("JoinGroupResponse", Response, JoinGroupResponse);
   ("SyncGroupRequest", Request, SyncGroupRequest);
   ("SyncGroupResponse", Response, SyncGroupResponse);
   ("HeartbeatRequest", Request, HeartbeatRequest);
   ("HeartbeatResponse", Response, HeartbeatResponse);
   ("LeaveGroupRequest", Request, LeaveGroupRequest);
   ("LeaveGroupResponse", Response, LeaveGroupResponse)].

(** [registry[i].API_VERSION == i] for every index of the list. *)
Definition indexed_by_version (registry : list ApiClass) : bool :=
  forallb (fun ic => bool_decide (API_VERSION ic.2 = Z.of_nat ic.1))
          (imap (fun i c => (i, c)) registry).

(** Every element derives from [base]. *)
Definition all_of_base (base : Base) (registry : list ApiClass) : bool :=
  forallb (fun c => bool_decide (cls_base c = base)) registry.

Definition well_formed_registry (r : string * Base * list ApiClass) : bool :=
  indexed_by_version r.2 && all_of_base r.1.2 r.2.

End Protocol.

(** ** Value types ([kafka.structs]) *)

Module Structs.

(** [TopicPartition = namedtuple("TopicPartition", ["topic", "partition"])] *)
Record TopicPartition := mkTopicPartition { topic : string; partition : Z }.

#[global] Instance TopicPartition_eq_dec : EqDecision TopicPartition.
Proof. solve_decision. Defined.

#[global] Instance TopicPartition_countable : Countable TopicPartition.
Proof.
  apply (inj_countable' (fun tp => (topic tp, partition tp))
                        (fun p => mkTopicPartition p.1 p.2)).
  by intros [].
Defined.

(** Strings compare by code point, tuples lexicographically. *)
Definition str_le (a b : string) : Prop :=
  String.compare a b <> Gt.

#[global] Instance str_le_dec : RelDecision str_le.
Proof. intros a b. unfold str_le. destruct (String.compare a b); solve_decision. Defined.

Definition tp_le (a b : TopicPartition) : Prop :=
  match String.compare (topic a) (topic b) with
  | Lt => True
  | Eq => partition a <= partition b
  | Gt => False
  end.

#[global] Instance tp_le_dec : RelDecision tp_le.
Proof.
  intros a b. unfold tp_le.
  destruct (String.compare (topic a) (topic b)); apply _.
Defined.

(** [sorted(l)] *)
Definition sorted_tps (l : list TopicPartition) : list TopicPartition :=
  merge_sort tp_le l.

End Structs.

(** ** [RoundRobinPartitionAssignor] ([kafka/coordinator/assignors/roundrobin.py]) *)

Module RoundRobin.
Import Py Structs.

(** What [assign] reads of a member's subscription. *)
Record Subscription := mkSubscription {
  topics : list string;
  group_instance_id : option string }.

(** [ConsumerProtocolMemberAssignment_v0(version, assignment, user_data)] *)
Record MemberAssignment := mkMemberAssignment {
  ma_version : Z;
  ma_assignment : list (string * list Z);
  ma_user_data : string }.

(** [cluster.partitions_for_topic]: the set of partition ids of a topic,
    or [None] when the topic has no metadata. *)
Definition Cluster := string -> option (gset Z).

Definition version : Z := 0.

(** An element [(group_instance_id, member_id)] of [ungrouped]. *)
Definition Ids : Type := option string * string.

(** Order of the tuples within one group: the first components are all
    [None] or all strings, then the member ids decide. *)
Definition ids_le (a b : Ids) : Prop :=
  match a.1, b.1 with
  | None, None => str_le a.2 b.2
  | None, Some _ => True
  | Some _, None => False
  | Some x, Some y =>
      match String.compare x y with
      | Lt => True
      | Eq => str_le a.2 b.2
      | Gt => False
      end
  end.

#[global] Instance ids_le_dec : RelDecision ids_le.
Proof.
  intros [[x|] a] [[y|] b]; unfold ids_le; simpl; try apply _.
  destruct (String.compare x y); apply _.
Defined.

(** [itertools.groupby(l, key)]: maximal runs of consecutive elements
    with the same key. *)
Fixpoint groupby {A} (key : A -> bool) (l : list A) : list (bool * list A) :=
  match l with
  | [] => []
  | x :: l' =>
      match groupby key l' with
      | (k, g) :: gs =>
          if bool_decide (key x = k) then (k, x :: g) :: gs
          else (key x, [x]) :: (k, g) :: gs
      | [] => [(key x, [x])]
      end
  end.

(** The set [all_topics] built by the first loop. *)
Definition all_topics (group_subscriptions : list (string * Subscription)) : gset string :=
  foldl (fun acc ms => acc ∪ list_to_set (topics ms.2)) ∅ group_subscriptions.

(** [all_topic_partitions] after [.sort()]. *)
Definition all_topic_partitions (cluster : Cluster)
    (group_subscriptions : list (string * Subscription)) : list TopicPartition :=
  sorted_tps
    (foldl (fun acc topic =>
              match cluster topic with
              | None => acc
              | Some partitions =>
                  acc ++ (mkTopicPartition topic <$> elements partitions)
              end)
           [] (elements (all_topics group_subscriptions))).

Definition ungrouped (group_subscriptions : list (string * Subscription)) : list Ids :=
  (fun ms => (group_instance_id ms.2, ms.1)) <$> group_subscriptions.

(** [{k: list(g) for k, g in itertools.groupby(ungrouped, key=...)}] *)
Definition grouped (group_subscriptions : list (string * Subscription))
  : list (bool * list Ids) :=
  dict_of (groupby (fun ids => bool_decide (ids.1 <> None))
                   (ungrouped group_subscriptions)).

Definition member_list (group_subscriptions : list (string * Subscription)) : list Ids :=
  merge_sort ids_le (default [] (dict_get true (grouped group_subscriptions)))
  ++ merge_sort ids_le (default [] (dict_get false (grouped group_subscriptions))).

(** [assignment[member_id][topic].append(partition)] on the nested
    [defaultdict]s. *)
Definition assignment_append (member_id topic : string) (partition : Z)
    (assignment : list (string * list (string * list Z)))
  : list (string * list (string * list Z)) :=
  dict_set member_id
    (dict_append topic partition (default [] (dict_get member_id assignment)))
    assignment.

(** The loop over [all_topic_partitions].  [member_iter] is
    [itertools.cycle(member_list)], represented by the number [pos] of
    elements already taken from it.  When the member drawn is not
    subscribed to the topic, the body of the inner [while] rebinds
    [member_id] to the next *tuple* of the iterator, and the loop test
    [group_subscriptions[member_id]] then raises [KeyError]. *)
Fixpoint assign_loop (group_subscriptions : list (string * Subscription))
    (members : list Ids) (partitions : list TopicPartition) (pos : nat)
    (assignment : list (string * list (string * list Z)))
  : Result (list (string * list (string * list Z))) :=
  match partitions with
  | [] => Ok assignment
  | tp :: rest =>
      match members !! (pos mod length members)%nat with
      | None => Raise (mkExn Errors.StopIteration "")
      | Some (_, member_id) =>
          match dict_get member_id group_subscriptions with
          | None => Raise (mkExn Errors.KeyError member_id)
          | Some subscription =>
              if bool_decide (topic tp ∈ topics subscription) then
                assign_loop group_subscriptions members rest (S pos)
                  (assignment_append member_id (topic tp) (partition tp) assignment)
              else Raise (mkExn Errors.KeyError "(group_instance_id, member_id)")
          end
      end
  end.

(** [sorted(assignment[member_id].items())]: by topic, the keys being
    distinct. *)
Definition item_le (a b : string * list Z) : Prop := str_le a.1 b.1.

#[global] Instance item_le_dec : RelDecision item_le.
Proof. intros a b. unfold item_le. apply _. Defined.

Definition assign (cluster : Cluster)
    (group_subscriptions : list (string * Subscription))
  : Result (list (string * MemberAssignment)) :=
  assignment ← assign_loop group_subscriptions (member_list group_subscriptions)
                 (all_topic_partitions cluster group_subscriptions) 0 [];
  Ok ((fun ms =>
         (ms.1, mkMemberAssignment version
                  (merge_sort item_le (default [] (dict_get ms.1 assignment)))
                  ""))
        <$> group_subscriptions).

(** The partitions a member is given by a protocol assignment. *)
Definition partitions_of (a : MemberAssignment) : list TopicPartition :=
  tps ← ma_assignment a; mkTopicPartition tps.1 <$> tps.2.

Definition assigned_count (a : MemberAssignment) : nat :=
  length (partitions_of a).

End RoundRobin.

(** ** [KafkaAdminClient] ([kafka/admin/client.py]) *)

Module Admin.
Import Py Structs.

(** *** Domain objects handed to the client *)

(** [ConfigResourceType] ([kafka.admin.config_resource], not part of these
    sources) has the members [BROKER] and [TOPIC]. *)
Inductive ConfigResourceType := BROKER | TOPIC.

#[global] Instance ConfigResourceType_eq_dec : EqDecision ConfigResourceType.
Proof. solve_decision. Defined.

Record ConfigResource := mkConfigResource {
  resource_type : ConfigResourceType;
  name : string;
  configs : option (list (string * string)) }.

Record NewTopic := mkNewTopic {
  nt_name : string;
  num_partitions : Z;
  replication_factor : Z;
  replica_assignments : list (Z * list Z);
  topic_configs : list (string * string) }.

Record NewPartitions := mkNewPartitions {
  total_count : Z;
  new_assignments : list (list Z) }.

(** [ElectionType] ([kafka/protocol/admin.py]) *)
Inductive ElectionType := PREFERRED | UNCLEAN.

(** *** Requests and responses

    A request is the registry it was taken from, the index [version] used
    on that registry, and the constructor arguments. *)

Inductive Request :=
| MetadataRequest (version : nat) (topics : option (list string))
    (allow_auto_topic_creation : option bool)
    (include_authorized_operations : option bool)
| FindCoordinatorRequest (version : nat) (group_id : string) (key_type : option Z)
| CreateTopicsRequest (version : nat)
    (create_topic_requests :
       list (string * Z * Z * list (Z * list Z) * list (string * string)))
    (timeout : Z) (validate_only : option bool)
| DeleteTopicsRequest (version : nat) (topics : list string) (timeout : Z)
| CreatePartitionsRequest (version : nat)
    (topic_partitions : list (string * (Z * list (list Z))))
    (timeout : Z) (validate_only : bool)
| ElectLeadersRequest (version : nat) (election_type : ElectionType)
    (topic_partitions : list (string * list Z)) (timeout : Z)
| DescribeConfigsRequest (version : nat)
    (resources : list (ConfigResourceType * string * option (list string)))
    (include_synonyms : option bool)
| ListGroupsRequest (version : nat)
| DeleteRecordsRequest (version : nat)
    (topics : list (string * list (Z * Z))) (timeout_ms : Z)
| OffsetFetchRequest (version : nat) (group_id : string)
    (topics : option (list (string * list Z))).

(** An element of [topic_errors] / [topic_error_codes]: the error message
    is present from v1 of CreateTopics and in CreatePartitions. *)
Record TopicError := mkTopicError {
  te_topic : string;
  te_error_code : Z;
  te_error_message : option string }.

(** An element of [partition_result] in an ElectLeaders response. *)
Record PartitionResult := mkPartitionResult {
  pr_partition_id : Z;
  pr_error_code : Z;
  pr_error_message : option string }.

(** What the client reads of the [partitions] and [topics] arrays of a
    Metadata response. *)
Record PartitionMetadata := mkPartitionMetadata {
  pm_partition : Z;
  pm_leader : Z }.

Record TopicMetadata := mkTopicMetadata {
  tm_topic : string;
  tm_partitions : list PartitionMetadata }.

(** An element of [partitions] in a DeleteRecords response. *)
Record DeleteRecordsPartition := mkDeleteRecordsPartition {
  partition_index : Z;
  low_watermark : Z;
  error_code : Z }.

(** [ResponseNone] is the value [None] of a future that has not
    succeeded. *)
Inductive Response :=
| MetadataResponse (API_VERSION : nat) (controller_id : Z)
    (topics : list TopicMetadata)
| FindCoordinatorResponse (error_code : Z) (coordinator_id : Z)
| CreateTopicsResponse (topic_errors : list TopicError)
| DeleteTopicsResponse (topic_error_codes : list TopicError)
| CreatePartitionsResponse (topic_errors : list TopicError)
| ElectLeadersResponse (error_code : Z)
    (replication_election_results : list (string * list PartitionResult))
| DescribeConfigsResponse (API_VERSION : nat)
    (resources : list (Z * option string * Z * string))
| ListGroupsResponse (API_VERSION : nat) (error_code : Z)
    (groups : list (string * string))
| DeleteRecordsResponse
    (topics : list (string * list DeleteRecordsPartition))
| ResponseNone.

(** *** The network client and the environment

    [kafka.client_async.KafkaClient], [kafka.errors], [kafka.future] and
    the Python built-ins are not part of these sources.  What the admin
    client uses of them is gathered in [Env]; the admin client is
    embedded for an arbitrary [Env]. *)

Inductive Outcome := Succeeded (value : Response) | Failed (exception : Exn).

Record Env := mkEnv {
  (** [Errors.for_code]: the error class (by name) of a broker error code *)
  for_code : Z -> string;
  (** [self.config['request_timeout_ms']] *)
  request_timeout_ms : Z;
  (** [str(self.config['api_version'])] *)
  config_api_version : string;
  (** [KafkaClient.api_version(registry, max_version)], by registry name *)
  api_version : string -> nat -> nat;
  (** [KafkaClient.least_loaded_node()], given the number of requests sent so far *)
  least_loaded_node : nat -> Z;
  (** [KafkaClient.await_ready(node_id)]: the exception it raises, if any *)
  await_ready : nat -> Z -> option Exn;
  (** what the future of the [k]-th request sent ends with *)
  answer : nat -> Z -> Request -> Outcome;
  (** the milliseconds the [k]-th request is in flight *)
  latency : nat -> nat;
  (** which of the requests in flight completes next *)
  next_completed : list nat -> nat;
  (** [KafkaClient.check_version(node_id)]: the broker version, or the
      exception raised *)
  check_version : Z -> Exn + Z * Z * Z;
  (** [broker.nodeId for broker in KafkaClient.cluster.brokers()] *)
  cluster_brokers : list Z;
  (** the cluster view: each known topic with its partition ids *)
  cluster_topic_partitions : list (string * list Z);
  (** [str(request)], [str(response)] and [str(topic_partition)] *)
  str_request : Request -> string;
  str_response : Response -> string;
  str_topic_partition : TopicPartition -> string;
  (** [int(s)] on a string: [None] stands for [ValueError] *)
  int : string -> option Z }.

(** The mutable state: the attribute [_controller_id], the requests
    handed to [KafkaClient.send] (a future is the index of its request),
    those still in flight, the outcomes in order of arrival, and the
    clock. *)
Record Client := mkClient {
  _controller_id : Z;
  sent : list (Z * Request);
  in_flight : list nat;
  arrived : list (nat * Outcome);
  now_ms : Z }.

(** Code that runs against the client: state passing with exceptions. *)
Definition M (A : Type) : Type := Client -> Result A * Client.

Definition ret {A} (a : A) : M A := fun c => (Ok a, c).
Definition raise {A} (e : Exn) : M A := fun c => (Raise e, c).
Definition diverge {A} : M A := fun c => (Diverges, c).
Definition bindM {A B} (m : M A) (k : A -> M B) : M B := fun c =>
  match m c with
  | (Ok a, c') => k a c'
  | (Raise e, c') => (Raise e, c')
  | (Diverges, c') => (Diverges, c')
  end.
Definition lift {A} (r : Result A) : M A := fun c => (r, c).

Notation "x <- m ;; k" := (bindM m (fun x => k))
  (at level 100, m at next level, right associativity).

Section WithEnv.
Variable env : Env.

(** **** [KafkaClient] and [Future]
    Modelled from the spec: the broker client of spec section 1
    ([awaitReady], [send], [poll], [leastLoadedNode]) and the futures it
    returns; [poll(future=f)] runs the I/O loop until [f] is done. *)

Definition future_outcome (c : Client) (future : nat) : option Outcome :=
  dict_get future (arrived c).

Definition succeeded (c : Client) (future : nat) : bool :=
  match future_outcome c future with
  | Some (Succeeded _) => true
  | _ => false
  end.

Definition is_done (c : Client) (future : nat) : bool :=
  match future_outcome c future with
  | Some _ => true
  | None => false
  end.

(** [future.value] *)
Definition future_value (future : nat) : M Response := fun c =>
  match future_outcome c future with
  | Some (Succeeded value) => (Ok value, c)
  | _ => (Ok ResponseNone, c)
  end.

Definition client_least_loaded_node : M Z := fun c =>
  (Ok (least_loaded_node env (length (sent c))), c).

Definition client_await_ready (node_id : Z) : M unit := fun c =>
  match await_ready env (length (sent c)) node_id with
  | Some e => (Raise e, c)
  | None => (Ok tt, c)
  end.

Definition client_send (node_id : Z) (request : Request) : M nat := fun c =>
  (Ok (length (sent c)),
   mkClient (_controller_id c) (sent c ++ [(node_id, request)])
            (in_flight c ++ [length (sent c)]) (arrived c) (now_ms c)).

(** The request [k] completes. *)
Definition deliver (k : nat) (c : Client) : Client :=
  match sent c !! k with
  | Some (node_id, request) =>
      mkClient (_controller_id c) (sent c)
        (filter (fun j => j <> k) (in_flight c))
        (arrived c ++ [(k, answer env k node_id request)])
        (now_ms c + Z.of_nat (latency env k))
  | None =>
      mkClient (_controller_id c) (sent c)
        (filter (fun j => j <> k) (in_flight c)) (arrived c) (now_ms c)
  end.

Definition pick (flying : list nat) : nat :=
  if bool_decide (next_completed env flying ∈ flying)
  then next_completed env flying
  else default 0%nat (head flying).

Fixpoint poll_loop (fuel : nat) (future : nat) (c : Client) : Client :=
  match fuel with
  | O => c
  | S fuel' =>
      if is_done c future then c
      else match in_flight c with
           | [] => c
           | _ :: _ => poll_loop fuel' future (deliver (pick (in_flight c)) c)
           end
  end.

Definition client_poll (future : nat) : M unit := fun c =>
  (Ok tt, poll_loop (length (in_flight c)) future c).

Definition time_time : M Z := fun c => (Ok (now_ms c), c).

Definition time_sleep (ms : Z) : M unit := fun c =>
  (Ok tt, mkClient (_controller_id c) (sent c) (in_flight c) (arrived c)
                   (now_ms c + ms)).

(** **** [KafkaAdminClient] *)

Definition _validate_timeout (timeout_ms : option Z) : Z :=
  or_else timeout_ms (request_timeout_ms env).

(** The [for] loop of [_wait_for_futures]. *)
Fixpoint _wait_for_futures_pass (futures : list nat) : M unit :=
  match futures with
  | [] => ret tt
  | future :: rest =>
      _ <- client_poll future ;;
      fun c =>
        match future_outcome c future with
        | Some (Failed exception) => (Raise exception, c)
        | _ => _wait_for_futures_pass rest c
        end
  end.

Fixpoint _wait_for_futures_loop (fuel : nat) (futures : list nat) : M unit :=
  match fuel with
  | O => diverge
  | S fuel' => fun c =>
      if forallb (succeeded c) futures then (Ok tt, c)
      else (_ <- _wait_for_futures_pass futures ;;
            _wait_for_futures_loop fuel' futures) c
  end.

(** One pass of the [while] loop leaves every future done, so the loop
    test is evaluated at most twice. *)
Definition _wait_for_futures (futures : list nat) : M unit :=
  _wait_for_futures_loop 2 futures.

Definition node_or_least_loaded (node_id : option Z) : M Z :=
  match node_id with
  | None => client_least_loaded_node
  | Some node_id => ret node_id
  end.

Definition send_request (request : Request) (node_id : option Z) : M Response :=
  node_id <- node_or_least_loaded node_id ;;
  _ <- client_await_ready node_id ;;
  future <- client_send node_id request ;;
  _ <- _wait_for_futures [future] ;;
  future_value future.

(** The [for] loop of [send_requests]. *)
Fixpoint send_requests_futures (requests_and_node_ids : list (Request * option Z))
  : M (list nat) :=
  match requests_and_node_ids with
  | [] => ret []
  | (request, node_id) :: rest =>
      node_id <- node_or_least_loaded node_id ;;
      _ <- client_await_ready node_id ;;
      future <- client_send node_id request ;;
      futures <- send_requests_futures rest ;;
      ret (future :: futures)
  end.

(** [[response_fn(future.value) for future in futures]] *)
Fixpoint map_values {A} (response_fn : Response -> Result A) (futures : list nat)
  : M (list A) :=
  match futures with
  | [] => ret []
  | future :: rest =>
      value <- future_value future ;;
      a <- lift (response_fn value) ;;
      l <- map_values response_fn rest ;;
      ret (a :: l)
  end.

Definition send_requests {A} (requests_and_node_ids : list (Request * option Z))
    (response_fn : Response -> Result A) : M (list A) :=
  futures <- send_requests_futures requests_and_node_ids ;;
  _ <- _wait_for_futures futures ;;
  map_values response_fn futures.


(** [controller_version < (0, 10, 0)] on tuples *)
Definition version_lt (a b : Z * Z * Z) : bool :=
  let '(a1, a2, a3) := a in
  let '(b1, b2, b3) := b in
  (a1 <? b1) || ((a1 =? b1) && ((a2 <? b2) || ((a2 =? b2) && (a3 <? b3)))).

Definition str_version (v : Z * Z * Z) : string :=
  let '(v1, v2, v3) := v in
  "(" +:+ pretty v1 +:+ ", " +:+ pretty v2 +:+ ", " +:+ pretty v3 +:+ ")".

(** [response.controller_id] *)
Definition response_controller_id (response : Response) : Result Z :=
  match response with
  | MetadataResponse _ controller_id _ => Ok controller_id
  | _ => Raise (mkExn Errors.AttributeError "controller_id")
  end.

Definition set_controller_id (controller_id : Z) : M unit := fun c =>
  (Ok tt, mkClient controller_id (sent c) (in_flight c) (arrived c) (now_ms c)).

Definition get_controller_id : M Z := fun c => (Ok (_controller_id c), c).

Definition client_check_version (node_id : Z) : M (Z * Z * Z) :=
  match check_version env node_id with
  | inl e => raise e
  | inr broker_version => ret broker_version
  end.

(** The [while time.time() < timeout_at] loop of [_refresh_controller_id];
    times are in milliseconds. *)
Fixpoint _refresh_controller_id_loop (fuel : nat) (request : Request)
    (timeout_at : Z) : M unit :=
  match fuel with
  | O => diverge
  | S fuel' =>
      now <- time_time ;;
      if now <? timeout_at then
        response <- send_request request None ;;
        controller_id <- lift (response_controller_id response) ;;
        if controller_id =? -1 then
          _ <- time_sleep 1000 ;;
          _refresh_controller_id_loop fuel' request timeout_at
        else
          controller_version <- client_check_version controller_id ;;
          if version_lt controller_version (0, 10, 0) then
            raise (mkExn Errors.IncompatibleBrokerVersion
                     ("The controller appears to be running Kafka "
                      +:+ str_version controller_version
                      +:+ ". KafkaAdminClient requires brokers >= 0.10.0.0."))
          else set_controller_id controller_id
      else raise (mkExn Errors.NodeNotReadyError "controller")
  end.

(** Every pass that does not leave the loop sleeps one second, so the
    loop test is evaluated at most [timeout_ms / 1000 + 2] times. *)
Definition _refresh_controller_id (timeout_ms : Z) : M unit :=
  let version := api_version env "MetadataRequest" 8 in
  if bool_decide (version = 0%nat) then
    raise (mkExn Errors.UnrecognizedBrokerVersion
             ("Kafka Admin interface cannot determine the controller using MetadataRequest_v"
              +:+ pretty version +:+ "."))
  else
    now <- time_time ;;
    _refresh_controller_id_loop (Z.to_nat (timeout_ms / 1000) + 2)
      (MetadataRequest version None None None) (now + timeout_ms).

Definition request_failed (error_type : string) (request : Request)
    (response : Response) : Exn :=
  mkExn error_type
    ("Request '" +:+ str_request env request +:+ "' failed with response '"
     +:+ str_response env response +:+ "'.").

(** [tries] is the value of the caller's counter after its decrement. *)
Fixpoint _parse_topic_request_response (topic_error_tuples : list TopicError)
    (request : Request) (response : Response) (tries : nat) : M bool :=
  match topic_error_tuples with
  | [] => ret true
  | e :: rest =>
      let error_type := for_code env (te_error_code e) in
      if negb (tries =? 0)%nat && bool_decide (error_type = Errors.NotControllerError) then
        _ <- _refresh_controller_id 30000 ;;
        ret false
      else if negb (bool_decide (error_type = Errors.NoError)) then
        raise (request_failed error_type request response)
      else _parse_topic_request_response rest request response tries
  end.

(** The inner loop of [_parse_topic_partition_request_response]: [None]
    when the partitions of this topic are exhausted without a verdict. *)
Fixpoint _parse_partition_results (partition_results : list PartitionResult)
    (request : Request) (response : Response) (tries : nat) : M (option bool) :=
  match partition_results with
  | [] => ret None
  | r :: rest =>
      let error_type := for_code env (pr_error_code r) in
      if negb (tries =? 0)%nat && bool_decide (error_type = Errors.NotControllerError) then
        _ <- _refresh_controller_id 30000 ;;
        ret (Some false)
      else if negb (bool_decide (error_type = Errors.NoError))
              && negb (bool_decide (error_type = Errors.ElectionNotNeededError)) then
        raise (request_failed error_type request response)
      else _parse_partition_results rest request response tries
  end.

Fixpoint _parse_election_results
    (replication_election_results : list (string * list PartitionResult))
    (request : Request) (response : Response) (tries : nat) : M bool :=
  match replication_election_results with
  | [] => ret true
  | (topic, partition_results) :: rest =>
      verdict <- _parse_partition_results partition_results request response tries ;;
      match verdict with
      | Some success => ret success
      | None => _parse_election_results rest request response tries
      end
  end.

Definition _parse_topic_partition_request_response (request : Request)
    (response : Response) (tries : nat) : M bool :=
  match response with
  | ElectLeadersResponse _ replication_election_results =>
      _parse_election_results replication_election_results request response tries
  | _ => raise (mkExn Errors.AttributeError "replication_election_results")
  end.

(** [getattr(response, 'topic_errors',
             getattr(response, 'topic_error_codes', None))] *)
Definition topic_error_tuples_of (response : Response) : option (list TopicError) :=
  match response with
  | CreateTopicsResponse topic_errors => Some topic_errors
  | CreatePartitionsResponse topic_errors => Some topic_errors
  | DeleteTopicsResponse topic_error_codes => Some topic_error_codes
  | _ => None
  end.

(** The [while tries] loop of [_send_request_to_controller], entered with
    [tries = 2]. *)
Fixpoint _send_request_to_controller_loop (tries : nat) (request : Request)
  : M Response :=
  match tries with
  | O => raise (mkExn Errors.RuntimeError
                  "This should never happen, please file a bug with full stacktrace if encountered")
  | S tries' =>
      controller_id <- get_controller_id ;;
      response <- send_request request (Some controller_id) ;;
      success <-
        match topic_error_tuples_of response with
        | Some topic_error_tuples =>
            _parse_topic_request_response topic_error_tuples request response tries'
        | None => _parse_topic_partition_request_response request response tries'
        end ;;
      if success : bool then ret response
      else _send_request_to_controller_loop tries' request
  end.

Definition _send_request_to_controller (request : Request) : M Response :=
  _send_request_to_controller_loop 2 request.

Definition _convert_new_topic_request (new_topic : NewTopic)
  : string * Z * Z * list (Z * list Z) * list (string * string) :=
  (nt_name new_topic, num_partitions new_topic, replication_factor new_topic,
   replica_assignments new_topic, topic_configs new_topic).

Definition create_topics (new_topics : list NewTopic) (timeout_ms : option Z)
    (validate_only : bool) : M Response :=
  let version := api_version env "CreateTopicsRequest" 3 in
  let timeout_ms := _validate_timeout timeout_ms in
  if bool_decide (version = 0%nat) then
    if validate_only then
      raise (mkExn Errors.IncompatibleBrokerVersion
               ("validate_only requires CreateTopicsRequest >= v1, which is not supported by Kafka "
                +:+ config_api_version env +:+ "."))
    else
      _send_request_to_controller
        (CreateTopicsRequest version (_convert_new_topic_request <$> new_topics)
           timeout_ms None)
  else if bool_decide (version <= 3)%nat then
    _send_request_to_controller
      (CreateTopicsRequest version (_convert_new_topic_request <$> new_topics)
         timeout_ms (Some validate_only))
  else raise (mkExn Errors.UnboundLocalError "request").

Definition delete_topics (topics : list string) (timeout_ms : option Z) : M Response :=
  let version := api_version env "DeleteTopicsRequest" 3 in
  let timeout_ms := _validate_timeout timeout_ms in
  _send_request_to_controller (DeleteTopicsRequest version topics timeout_ms).

Definition _convert_create_partitions_request (topic_name : string)
    (new_partitions : NewPartitions) : string * (Z * list (list Z)) :=
  (topic_name, (total_count new_partitions, new_assignments new_partitions)).

Definition create_partitions (topic_partitions : list (string * NewPartitions))
    (timeout_ms : option Z) (validate_only : bool) : M Response :=
  let version := api_version env "CreatePartitionsRequest" 1 in
  let timeout_ms := _validate_timeout timeout_ms in
  _send_request_to_controller
    (CreatePartitionsRequest version
       ((fun tn => _convert_create_partitions_request tn.1 tn.2) <$> topic_partitions)
       timeout_ms validate_only).

(** [ElectionType(election_type)] *)
Definition to_ElectionType (election_type : Z) : Result ElectionType :=
  if election_type =? 0 then Ok PREFERRED
  else if election_type =? 1 then Ok UNCLEAN
  else Raise (mkExn Errors.ValueError
                (pretty election_type +:+ " is not a valid ElectionType")).

Definition _convert_topic_partitions (topic_partitions : list (string * list Z))
  : list (string * list Z) := topic_partitions.

Definition _get_all_topic_partitions : list (string * list Z) :=
  cluster_topic_partitions env.

Definition _get_topic_partitions (topic_partitions : option (list (string * list Z)))
  : list (string * list Z) :=
  match topic_partitions with
  | None => _get_all_topic_partitions
  | Some topic_partitions => _convert_topic_partitions topic_partitions
  end.

Definition perform_leader_election (election_type : Z)
    (topic_partitions : option (list (string * list Z))) (timeout_ms : option Z)
  : M Response :=
  let version := api_version env "ElectLeadersRequest" 1 in
  let timeout_ms := _validate_timeout timeout_ms in
  election_type <- lift (to_ElectionType election_type) ;;
  _send_request_to_controller
    (ElectLeadersRequest version election_type
       (_get_topic_partitions topic_partitions) timeout_ms).

(** **** Coordinator lookup *)

Definition _find_coordinator_id_request (group_id : string) : Result Request :=
  let version := api_version env "FindCoordinatorRequest" 2 in
  if bool_decide (version <= 0)%nat then
    Ok (FindCoordinatorRequest version group_id None)
  else if bool_decide (version <= 2)%nat then
    Ok (FindCoordinatorRequest version group_id (Some 0))
  else Raise (mkExn Errors.UnboundLocalError "request").

Definition _find_coordinator_id_process_response (response : Response) : Result Z :=
  match response with
  | FindCoordinatorResponse error_code coordinator_id =>
      let error_type := for_code env error_code in
      if negb (bool_decide (error_type = Errors.NoError)) then
        Raise (mkExn error_type
                 ("FindCoordinatorRequest failed with response '"
                  +:+ str_response env response +:+ "'."))
      else Ok coordinator_id
  | _ => Raise (mkExn Errors.AttributeError "error_code")
  end.

Definition _find_coordinator_ids (group_ids : list string) : M (list (string * Z)) :=
  requests <- lift (mapR (fun group_id =>
                            request ← _find_coordinator_id_request group_id;
                            Ok (request, @None Z))
                         group_ids) ;;
  coordinator_ids <- send_requests requests _find_coordinator_id_process_response ;;
  ret (dict_of (zip group_ids coordinator_ids)).

(** **** Cluster metadata and partition leaders *)

(** [_process_metadata_response]: of the object built by [to_object()]
    the model keeps the entry ["topics"]. *)
Definition _process_metadata_response (metadata_response : Response)
  : Result (list TopicMetadata) :=
  match metadata_response with
  | MetadataResponse _ _ topics => Ok topics
  | ResponseNone => Raise (mkExn Errors.AttributeError "to_object")
  | _ => Raise (mkExn Errors.KeyError "topics")
  end.

Definition _get_cluster_metadata (topics : option (list string))
    (auto_topic_creation : bool) : M (list TopicMetadata) :=
  let version := api_version env "MetadataRequest" 8 in
  request <- lift
    (if bool_decide (version <= 3)%nat then
       if auto_topic_creation then
         Raise (mkExn Errors.IncompatibleBrokerVersion
                  ("auto_topic_creation requires MetadataRequest >= v4, which is not supported by Kafka "
                   +:+ config_api_version env))
       else Ok (MetadataRequest version topics None None)
     else if bool_decide (version <= 7)%nat then
       Ok (MetadataRequest version topics (Some auto_topic_creation) None)
     else
       Ok (MetadataRequest version topics (Some auto_topic_creation) (Some true))) ;;
  response <- send_request request None ;;
  lift (_process_metadata_response response).

(** The two nested [for] loops of [_get_leader_for_partitions]: the
    pair [(leader2partitions, valid_partitions)]. *)
Definition leaders_of_topic (partitions : gset TopicPartition)
    (acc : list (Z * list TopicPartition) * gset TopicPartition)
    (topic : TopicMetadata)
  : list (Z * list TopicPartition) * gset TopicPartition :=
  foldl (fun acc partition =>
           let t2p := mkTopicPartition (tm_topic topic) (pm_partition partition) in
           if bool_decide (t2p ∈ partitions) then
             (dict_append (pm_leader partition) t2p acc.1, acc.2 ∪ {[ t2p ]})
           else acc)
        acc (tm_partitions topic).

Definition leaders_of_metadata (partitions : gset TopicPartition)
    (metadata_topics : list TopicMetadata)
  : list (Z * list TopicPartition) * gset TopicPartition :=
  foldl (leaders_of_topic partitions) ([], ∅) metadata_topics.

Definition unknown_partitions_message (unknown : gset TopicPartition) : string :=
  "The following partitions are not known: "
  +:+ join ", " (str_topic_partition env <$> elements unknown).

Definition _get_leader_for_partitions (partitions : list TopicPartition)
    (timeout_ms : option Z) : M (list (Z * list TopicPartition)) :=
  let timeout_ms := _validate_timeout timeout_ms in
  let partitions : gset TopicPartition := list_to_set partitions in
  let topics : gset string := set_map topic partitions in
  metadata <- _get_cluster_metadata (Some (elements topics)) false ;;
  let '(leader2partitions, valid_partitions) :=
    leaders_of_metadata partitions metadata in
  if negb (bool_decide (size partitions = size valid_partitions)) then
    let unknown := partitions ∖ valid_partitions in
    raise (mkExn Errors.UnknownTopicOrPartitionError
             (unknown_partitions_message unknown))
  else ret leader2partitions.

(** **** [delete_records] *)

(** [topic2partitions] for one leader *)
Definition topic2partitions_of (partitions : list TopicPartition)
  : list (string * list TopicPartition) :=
  foldl (fun acc partition => dict_append (topic partition) partition acc)
        [] partitions.

(** [(tp.partition, records_to_delete[tp])] *)
Definition partition_offset (records_to_delete : list (TopicPartition * Z))
    (tp : TopicPartition) : Result (Z * Z) :=
  match dict_get tp records_to_delete with
  | Some offset => Ok (partition tp, offset)
  | None => Raise (mkExn Errors.KeyError (str_topic_partition env tp))
  end.

Definition delete_records_request (version : nat)
    (records_to_delete : list (TopicPartition * Z))
    (partitions : list TopicPartition) (timeout_ms : Z) : Result Request :=
  topics ← mapR (fun tps : string * list TopicPartition =>
                   offsets ← mapR (partition_offset records_to_delete) tps.2;
                   Ok (tps.1, offsets))
                (topic2partitions_of partitions);
  Ok (DeleteRecordsRequest version topics timeout_ms).

(** [response.to_object()] *)
Definition to_object (response : Response) : Result Response :=
  match response with
  | ResponseNone => Raise (mkExn Errors.AttributeError "to_object")
  | _ => Ok response
  end.

(** The loop over [leader2partitions.items()]: the list [responses]. *)
Fixpoint delete_records_send (version : nat)
    (records_to_delete : list (TopicPartition * Z)) (timeout_ms : Z)
    (leader2partitions : list (Z * list TopicPartition)) : M (list Response) :=
  match leader2partitions with
  | [] => ret []
  | (leader, partitions) :: rest =>
      request <- lift (delete_records_request version records_to_delete
                         partitions timeout_ms) ;;
      response <- send_request request (Some leader) ;;
      obj <- lift (to_object response) ;;
      responses <- delete_records_send version records_to_delete timeout_ms rest ;;
      ret (obj :: responses)
  end.

(** The per-partition results of the responses, in the order the three
    nested loops visit them. *)
Definition results_of_response (response : Response)
  : Result (list (TopicPartition * DeleteRecordsPartition)) :=
  match response with
  | DeleteRecordsResponse topics =>
      Ok (topic ← topics;
          (fun partition =>
             (mkTopicPartition topic.1 (partition_index partition), partition))
            <$> topic.2)
  | _ => Raise (mkExn Errors.KeyError "topics")
  end.

Definition results_of_responses (responses : list Response)
  : Result (list (TopicPartition * DeleteRecordsPartition)) :=
  rs ← mapR results_of_response responses; Ok (concat rs).

Definition partition2result_of (results : list (TopicPartition * DeleteRecordsPartition))
  : list (TopicPartition * DeleteRecordsPartition) :=
  foldl (fun d r => dict_set r.1 r.2 d) [] results.

Definition partition2error_of (results : list (TopicPartition * DeleteRecordsPartition))
  : list (TopicPartition * Z) :=
  foldl (fun d r =>
           if negb (error_code r.2 =? 0) then dict_set r.1 (error_code r.2) d
           else d)
        [] results.

(** ["%s(partition=%d): %s" % (topic, partition, error name)] *)
Definition partition_error_text (pe : TopicPartition * Z) : string :=
  topic pe.1 +:+ "(partition=" +:+ pretty (partition pe.1) +:+ "): "
  +:+ for_code env pe.2.

(** The part of [delete_records] after the requests: from [responses] to
    the returned dictionary or the exception. *)
Definition delete_records_result (responses : list Response)
  : Result (list (TopicPartition * DeleteRecordsPartition)) :=
  results ← results_of_responses responses;
  let partition2result := partition2result_of results in
  let partition2error := partition2error_of results in
  match partition2error with
  | [] => Ok partition2result
  | [(key, error)] =>
      Raise (mkExn (for_code env error)
               ("Error deleting records from topic " +:+ topic key
                +:+ " partition " +:+ pretty (partition key)))
  | _ =>
      Raise (mkExn Errors.BrokerResponseError
               ("The following errors occured when trying to delete records: "
                +:+ join ", " (partition_error_text <$> partition2error)))
  end.

Definition delete_records (records_to_delete : list (TopicPartition * Z))
    (timeout_ms : option Z) (partition_leader_id : option Z)
  : M (list (TopicPartition * DeleteRecordsPartition)) :=
  let timeout_ms := _validate_timeout timeout_ms in
  let version := api_version env "DeleteRecordsRequest" 0 in
  leader2partitions <-
    match partition_leader_id with
    | None => _get_leader_for_partitions (dict_keys records_to_delete) (Some timeout_ms)
    | Some partition_leader_id =>
        ret [(partition_leader_id,
              elements (list_to_set (dict_keys records_to_delete) : gset TopicPartition))]
    end ;;
  responses <- delete_records_send version records_to_delete timeout_ms
                 leader2partitions ;;
  lift (delete_records_result responses).

(** **** [describe_configs] *)

Definition _convert_describe_config_resource_request (config_resource : ConfigResource)
  : ConfigResourceType * string * option (list string) :=
  (resource_type config_resource, name config_resource,
   match configs config_resource with
   | Some ((_ :: _) as configs) => Some (dict_keys configs)
   | _ => None
   end).

(** The loop over [broker_resources]. *)
Fixpoint broker_requests (version : nat) (include_synonyms : bool)
    (broker_resources : list (ConfigResourceType * string * option (list string)))
  : Result (list (Request * option Z)) :=
  match broker_resources with
  | [] => Ok []
  | broker_resource :: rest =>
      match int env broker_resource.1.2 with
      | None =>
          Raise (mkExn Errors.ValueError
                   "Broker resource names must be an integer or a string represented integer")
      | Some broker_id =>
          let request :=
            if bool_decide (version = 0%nat)
            then DescribeConfigsRequest version [broker_resource] None
            else DescribeConfigsRequest version [broker_resource] (Some include_synonyms) in
          requests ← broker_requests version include_synonyms rest;
          Ok ((request, Some broker_id) :: requests)
      end
  end.

(** The list [requests] that [describe_configs] hands to
    [send_requests]. *)
Definition describe_configs_requests (config_resources : list ConfigResource)
    (include_synonyms : bool) : Result (list (Request * option Z)) :=
  let broker_resources :=
    _convert_describe_config_resource_request
      <$> filter (fun r => resource_type r = BROKER) config_resources in
  let topic_resources :=
    _convert_describe_config_resource_request
      <$> filter (fun r => resource_type r <> BROKER) config_resources in
  let version := api_version env "DescribeConfigsRequest" 2 in
  if include_synonyms && bool_decide (version = 0%nat) then
    Raise (mkExn Errors.IncompatibleBrokerVersion
             ("include_synonyms requires DescribeConfigsRequest >= v1, which is not supported by Kafka "
              +:+ config_api_version env +:+ "."))
  else
    requests ← broker_requests version include_synonyms broker_resources;
    if bool_decide (0 < length topic_resources)%nat then
      Ok (requests ++
          [(if bool_decide (version = 0%nat)
            then DescribeConfigsRequest version topic_resources None
            else DescribeConfigsRequest version topic_resources (Some include_synonyms),
            @None Z)])
    else Ok requests.

Definition describe_configs (config_resources : list ConfigResource)
    (include_synonyms : bool) : M (list Response) :=
  requests <- lift (describe_configs_requests config_resources include_synonyms) ;;
  send_requests requests Ok.

(** **** Consumer groups *)

Definition _list_consumer_groups_request : Request :=
  ListGroupsRequest (api_version env "ListGroupsRequest" 2).

Definition _list_consumer_groups_process_response (response : Response)
  : Result (list (string * string)) :=
  match response with
  | ListGroupsResponse API_VERSION error_code groups =>
      if bool_decide (API_VERSION <= 2)%nat then
        let error_type := for_code env error_code in
        if negb (bool_decide (error_type = Errors.NoError)) then
          Raise (mkExn error_type
                   ("ListGroupsRequest failed with response '"
                    +:+ str_response env response +:+ "'."))
        else Ok groups
      else
        Raise (mkExn Errors.NotImplementedError
                 ("Support for ListGroupsResponse_v" +:+ pretty API_VERSION
                  +:+ " has not yet been added to KafkaAdminClient."))
  | _ => Raise (mkExn Errors.AttributeError "API_VERSION")
  end.

(** [list(set().union( *consumer_groups))] *)
Definition union_of_groups (consumer_groups : list (list (string * string)))
  : list (string * string) :=
  elements (⋃ (list_to_set <$> consumer_groups) : gset (string * string)).

Definition list_consumer_groups (broker_ids : option (list Z))
  : M (list (string * string)) :=
  let broker_ids := default (cluster_brokers env) broker_ids in
  let requests :=
    (fun broker_id => (_list_consumer_groups_request, Some broker_id)) <$> broker_ids in
  consumer_groups <- send_requests requests _list_consumer_groups_process_response ;;
  ret (union_of_groups consumer_groups).

(** [topics_partitions_dict[topic].add(partition)] for every element of
    [partitions], then [list(six.iteritems(topics_partitions_dict))]. *)
Definition topics_partitions_of (partitions : list TopicPartition)
  : list (string * list Z) :=
  (fun ts : string * gset Z => (ts.1, elements ts.2))
    <$> foldl (fun d tp =>
                 dict_set (topic tp)
                   (default ∅ (dict_get (topic tp) d) ∪ {[ partition tp ]}) d)
              [] partitions.

Definition _list_consumer_group_offsets_request (group_id : string)
    (partitions : option (list TopicPartition)) : Result Request :=
  let version := api_version env "OffsetFetchRequest" 5 in
  match partitions with
  | None =>
      if bool_decide (version <= 1)%nat then
        Raise (mkExn Errors.ValueError
                 ("OffsetFetchRequest_v" +:+ pretty version
                  +:+ " requires specifying the
                    partitions for which to fetch offsets. Omitting the
                    partitions is only supported on brokers >= 0.10.2.
                    For details, see KIP-88."))
      else Ok (OffsetFetchRequest version group_id None)
  | Some partitions =>
      Ok (OffsetFetchRequest version group_id (Some (topics_partitions_of partitions)))
  end.

End WithEnv.
End Admin.

(** ** Concrete environments

    The environments at which the general statements below are
    instantiated. *)

Module Scenario.
Import Py Structs Admin.

(** Broker error codes of the Kafka protocol that occur in the
    scenarios. *)
Definition for_code (code : Z) : string :=
  if code =? 0 then Errors.NoError
  else if code =? 3 then Errors.UnknownTopicOrPartitionError
  else if code =? 41 then Errors.NotControllerError
  else if code =? 84 then Errors.ElectionNotNeededError
  else if code =? 36 then "TopicAlreadyExistsError"
  else "UnknownError".

(** Decimal digits with an optional sign; enough of [int] for the
    scenarios. *)
Definition digit_of (a : Ascii.ascii) : option Z :=
  let n := Z.of_nat (Ascii.nat_of_ascii a) in
  if (48 <=? n) && (n <=? 57) then Some (n - 48) else None.

Fixpoint digits (s : string) (acc : Z) : option Z :=
  match s with
  | EmptyString => Some acc
  | String a s' =>
      match digit_of a with
      | Some d => digits s' (10 * acc + d)
      | None => None
      end
  end.

Definition int (s : string) : option Z :=
  match s with
  | EmptyString => None
  | String "-"%char (String _ _ as s') => Z.opp <$> digits s' 0
  | _ => digits s 0
  end.

Definition str_topic_partition (tp : TopicPartition) : string :=
  "TopicPartition(topic='" +:+ topic tp +:+ "', partition="
  +:+ pretty (partition tp) +:+ ")".

Definition timed_out : Outcome :=
  Failed (mkExn "RequestTimedOutError" "").

(** Every API negotiates [version]; the [k]-th request sent is answered
    by the [k]-th element of [answers]; requests complete in the order
    chosen by [schedule]. *)
Definition scripted (version : nat) (answers : list Outcome)
    (schedule : list nat -> nat) : Env :=
  {| Admin.for_code := for_code;
     request_timeout_ms := 30000;
     config_api_version := "(2, 6, 0)";
     api_version := fun _ max_version => Nat.min version max_version;
     least_loaded_node := fun _ => 0;
     await_ready := fun _ _ => None;
     answer := fun k _ _ => default timed_out (answers !! k);
     latency := fun _ => 5%nat;
     next_completed := schedule;
     check_version := fun _ => inr (2, 6, 0);
     cluster_brokers := [0; 1; 2];
     cluster_topic_partitions := [("t", [0; 1])];
     str_request := fun _ => "<request>";
     str_response := fun _ => "<response>";
     Admin.str_topic_partition := str_topic_partition;
     Admin.int := int |}.

(** Completion in the order of sending, and in the reverse order. *)
Definition fifo (flying : list nat) : nat := default 0%nat (head flying).
Definition lifo (flying : list nat) : nat := default 0%nat (last flying).

(** A client whose controller is node 1, with nothing sent yet. *)
Definition fresh_client : Client := mkClient 1 [] [] [] 0.

End Scenario.

(** * Properties *)

(** ** The protocol registries *)

Module ProtocolFacts.
Import Protocol.

(** Every registry but four is indexed by API version and holds classes
    of the base its name announces. *)
Lemma ill_formed_registries :
  (fun r => r.1.1) <$> filter (fun r => well_formed_registry r = false) registries
  = ["ListGroupsRequest"; "AlterConfigsResponse";
     "ElectLeadersRequest"; "ElectLeadersResponse"].
Proof. vm_compute. reflexivity. Qed.

(** C7 (the code departs from the specification): the class at index 2 of
    [ListGroupsRequest] has [API_VERSION] 1, the class at index 1 of
    [AlterConfigsResponse] is the request class [AlterConfigsRequest_v1],
    and the classes at index 0 of [ElectLeadersRequest] and
    [ElectLeadersResponse] have [API_VERSION] 1; so these registries are
    not indexed by version, and the second is not a list of response
    classes. *)
Theorem registries_not_indexed_by_version :
  API_VERSION <$> ListGroupsRequest !! 2%nat = Some 1
  /\ AlterConfigsResponse !! 1%nat = Some AlterConfigsRequest_v1
  /\ cls_base AlterConfigsRequest_v1 = Request
  /\ AlterConfigsRequest_v1 <> AlterConfigsResponse_v1
  /\ API_VERSION <$> ElectLeadersRequest !! 0%nat = Some 1
  /\ API_VERSION <$> ElectLeadersResponse !! 0%nat = Some 1
  /\ indexed_by_version ListGroupsRequest = false
  /\ all_of_base Response AlterConfigsResponse = false
  /\ indexed_by_version ElectLeadersRequest = false
  /\ indexed_by_version ElectLeadersResponse = false.
Proof. repeat split; try reflexivity. discriminate. Qed.

End ProtocolFacts.

(** ** The round-robin assignor *)

Module RoundRobinFacts.
Import Py Structs RoundRobin.

(** Three members subscribed to the same topic ["t"]: a static member,
    a dynamic member, a static member, in this order in the
    dictionary. *)
Definition interleaved : list (string * Subscription) :=
  [("m1", mkSubscription ["t"] (Some "a"));
   ("m2", mkSubscription ["t"] None);
   ("m3", mkSubscription ["t"] (Some "c"))].

(** ["t"] has the partitions 0, 1 and 2. *)
Definition three_partitions : Cluster :=
  fun topic => if decide (topic = "t") then Some {[ 0; 1; 2 ]} else None.

(** [groupby] yields the key [True] twice and the dictionary
    comprehension keeps the last group only: ["m1"] is not a member of
    [member_list]. *)
Lemma interleaved_member_list :
  member_list interleaved = [(Some "c", "m3"); (None, "m2")].
Proof. vm_compute. reflexivity. Qed.

(** C9 (the code departs from the specification): all three members subscribe
    to the same topic set and the topic has metadata, yet ["m3"] is
    assigned two partitions and ["m1"] none; every partition is still
    assigned exactly once. *)
Theorem assign_unbalanced :
  (forall ms, ms ∈ interleaved -> topics ms.2 = ["t"])
  /\ (forall t, t ∈ all_topics interleaved -> is_Some (three_partitions t))
  /\ exists a1 a2 a3,
      assign three_partitions interleaved = Ok [("m1", a1); ("m2", a2); ("m3", a3)]
      /\ assigned_count a1 = 0%nat
      /\ assigned_count a3 = 2%nat
      /\ partitions_of a1 ++ partitions_of a2 ++ partitions_of a3
         ≡ₚ all_topic_partitions three_partitions interleaved.
Proof.
  split; [|split].
  - intros ms Hms. unfold interleaved in Hms.
    repeat (apply elem_of_cons in Hms as [->|Hms]; [reflexivity|]).
    by apply elem_of_nil in Hms.
  - intros t Ht.
    assert (all_topics interleaved = {[ "t" ]}) as Hall by (vm_compute; reflexivity).
    rewrite Hall in Ht. apply elem_of_singleton in Ht as ->.
    vm_compute. eauto.
  - eexists _, _, _. split; [vm_compute; reflexivity|].
    split; [reflexivity|]. split; [reflexivity|].
    vm_compute. apply perm_swap.
Qed.

End RoundRobinFacts.

(** ** The admin client *)

Module AdminFacts.
Import Py Structs Admin.

Section Facts.
Variable env : Env.

(** The helper [_validate_timeout] is [timeout_ms or request_timeout_ms]:
    it returns [timeout_ms] when it is truthy and the configured
    [request_timeout_ms] otherwise; a timeout of 0 is replaced by the
    configured default, and the result is not 0 when [request_timeout_ms]
    is not 0. *)
Lemma _validate_timeout_spec (timeout_ms : option Z) :
  (_validate_timeout env timeout_ms
   = if truthy timeout_ms then default 0 timeout_ms else request_timeout_ms env)
  /\ (truthy timeout_ms = true <-> exists z, timeout_ms = Some z /\ z <> 0)
  /\ _validate_timeout env (Some 0) = request_timeout_ms env
  /\ _validate_timeout env None = request_timeout_ms env
  /\ (request_timeout_ms env <> 0 -> _validate_timeout env timeout_ms <> 0).
Proof.
  unfold _validate_timeout, or_else, truthy.
  destruct timeout_ms as [z|]; simpl.
  - destruct (Z.eqb_spec z 0) as [->|Hz]; simpl; repeat split; try done.
    + intros [z [[= <-] Hz]]. done.
    + intros _. eauto.
  - repeat split; try done. intros [z [[=] _]].
Qed.

(** C6 (the code departs from the specification): with [partitions=None] and a
    negotiated OffsetFetch version below 2 the request builder raises
    before any request exists, and what it raises is [ValueError], not
    [IncompatibleBrokerVersion]. *)
Theorem offsets_request_raises_ValueError (group_id : string) :
  (api_version env "OffsetFetchRequest" 5 < 2)%nat ->
  exists e,
    _list_consumer_group_offsets_request env group_id None = Raise e
    /\ exn_type e = Errors.ValueError
    /\ exn_type e <> Errors.IncompatibleBrokerVersion.
Proof.
  intros Hversion. unfold _list_consumer_group_offsets_request.
  rewrite bool_decide_true by lia.
  eexists. split; [reflexivity|]. split; [reflexivity|discriminate].
Qed.

End Facts.

Lemma offsets_request_raises_ValueError_witness :
  exists e,
    _list_consumer_group_offsets_request
      (Scenario.scripted 1 [] Scenario.fifo) "g" None = Raise e
    /\ exn_type e = Errors.ValueError
    /\ exn_type e <> Errors.IncompatibleBrokerVersion.
Proof.
  apply (offsets_request_raises_ValueError (Scenario.scripted 1 [] Scenario.fifo) "g").
  vm_compute. lia.
Defined.

End AdminFacts.

(** * The network layer: futures, polling and fan-out *)

Module NetworkFacts.
Import Py Structs Admin.

(** *** Insertion-ordered dictionaries *)

Section DictFacts.
Context {K V : Type} `{EqDecision K}.
Implicit Types (d : list (K * V)) (k : K) (v : V).

Lemma dict_get_app d1 d2 k :
  dict_get k (d1 ++ d2) = match dict_get k d1 with
                          | Some v => Some v
                          | None => dict_get k d2
                          end.
Proof.
  induction d1 as [|[k' v'] d1 IH]; simpl; [done|].
  case_decide; done.
Qed.

Lemma dict_get_Some_elem_of d k v : dict_get k d = Some v -> (k, v) ∈ d.
Proof.
  induction d as [|[k' v'] d IH]; simpl; [done|].
  case_decide; subst.
  - intros [= ->]. left.
  - intros. right. auto.
Qed.

Lemma dict_get_None d k : dict_get k d = None <-> k ∉ d.*1.
Proof.
  induction d as [|[k' v'] d IH]; simpl.
  - split; [intros _; apply not_elem_of_nil | done].
  - case_decide; subst.
    + split; [done|]. intros []. left.
    + rewrite IH, not_elem_of_cons. tauto.
Qed.

Lemma dict_get_set d k k' v :
  dict_get k' (dict_set k v d) = if decide (k' = k) then Some v else dict_get k' d.
Proof.
  induction d as [|[k0 v0] d IH]; simpl.
  - reflexivity.
  - destruct (decide (k = k0)) as [->|Hk]; simpl.
    + destruct (decide (k' = k0)); reflexivity.
    + rewrite IH. destruct (decide (k' = k0)) as [->|]; [|done].
      by rewrite decide_False.
Qed.

Lemma dict_keys_set d k v :
  dict_keys (dict_set k v d)
  = if decide (k ∈ dict_keys d) then dict_keys d else dict_keys d ++ [k].
Proof.
  unfold dict_keys. induction d as [|[k0 v0] d IH].
  - rewrite decide_False by apply not_elem_of_nil. reflexivity.
  - cbn [dict_set]. destruct (decide (k = k0)) as [->|Hk].
    + rewrite decide_True by (rewrite fmap_cons; left). reflexivity.
    + rewrite !fmap_cons, IH. cbn [fst]. destruct (decide (k ∈ d.*1)).
      * rewrite decide_True by (by right). reflexivity.
      * rewrite decide_False; [reflexivity|].
        rewrite elem_of_cons. tauto.
Qed.

Lemma dict_keys_set_NoDup d k v :
  NoDup (dict_keys d) -> NoDup (dict_keys (dict_set k v d)).
Proof.
  intros Hnd. rewrite dict_keys_set. case_decide; [done|].
  apply NoDup_app. split; [done|]. split; [|apply NoDup_singleton].
  intros x Hx ->%list_elem_of_singleton. done.
Qed.

Lemma elem_of_dict_keys_set d k k' v :
  k' ∈ dict_keys (dict_set k v d) <-> k' = k \/ k' ∈ dict_keys d.
Proof.
  rewrite dict_keys_set. case_decide.
  - split; [tauto|]. by intros [->|].
  - rewrite elem_of_app, list_elem_of_singleton. tauto.
Qed.

Lemma elem_of_dict_NoDup d k v :
  NoDup (dict_keys d) -> (k, v) ∈ d -> dict_get k d = Some v.
Proof.
  unfold dict_keys.
  induction d as [|[k0 v0] d IH]; simpl; intros Hnd Hin.
  - by apply elem_of_nil in Hin.
  - apply NoDup_cons in Hnd as [Hk0 Hnd].
    apply elem_of_cons in Hin as [[= -> ->]|Hin].
    + by rewrite decide_True.
    + rewrite decide_False; [auto|].
      intros ->. apply Hk0. apply list_elem_of_fmap. by exists (k0, v).
Qed.

Lemma dict_of_snoc (l : list (K * V)) k v :
  dict_of (l ++ [(k, v)]) = dict_set k v (dict_of l).
Proof. unfold dict_of. by rewrite foldl_app. Qed.

(** [dict(pairs)[k]] is the value of the last pair with key [k]. *)
Lemma dict_get_dict_of (l : list (K * V)) i k v :
  l !! i = Some (k, v) ->
  (forall j v', (i < j)%nat -> l !! j <> Some (k, v')) ->
  dict_get k (dict_of l) = Some v.
Proof.
  revert i. induction l as [|[k' v'] l IH] using rev_ind; intros i Hi Hlast.
  - by rewrite lookup_nil in Hi.
  - rewrite dict_of_snoc, dict_get_set.
    destruct (decide (i = length l)) as [->|Hne].
    + rewrite list_lookup_middle in Hi by done. injection Hi as -> ->.
      by rewrite decide_True.
    + assert (i < length l)%nat as Hlt.
      { apply lookup_lt_Some in Hi. rewrite length_app in Hi. simpl in Hi. lia. }
      rewrite lookup_app_l in Hi by done.
      destruct (decide (k = k')) as [<-|Hk].
      * exfalso. apply (Hlast (length l) v'); [done|].
        by rewrite list_lookup_middle.
      * apply (IH i Hi). intros j v'' Hj Hjl. apply (Hlast j v'' Hj).
        rewrite lookup_app_l; [done|]. by eapply lookup_lt_Some.
Qed.

End DictFacts.


(** *** The network client *)

Lemma bindM_Ok {A B} (m : M A) (k : A -> M B) c a c' :
  m c = (Ok a, c') -> bindM m k c = k a c'.
Proof. unfold bindM. by intros ->. Qed.

Lemma bindM_Raise {A B} (m : M A) (k : A -> M B) c e c' :
  m c = (Raise e, c') -> bindM m k c = (Raise e, c').
Proof. unfold bindM. by intros ->. Qed.

Lemma bindM_Diverges {A B} (m : M A) (k : A -> M B) c c' :
  m c = (Diverges, c') -> bindM m k c = (Diverges, c').
Proof. unfold bindM. by intros ->. Qed.

Section Network.
Variable env : Env.

(** What the future of the [k]-th request ends with, once it is done. *)
Definition outcome_of (c : Client) (k : nat) : option Outcome :=
  (fun nr : Z * Request => answer env k nr.1 nr.2) <$> sent c !! k.

(** The states the client can be in: requests in flight are distinct
    and were sent, every request sent is in flight or done, and a
    future holds the answer to its own request. *)
Record wf (c : Client) : Prop := mk_wf {
  wf_nodup : NoDup (in_flight c);
  wf_flying : forall k, k ∈ in_flight c -> (k < length (sent c))%nat;
  wf_known : forall k, (k < length (sent c))%nat ->
                       k ∈ in_flight c \/ is_done c k = true;
  wf_arrived : forall k o, (k, o) ∈ arrived c -> outcome_of c k = Some o }.

Lemma future_outcome_wf c k o :
  wf c -> future_outcome c k = Some o -> outcome_of c k = Some o.
Proof.
  intros Hwf Hk. apply (wf_arrived c Hwf).
  by apply dict_get_Some_elem_of.
Qed.

Lemma is_done_outcome c k :
  wf c -> is_done c k = true -> future_outcome c k = outcome_of c k.
Proof.
  unfold is_done. intros Hwf Hd.
  destruct (future_outcome c k) as [o|] eqn:Ho; [|done].
  symmetry. by apply future_outcome_wf.
Qed.

Lemma wf_fresh cid now : wf (mkClient cid [] [] [] now).
Proof.
  split; simpl.
  - constructor.
  - intros k Hk. by apply elem_of_nil in Hk.
  - intros k Hk. lia.
  - intros k o Hk. by apply elem_of_nil in Hk.
Qed.

Lemma pick_elem_of flying : flying <> [] -> pick env flying ∈ flying.
Proof.
  intros Hne. unfold pick. case_bool_decide; [done|].
  destruct flying; [done|]. simpl. left.
Qed.

Lemma deliver_sent k c : sent (deliver env k c) = sent c.
Proof. unfold deliver. by destruct (sent c !! k) as [[]|]. Qed.

Lemma deliver_controller k c : _controller_id (deliver env k c) = _controller_id c.
Proof. unfold deliver. by destruct (sent c !! k) as [[]|]. Qed.

Lemma deliver_now k c : now_ms c <= now_ms (deliver env k c).
Proof. unfold deliver. destruct (sent c !! k) as [[]|]; simpl; lia. Qed.

Lemma deliver_in_flight k c :
  in_flight (deliver env k c) = filter (fun j => j <> k) (in_flight c).
Proof. unfold deliver. by destruct (sent c !! k) as [[]|]. Qed.

Lemma deliver_is_done k c j :
  is_done c j = true -> is_done (deliver env k c) j = true.
Proof.
  unfold is_done, future_outcome, deliver.
  destruct (sent c !! k) as [[node request]|]; simpl; [|done].
  rewrite dict_get_app. by destruct (dict_get j (arrived c)).
Qed.

Lemma deliver_wf k c : wf c -> k ∈ in_flight c -> wf (deliver env k c).
Proof.
  intros Hwf Hk.
  pose proof (wf_flying c Hwf k Hk) as Hlt.
  destruct (lookup_lt_is_Some_2 _ _ Hlt) as [[node request] Hs].
  split.
  - rewrite deliver_in_flight. apply NoDup_filter, Hwf.
  - intros j. rewrite deliver_in_flight, deliver_sent.
    intros [_ Hj]%list_elem_of_filter. by apply Hwf.
  - intros j. rewrite deliver_sent, deliver_in_flight. intros Hj.
    destruct (decide (j = k)) as [->|Hne].
    + right. unfold is_done, future_outcome, deliver. rewrite Hs. simpl.
      rewrite dict_get_app. destruct (dict_get k (arrived c)); [done|].
      simpl. by rewrite decide_True.
    + destruct (wf_known c Hwf j Hj) as [Hin|Hd].
      * left. by apply list_elem_of_filter.
      * right. by apply deliver_is_done.
  - intros j o. unfold outcome_of. rewrite deliver_sent.
    unfold deliver. rewrite Hs. simpl.
    intros [Hin|Hin%list_elem_of_singleton]%elem_of_app.
    + by apply (wf_arrived c Hwf).
    + injection Hin as -> ->. by rewrite Hs.
Qed.

(** [poll(future=f)] leaves [f] done, whatever the order of completion. *)
Lemma poll_loop_spec fuel future c :
  wf c -> (length (in_flight c) <= fuel)%nat ->
  wf (poll_loop env fuel future c)
  /\ sent (poll_loop env fuel future c) = sent c
  /\ _controller_id (poll_loop env fuel future c) = _controller_id c
  /\ now_ms c <= now_ms (poll_loop env fuel future c)
  /\ (forall j, is_done c j = true -> is_done (poll_loop env fuel future c) j = true)
  /\ ((future < length (sent c))%nat -> is_done (poll_loop env fuel future c) future = true).
Proof.
  revert c. induction fuel as [|fuel IH]; intros c Hwf Hfuel; simpl.
  - split_and!; try done; try lia.
    intros Hf. destruct (wf_known c Hwf future Hf) as [Hin|Hd]; [|done].
    destruct (in_flight c); [by apply elem_of_nil in Hin|simpl in Hfuel; lia].
  - destruct (is_done c future) eqn:Hd; [split_and!; try done; lia|].
    destruct (in_flight c) as [|k0 flying] eqn:Hfl.
    + split_and!; try done; try lia.
      intros Hf. destruct (wf_known c Hwf future Hf) as [Hin|Hd']; [|congruence].
      rewrite Hfl in Hin. by apply elem_of_nil in Hin.
    + assert (pick env (k0 :: flying) ∈ in_flight c) as Hpick
        by (rewrite Hfl; by apply pick_elem_of).
      destruct (IH (deliver env (pick env (k0 :: flying)) c)) as (H1 & H2 & H3 & H4 & H5 & H6).
      * by apply deliver_wf.
      * rewrite deliver_in_flight.
        assert (length (filter (fun j => j <> pick env (k0 :: flying)) (in_flight c))
                < length (in_flight c))%nat.
        { apply (length_filter_lt _ _ (pick env (k0 :: flying))); [done|]. tauto. }
        rewrite Hfl in *. simpl in *. lia.
      * rewrite deliver_sent, deliver_controller in *.
        split_and!; try done.
        -- pose proof (deliver_now (pick env (k0 :: flying)) c). lia.
        -- intros j Hj. by apply H5, deliver_is_done.
Qed.


(** **** Sending *)

Definition sent_by (node_id : Z) (request : Request) (c : Client) : Client :=
  mkClient (_controller_id c) (sent c ++ [(node_id, request)])
           (in_flight c ++ [length (sent c)]) (arrived c) (now_ms c).

Lemma client_send_run node_id request c :
  client_send node_id request c = (Ok (length (sent c)), sent_by node_id request c).
Proof. reflexivity. Qed.

Lemma outcome_of_sent_by node_id request c k :
  (k < length (sent c))%nat ->
  outcome_of (sent_by node_id request c) k = outcome_of c k.
Proof. intros Hk. unfold outcome_of. simpl. by rewrite lookup_app_l. Qed.

Lemma outcome_of_lt c k o : outcome_of c k = Some o -> (k < length (sent c))%nat.
Proof.
  unfold outcome_of. intros Ho. apply lookup_lt_is_Some.
  destruct (sent c !! k); [eauto|done].
Qed.

Lemma sent_by_wf node_id request c : wf c -> wf (sent_by node_id request c).
Proof.
  intros Hwf. split; simpl.
  - apply NoDup_app. split_and!; [apply Hwf| |apply NoDup_singleton].
    intros k Hk ->%list_elem_of_singleton.
    apply (wf_flying c Hwf) in Hk. lia.
  - intros k. rewrite length_app. simpl.
    intros [Hk| ->%list_elem_of_singleton]%elem_of_app; [|lia].
    apply (wf_flying c Hwf) in Hk. lia.
  - intros k. rewrite length_app. simpl. intros Hk.
    destruct (decide (k = length (sent c))) as [->|Hne].
    + left. apply elem_of_app. right. by apply list_elem_of_singleton.
    + destruct (wf_known c Hwf k) as [Hin|Hd]; [lia| |by right].
      left. apply elem_of_app. by left.
  - intros k o Hin. pose proof (wf_arrived c Hwf k o Hin) as Ho.
    rewrite outcome_of_sent_by; [done|]. by eapply outcome_of_lt.
Qed.

(** **** Waiting *)

(** The exception of the first failed future of a list of outcomes. *)
Fixpoint first_failure (outcomes : list Outcome) : option Exn :=
  match outcomes with
  | [] => None
  | Failed exception :: _ => Some exception
  | Succeeded _ :: rest => first_failure rest
  end.

(** The values of the futures when none failed. *)
Fixpoint values_of (outcomes : list Outcome) : list Response :=
  match outcomes with
  | [] => []
  | Succeeded value :: rest => value :: values_of rest
  | Failed _ :: rest => values_of rest
  end.

Definition outcomes_of (c : Client) (futures : list nat) : list Outcome :=
  omap (outcome_of c) futures.

Definition waited (outcomes : list Outcome) : Result unit :=
  match first_failure outcomes with
  | Some exception => Raise exception
  | None => Ok tt
  end.

Lemma outcomes_of_cons c future futures o :
  outcome_of c future = Some o ->
  outcomes_of c (future :: futures) = o :: outcomes_of c futures.
Proof. unfold outcomes_of. simpl. by intros ->. Qed.

Lemma outcomes_of_ext c c' futures :
  sent c' = sent c -> outcomes_of c' futures = outcomes_of c futures.
Proof. intros Hs. unfold outcomes_of, outcome_of. by rewrite Hs. Qed.

Lemma _wait_for_futures_pass_spec futures c :
  wf c -> (forall f, f ∈ futures -> (f < length (sent c))%nat) ->
  exists c',
    _wait_for_futures_pass env futures c = (waited (outcomes_of c futures), c')
    /\ wf c' /\ sent c' = sent c /\ _controller_id c' = _controller_id c
    /\ now_ms c <= now_ms c'
    /\ (forall j, is_done c j = true -> is_done c' j = true)
    /\ (first_failure (outcomes_of c futures) = None ->
        forall f, f ∈ futures -> is_done c' f = true).
Proof.
  revert c. induction futures as [|f futures IH]; intros c Hwf Hlt.
  - exists c. split_and!; try done; try lia.
    intros _ f Hf. by apply elem_of_nil in Hf.
  - cbn [_wait_for_futures_pass]. unfold bindM, client_poll.
    pose proof (poll_loop_spec (length (in_flight c)) f c Hwf (le_n _))
      as (Hwf1 & Hs1 & Hc1 & Hn1 & Hd1 & Hf1).
    set (c1 := poll_loop env (length (in_flight c)) f c) in *.
    specialize (Hf1 (Hlt f ltac:(left))).
    pose proof (is_done_outcome c1 f Hwf1 Hf1) as Ho.
    assert (exists o, outcome_of c f = Some o) as [o Hof].
    { unfold outcome_of.
      destruct (lookup_lt_is_Some_2 (sent c) f (Hlt f ltac:(left))) as [nr ->].
      simpl. eauto. }
    assert (outcome_of c1 f = Some o) as Hof1
      by (unfold outcome_of in *; by rewrite Hs1).
    rewrite Hof1 in Ho. rewrite Ho.
    rewrite (outcomes_of_cons c f futures o Hof).
    destruct o as [value|exception].
    + destruct (IH c1 Hwf1) as (c' & Hrun & Hwf' & Hs' & Hc' & Hn' & Hd' & Hall).
      { intros g Hg. rewrite Hs1. apply Hlt. by right. }
      rewrite (outcomes_of_ext c c1) in Hrun, Hall by done.
      exists c'. rewrite Hrun.
      split_and!; try done; try congruence; try lia.
      * intros j Hj. by apply Hd', Hd1.
      * unfold waited in *. simpl. intros Hnone g [->|Hg]%elem_of_cons.
        -- by apply Hd'.
        -- by apply Hall.
    + exists c1. split_and!; try done.
Qed.

Lemma succeeded_outcome c f :
  wf c -> succeeded c f = true ->
  exists value, outcome_of c f = Some (Succeeded value).
Proof.
  unfold succeeded. intros Hwf Hs.
  destruct (future_outcome c f) as [[value|]|] eqn:Ho; try done.
  exists value. by apply future_outcome_wf.
Qed.

Lemma forallb_succeeded_no_failure c futures :
  wf c -> forallb (succeeded c) futures = true ->
  first_failure (outcomes_of c futures) = None.
Proof.
  intros Hwf. induction futures as [|f futures IH]; [done|].
  cbn [forallb]. intros [Hf Hrest]%andb_prop.
  destruct (succeeded_outcome c f Hwf Hf) as [value Ho].
  rewrite (outcomes_of_cons _ _ _ _ Ho). simpl. auto.
Qed.

Lemma no_failure_succeeded c futures :
  wf c -> first_failure (outcomes_of c futures) = None ->
  (forall f, f ∈ futures -> is_done c f = true) ->
  forallb (succeeded c) futures = true.
Proof.
  intros Hwf. induction futures as [|f futures IH]; [done|].
  cbn [forallb]. intros Hnone Hdone.
  pose proof (is_done_outcome c f Hwf (Hdone f ltac:(left))) as Ho.
  assert (is_done c f = true) as Hd by (apply Hdone; left).
  unfold is_done in Hd.
  destruct (future_outcome c f) as [o|] eqn:Hfo; [|done].
  symmetry in Ho. rewrite (outcomes_of_cons _ _ _ _ Ho) in Hnone.
  unfold succeeded. rewrite Hfo.
  destruct o as [value|exception]; simpl in *; [|done].
  apply IH; [done|]. intros g Hg. apply Hdone. by right.
Qed.

(** [_wait_for_futures] never runs out of fuel: it raises the exception
    of the first failed future, or returns with every future succeeded. *)
Lemma _wait_for_futures_spec futures c :
  wf c -> (forall f, f ∈ futures -> (f < length (sent c))%nat) ->
  exists c',
    _wait_for_futures env futures c = (waited (outcomes_of c futures), c')
    /\ wf c' /\ sent c' = sent c /\ _controller_id c' = _controller_id c
    /\ now_ms c <= now_ms c'
    /\ (first_failure (outcomes_of c futures) = None ->
        forallb (succeeded c') futures = true).
Proof.
  intros Hwf Hlt. unfold _wait_for_futures. cbn [_wait_for_futures_loop].
  destruct (forallb (succeeded c) futures) eqn:Hall.
  - exists c. unfold waited.
    rewrite (forallb_succeeded_no_failure c futures Hwf Hall).
    split_and!; try done; lia.
  - unfold bindM.
    destruct (_wait_for_futures_pass_spec futures c Hwf Hlt)
      as (c' & Hrun & Hwf' & Hs' & Hc' & Hn' & Hd' & Hdone).
    rewrite Hrun. unfold waited in *.
    destruct (first_failure (outcomes_of c futures)) as [e|] eqn:Hff.
    + exists c'. split_and!; try done.
    + assert (forallb (succeeded c') futures = true) as Hall'.
      { apply no_failure_succeeded; [done| |by apply Hdone].
        by rewrite (outcomes_of_ext c c'). }
      rewrite Hall'. exists c'. split_and!; try done.
Qed.

Lemma future_value_succeeded c f value :
  wf c -> succeeded c f = true -> outcome_of c f = Some (Succeeded value) ->
  future_value f c = (Ok value, c).
Proof.
  unfold succeeded, future_value. intros Hwf Hs Ho.
  destruct (future_outcome c f) as [[v|]|] eqn:Hfo; try done.
  apply future_outcome_wf in Hfo; [|done]. congruence.
Qed.

(** **** [send_request] *)

Definition resolve (n : nat) (node_id : option Z) : Z :=
  match node_id with
  | Some node_id => node_id
  | None => least_loaded_node env n
  end.

Definition result_of (o : Outcome) : Result Response :=
  match o with
  | Succeeded value => Ok value
  | Failed exception => Raise exception
  end.

Lemma send_request_spec request node_id c :
  wf c ->
  let n := length (sent c) in
  let node := resolve n node_id in
  match await_ready env n node with
  | Some e => send_request env request node_id c = (Raise e, c)
  | None =>
      exists c',
        send_request env request node_id c
        = (result_of (answer env n node request), c')
        /\ wf c' /\ sent c' = sent c ++ [(node, request)]
        /\ _controller_id c' = _controller_id c
        /\ now_ms c <= now_ms c'
  end.
Proof.
  intros Hwf n node.
  assert (node_or_least_loaded env node_id c = (Ok node, c)) as Hnode
    by (by destruct node_id).
  assert (client_await_ready env node c
          = match await_ready env n node with
            | Some e => (Raise e, c)
            | None => (Ok tt, c)
            end) as Hready by reflexivity.
  unfold send_request. erewrite bindM_Ok by exact Hnode.
  destruct (await_ready env n node) as [e|].
  { by erewrite bindM_Raise by exact Hready. }
  erewrite bindM_Ok by exact Hready.
  erewrite bindM_Ok by apply client_send_run.
  set (c1 := sent_by node request c).
  pose proof (sent_by_wf node request c Hwf) as Hwf1. fold c1 in Hwf1.
  assert (outcome_of c1 n = Some (answer env n node request)) as Ho.
  { unfold outcome_of, c1. simpl. by rewrite list_lookup_middle. }
  destruct (_wait_for_futures_spec [n] c1 Hwf1) as (c' & Hrun & Hwf' & Hs' & Hc' & Hn' & Hall).
  { intros f ->%list_elem_of_singleton. unfold c1. simpl.
    rewrite length_app. simpl. lia. }
  fold n. rewrite (outcomes_of_cons c1 n [] _ Ho) in Hrun, Hall.
  unfold waited in Hrun. cbn [first_failure] in Hrun, Hall.
  destruct (answer env n node request) as [value|exception] eqn:Hans.
  - erewrite bindM_Ok by exact Hrun.
    specialize (Hall eq_refl). cbn [forallb] in Hall.
    apply andb_prop in Hall as [Hsucc _].
    rewrite (future_value_succeeded c' n value); [|done..|].
    + exists c'. split_and!; done.
    + unfold outcome_of in *. by rewrite Hs'.
  - erewrite bindM_Raise by exact Hrun.
    exists c'. split_and!; done.
Qed.

(** **** [send_requests] *)

(** The requests handed to [KafkaClient.send] by the loop of
    [send_requests], each with its node, and the exception of
    [await_ready] that stops the loop, if any; [n] requests were sent
    before. *)
Fixpoint dispatch (n : nat) (requests_and_node_ids : list (Request * option Z))
  : list (Z * Request) * option Exn :=
  match requests_and_node_ids with
  | [] => ([], None)
  | (request, node_id) :: rest =>
      match await_ready env n (resolve n node_id) with
      | Some e => ([], Some e)
      | None => ((resolve n node_id, request) :: (dispatch (S n) rest).1,
                 (dispatch (S n) rest).2)
      end
  end.

Definition after_dispatch (l : list (Z * Request)) (c : Client) : Client :=
  mkClient (_controller_id c) (sent c ++ l)
           (in_flight c ++ seq (length (sent c)) (length l))
           (arrived c) (now_ms c).

(** The outcomes of the requests [l] sent after [n] others. *)
Definition answers (n : nat) (l : list (Z * Request)) : list Outcome :=
  imap (fun i nr => answer env (n + i) nr.1 nr.2) l.

(** What [send_requests] returns from the outcomes of its futures. *)
Definition gathered {A} (response_fn : Response -> Result A)
    (outcomes : list Outcome) : Result (list A) :=
  match first_failure outcomes with
  | Some exception => Raise exception
  | None => mapR response_fn (values_of outcomes)
  end.

Lemma after_dispatch_nil c : after_dispatch [] c = c.
Proof.
  destruct c. unfold after_dispatch. simpl. by rewrite !app_nil_r.
Qed.

Lemma after_dispatch_cons x l c :
  after_dispatch l (sent_by x.1 x.2 c) = after_dispatch (x :: l) c.
Proof.
  destruct x as [node request]. unfold after_dispatch, sent_by. simpl.
  rewrite length_app. simpl. rewrite Nat.add_1_r.
  by rewrite <- !app_assoc.
Qed.

Lemma send_requests_futures_spec requests_and_node_ids c :
  wf c ->
  let n := length (sent c) in
  let l := (dispatch n requests_and_node_ids).1 in
  send_requests_futures env requests_and_node_ids c
  = (match (dispatch n requests_and_node_ids).2 with
     | Some e => Raise e
     | None => Ok (seq n (length l))
     end, after_dispatch l c)
  /\ wf (after_dispatch l c).
Proof.
  revert c. induction requests_and_node_ids as [|[request node_id] rest IH];
    intros c Hwf; cbn zeta.
  - cbn [dispatch fst snd send_requests_futures]. by rewrite after_dispatch_nil.
  - cbn [dispatch send_requests_futures].
    set (n := length (sent c)). set (node := resolve n node_id).
    assert (node_or_least_loaded env node_id c = (Ok node, c)) as Hnode
      by (by destruct node_id).
    assert (client_await_ready env node c
            = match await_ready env n node with
              | Some e => (Raise e, c)
              | None => (Ok tt, c)
              end) as Hready by reflexivity.
    erewrite bindM_Ok by exact Hnode.
    destruct (await_ready env n node) as [e|].
    { erewrite bindM_Raise by exact Hready. cbn [fst snd].
      by rewrite after_dispatch_nil. }
    erewrite bindM_Ok by exact Hready.
    erewrite bindM_Ok by apply client_send_run.
    destruct (IH (sent_by node request c) (sent_by_wf _ _ _ Hwf)) as [Hrun Hwf'].
    assert (length (sent (sent_by node request c)) = S n) as Hlen
      by (simpl; rewrite length_app; simpl; lia).
    rewrite Hlen in Hrun, Hwf'.
    rewrite (after_dispatch_cons (node, request)) in Hrun, Hwf'.
    cbn [fst snd]. split; [|done].
    destruct ((dispatch (S n) rest).2) as [e|].
    + by erewrite bindM_Raise by exact Hrun.
    + erewrite bindM_Ok by exact Hrun. reflexivity.
Qed.

Lemma outcomes_of_seq c s0 l :
  sent c = s0 ++ l ->
  outcomes_of c (seq (length s0) (length l)) = answers (length s0) l.
Proof.
  revert s0. induction l as [|x l IH]; intros s0 Hs; [done|].
  cbn [length seq]. unfold answers. rewrite imap_cons.
  assert (outcome_of c (length s0) = Some (answer env (length s0) x.1 x.2)) as Ho.
  { unfold outcome_of. rewrite Hs, list_lookup_middle by done. done. }
  rewrite (outcomes_of_cons _ _ _ _ Ho). rewrite Nat.add_0_r. f_equal.
  specialize (IH (s0 ++ [x])). rewrite length_app in IH. simpl in IH.
  rewrite Nat.add_1_r in IH. rewrite IH by (by rewrite <- app_assoc).
  unfold answers. apply imap_ext. intros i y _. simpl.
  by rewrite Nat.add_succ_r.
Qed.

Lemma map_values_spec {A} (response_fn : Response -> Result A) futures c :
  wf c -> forallb (succeeded c) futures = true ->
  map_values response_fn futures c
  = (mapR response_fn (values_of (outcomes_of c futures)), c).
Proof.
  intros Hwf. induction futures as [|f futures IH]; [done|].
  cbn [forallb]. intros [Hf Hrest]%andb_prop.
  destruct (succeeded_outcome c f Hwf Hf) as [value Ho].
  rewrite (outcomes_of_cons _ _ _ _ Ho). cbn [values_of mapR map_values].
  erewrite bindM_Ok by (by apply future_value_succeeded).
  specialize (IH Hrest).
  destruct (response_fn value) as [a|e|].
  - erewrite bindM_Ok by reflexivity.
    destruct (mapR response_fn (values_of (outcomes_of c futures))) as [l|e|].
    + by erewrite bindM_Ok by exact IH.
    + by erewrite bindM_Raise by exact IH.
    + by erewrite bindM_Diverges by exact IH.
  - by erewrite bindM_Raise by reflexivity.
  - by erewrite bindM_Diverges by reflexivity.
Qed.

(** [send_requests] hands the requests over in input order, waits, and
    applies [response_fn] to the values of the futures in input order.
    Neither the order of completion nor the latencies occur in the
    result. *)
Lemma send_requests_spec {A} requests_and_node_ids
    (response_fn : Response -> Result A) c :
  wf c ->
  let n := length (sent c) in
  let l := (dispatch n requests_and_node_ids).1 in
  exists c',
    send_requests env requests_and_node_ids response_fn c
    = (match (dispatch n requests_and_node_ids).2 with
       | Some e => Raise e
       | None => gathered response_fn (answers n l)
       end, c')
    /\ wf c' /\ sent c' = sent c ++ l
    /\ _controller_id c' = _controller_id c
    /\ now_ms c <= now_ms c'.
Proof.
  intros Hwf n l. unfold send_requests.
  destruct (send_requests_futures_spec requests_and_node_ids c Hwf) as [Hrun Hwf1].
  fold n l in Hrun, Hwf1.
  destruct ((dispatch n requests_and_node_ids).2) as [e|].
  { erewrite bindM_Raise by exact Hrun. exists (after_dispatch l c).
    split_and!; try done. }
  erewrite bindM_Ok by exact Hrun.
  set (c1 := after_dispatch l c) in *.
  destruct (_wait_for_futures_spec (seq n (length l)) c1 Hwf1)
    as (c' & Hwait & Hwf' & Hs' & Hc' & Hn' & Hall).
  { intros f [_ Hf]%elem_of_seq. unfold c1. simpl. rewrite length_app.
    fold n. lia. }
  assert (outcomes_of c1 (seq n (length l)) = answers n l) as Hos
    by (by apply outcomes_of_seq).
  rewrite Hos in Hwait, Hall. unfold gathered, waited in *.
  destruct (first_failure (answers n l)) as [e|].
  - erewrite bindM_Raise by exact Hwait. exists c'. split_and!; done.
  - erewrite bindM_Ok by exact Hwait.
    rewrite map_values_spec by auto.
    rewrite (outcomes_of_ext c1 c') by done. rewrite Hos.
    exists c'. split_and!; done.
Qed.

(** Every node is ready when its request is handed over. *)
Definition all_ready (n : nat) (requests_and_node_ids : list (Request * option Z)) : Prop :=
  forall i request node_id,
    requests_and_node_ids !! i = Some (request, node_id) ->
    await_ready env (n + i) (resolve (n + i) node_id) = None.

(** The outcome of the [i]-th request of the list. *)
Definition outcome_at (n : nat) (requests_and_node_ids : list (Request * option Z))
    (i : nat) : option Outcome :=
  (fun rn : Request * option Z =>
     answer env (n + i) (resolve (n + i) rn.2) rn.1)
    <$> requests_and_node_ids !! i.

Lemma dispatch_ready n requests_and_node_ids :
  all_ready n requests_and_node_ids ->
  dispatch n requests_and_node_ids
  = (imap (fun i rn => (resolve (n + i) rn.2, rn.1)) requests_and_node_ids, None).
Proof.
  revert n. induction requests_and_node_ids as [|[request node_id] rest IH];
    intros n Hready; [done|].
  cbn [dispatch]. rewrite imap_cons. cbn [fst snd].
  pose proof (Hready 0%nat request node_id eq_refl) as H0.
  rewrite Nat.add_0_r in *. rewrite H0.
  rewrite (IH (S n)).
  - cbn [fst snd]. do 2 f_equal. apply imap_ext. intros i [r nid] _. simpl.
    by rewrite Nat.add_succ_r.
  - intros i r nid Hi. specialize (Hready (S i) r nid Hi).
    by rewrite Nat.add_succ_r in Hready.
Qed.

Lemma answers_lookup n requests_and_node_ids i :
  answers n (imap (fun i rn => (resolve (n + i) rn.2, rn.1)) requests_and_node_ids) !! i
  = outcome_at n requests_and_node_ids i.
Proof.
  unfold answers, outcome_at. rewrite !list_lookup_imap.
  by destruct (requests_and_node_ids !! i) as [[r nid]|].
Qed.

Lemma first_failure_None outcomes :
  first_failure outcomes = None <->
  forall i o, outcomes !! i = Some o -> exists value, o = Succeeded value.
Proof.
  induction outcomes as [|[value|exception] outcomes IH]; simpl.
  - split; [|done]. intros _ i o Hi. by rewrite lookup_nil in Hi.
  - rewrite IH. split.
    + intros H [|i] o; simpl; [intros [= <-]; eauto|apply H].
    + intros H i o Hi. apply (H (S i)). done.
  - split; [done|]. intros H. destruct (H 0%nat _ eq_refl) as [v ?]. done.
Qed.

Lemma values_of_lookup outcomes i value :
  first_failure outcomes = None ->
  outcomes !! i = Some (Succeeded value) -> values_of outcomes !! i = Some value.
Proof.
  revert i. induction outcomes as [|[v|e] outcomes IH]; intros i; simpl; try done.
  destruct i as [|i]; simpl; [by intros _ [= ->]|]. auto.
Qed.

Lemma values_of_length outcomes :
  first_failure outcomes = None -> length (values_of outcomes) = length outcomes.
Proof.
  induction outcomes as [|[v|e] outcomes IH]; simpl; try done.
  intros. f_equal. auto.
Qed.

Lemma mapR_Ok {A B} (f : A -> Result B) l bs :
  mapR f l = Ok bs <-> Forall2 (fun a b => f a = Ok b) l bs.
Proof.
  revert bs. induction l as [|a l IH]; intros bs; simpl.
  - split; [intros [= <-]; constructor|by intros ->%Forall2_nil_inv_l].
  - split.
    + destruct (f a) as [b|e|] eqn:Hfa; try done.
      destruct (mapR f l) as [bs'|e|] eqn:Hl; try done.
      intros [= <-]. constructor; [done|]. by apply IH.
    + intros (b & bs' & Hfa & Hl & ->)%Forall2_cons_inv_l.
      rewrite Hfa. apply IH in Hl. by rewrite Hl.
Qed.

(** [mapR] raises what [f] raises at the first element it does not map. *)
Lemma mapR_Raise {A B} (f : A -> Result B) l i a e :
  l !! i = Some a -> f a = Raise e ->
  (forall j a', (j < i)%nat -> l !! j = Some a' -> exists b, f a' = Ok b) ->
  mapR f l = Raise e.
Proof.
  revert i. induction l as [|x l IH]; intros i Hi Hfa Hbefore; [done|].
  destruct i as [|i]; simpl in *.
  - injection Hi as ->. by rewrite Hfa.
  - destruct (Hbefore 0%nat x) as [b Hb]; [lia|done|]. rewrite Hb.
    rewrite (IH i); [done..|].
    intros j a' Hj Ha'. apply (Hbefore (S j)); [lia|done].
Qed.

Definition planned (n : nat) (requests_and_node_ids : list (Request * option Z))
  : list (Z * Request) :=
  imap (fun i rn => (resolve (n + i) rn.2, rn.1)) requests_and_node_ids.

Lemma gathered_Ok {A} (response_fn : Response -> Result A) outcomes bs :
  length bs = length outcomes ->
  (forall i o, outcomes !! i = Some o ->
     exists value b, o = Succeeded value /\ response_fn value = Ok b /\ bs !! i = Some b) ->
  gathered response_fn outcomes = Ok bs.
Proof.
  intros Hlen Hall. unfold gathered.
  assert (first_failure outcomes = None) as Hnone.
  { apply first_failure_None. intros i o Hi.
    destruct (Hall i o Hi) as (value & _ & -> & _). eauto. }
  rewrite Hnone. apply mapR_Ok. apply Forall2_same_length_lookup. split.
  - rewrite values_of_length by done. done.
  - intros i value b Hv Hb.
    assert (i < length outcomes)%nat as Hi.
    { rewrite <- values_of_length by done. by eapply lookup_lt_Some. }
    destruct (lookup_lt_is_Some_2 _ _ Hi) as [o Ho].
    destruct (Hall i o Ho) as (value' & b' & -> & Hfn & Hb').
    rewrite (values_of_lookup _ _ _ Hnone Ho) in Hv. congruence.
Qed.

Lemma gathered_Raise {A} (response_fn : Response -> Result A) outcomes i value e :
  (forall j o, outcomes !! j = Some o -> exists v, o = Succeeded v) ->
  outcomes !! i = Some (Succeeded value) -> response_fn value = Raise e ->
  (forall j v, (j < i)%nat -> outcomes !! j = Some (Succeeded v) ->
     exists b, response_fn v = Ok b) ->
  gathered response_fn outcomes = Raise e.
Proof.
  intros Hall Hi Hfn Hbefore. unfold gathered.
  assert (first_failure outcomes = None) as Hnone by (by apply first_failure_None).
  rewrite Hnone. apply (mapR_Raise _ _ i value); [by apply values_of_lookup|done|].
  intros j v Hj Hv. apply (Hbefore j); [done|].
  assert (j < length outcomes)%nat as Hjl.
  { rewrite <- values_of_length by done. by eapply lookup_lt_Some. }
  destruct (lookup_lt_is_Some_2 _ _ Hjl) as [o Ho].
  destruct (Hall j o Ho) as [v' ->].
  rewrite (values_of_lookup _ _ _ Hnone Ho) in Hv. congruence.
Qed.

(** When every node is ready, [send_requests] sends the planned
    requests and gathers their outcomes. *)
Lemma send_requests_ready {A} requests_and_node_ids
    (response_fn : Response -> Result A) c :
  wf c -> all_ready (length (sent c)) requests_and_node_ids ->
  exists c',
    send_requests env requests_and_node_ids response_fn c
    = (gathered response_fn
         (answers (length (sent c)) (planned (length (sent c)) requests_and_node_ids)), c')
    /\ wf c'
    /\ sent c' = sent c ++ planned (length (sent c)) requests_and_node_ids
    /\ _controller_id c' = _controller_id c
    /\ now_ms c <= now_ms c'.
Proof.
  intros Hwf Hready.
  destruct (send_requests_spec requests_and_node_ids response_fn c Hwf)
    as (c' & Hrun & Hrest).
  rewrite (dispatch_ready _ _ Hready) in Hrun, Hrest. cbn [fst snd] in *.
  exists c'. by split.
Qed.

(** What [send_requests] returns, as a function of the requests, of
    [response_fn] and of the number [n] of requests sent before. *)
Definition requests_result {A} (requests_and_node_ids : list (Request * option Z))
    (response_fn : Response -> Result A) (n : nat) : Result (list A) :=
  match (dispatch n requests_and_node_ids).2 with
  | Some e => Raise e
  | None => gathered response_fn (answers n (dispatch n requests_and_node_ids).1)
  end.

Lemma send_requests_fst {A} requests_and_node_ids
    (response_fn : Response -> Result A) c :
  wf c ->
  (send_requests env requests_and_node_ids response_fn c).1
  = requests_result requests_and_node_ids response_fn (length (sent c)).
Proof.
  intros Hwf.
  destruct (send_requests_spec requests_and_node_ids response_fn c Hwf)
    as (c' & -> & _).
  reflexivity.
Qed.

End Network.

(** Two environments whose brokers behave alike: they may differ in the
    order of completion and in the latencies. *)
Definition same_broker (env1 env2 : Env) : Prop :=
  (forall n, least_loaded_node env1 n = least_loaded_node env2 n)
  /\ (forall n node, await_ready env1 n node = await_ready env2 n node)
  /\ (forall n node request, answer env1 n node request = answer env2 n node request).

Lemma wf_same_broker env1 env2 c : same_broker env1 env2 -> wf env1 c -> wf env2 c.
Proof.
  intros (_ & _ & Hans) [H1 H2 H3 H4]. split; try done.
  intros k o Hk. specialize (H4 k o Hk). unfold outcome_of in *.
  destruct (sent c !! k) as [[node request]|]; [|done].
  simpl in *. by rewrite <- Hans.
Qed.

Lemma dispatch_same_broker env1 env2 n requests_and_node_ids :
  same_broker env1 env2 ->
  dispatch env1 n requests_and_node_ids = dispatch env2 n requests_and_node_ids.
Proof.
  intros (Hll & Hready & _). revert n.
  induction requests_and_node_ids as [|[request node_id] rest IH]; intros n; [done|].
  cbn [dispatch].
  assert (resolve env1 n node_id = resolve env2 n node_id) as ->
    by (destruct node_id; simpl; auto).
  by rewrite Hready, IH.
Qed.

Lemma answers_same_broker env1 env2 n l :
  same_broker env1 env2 -> answers env1 n l = answers env2 n l.
Proof.
  intros (_ & _ & Hans). unfold answers. apply imap_ext. intros. apply Hans.
Qed.

Lemma requests_result_same_broker {A} env1 env2 requests_and_node_ids
    (response_fn : Response -> Result A) n :
  same_broker env1 env2 ->
  requests_result env1 requests_and_node_ids response_fn n
  = requests_result env2 requests_and_node_ids response_fn n.
Proof.
  intros Hsame. unfold requests_result.
  by rewrite (dispatch_same_broker env1 env2), (answers_same_broker env1 env2).
Qed.

End NetworkFacts.

(** * Facts about the admin operations *)

Module ConsumerGroupFacts.
Import Py Structs Admin NetworkFacts.

Section ListGroups.
Variable env : Env.

(** The queried brokers are ready and each answers its ListGroups
    request without error: broker [i] reports the groups
    [reported !! i]. *)
Definition brokers_report (c : Client) (broker_ids : list Z)
    (reported : list (list (string * string))) : Prop :=
  length reported = length broker_ids
  /\ forall i node,
      broker_ids !! i = Some node ->
      await_ready env (length (sent c) + i) node = None
      /\ exists version error_code groups,
          reported !! i = Some groups
          /\ answer env (length (sent c) + i) node (_list_consumer_groups_request env)
             = Succeeded (ListGroupsResponse version error_code groups)
          /\ (version <= 2)%nat
          /\ for_code env error_code = Errors.NoError.

Lemma union_of_groups_spec (consumer_groups : list (list (string * string))) :
  NoDup (union_of_groups consumer_groups)
  /\ forall g, g ∈ union_of_groups consumer_groups
               <-> exists l, l ∈ consumer_groups /\ g ∈ l.
Proof.
  unfold union_of_groups. split; [apply NoDup_elements|].
  intros g. rewrite elem_of_elements, elem_of_union_list. split.
  - intros (X & (l & -> & Hl)%list_elem_of_fmap & Hg).
    exists l. split; [done|]. by apply elem_of_list_to_set in Hg.
  - intros (l & Hl & Hg). exists (list_to_set l). split.
    + apply list_elem_of_fmap. eauto.
    + by apply elem_of_list_to_set.
Qed.

(** C8: when the queried brokers report the group lists [reported],
    [list_consumer_groups] returns their set union: a list without
    duplicates that contains a (group, protocol type) tuple if and only
    if some queried broker reported it. *)
Theorem list_consumer_groups_union (broker_ids : option (list Z))
    (reported : list (list (string * string))) (c : Client) :
  wf env c ->
  brokers_report c (default (cluster_brokers env) broker_ids) reported ->
  exists groups c',
    list_consumer_groups env broker_ids c = (Ok groups, c')
    /\ NoDup groups
    /\ (forall g, g ∈ groups <-> exists l, l ∈ reported /\ g ∈ l).
Proof.
  intros Hwf [Hlen Hrep]. unfold list_consumer_groups.
  set (ids := default (cluster_brokers env) broker_ids) in *.
  set (requests := (fun broker_id => (_list_consumer_groups_request env, Some broker_id)) <$> ids).
  assert (forall i request node_id, requests !! i = Some (request, node_id) ->
            exists node, ids !! i = Some node
                         /\ request = _list_consumer_groups_request env
                         /\ node_id = Some node) as Hreq.
  { intros i request node_id Hi. unfold requests in Hi.
    rewrite list_lookup_fmap in Hi.
    destruct (ids !! i) as [node|]; [|done]. injection Hi as <- <-. eauto. }
  destruct (send_requests_ready env requests
              (_list_consumer_groups_process_response env) c Hwf)
    as (c' & Hrun & _).
  { intros i request node_id Hi.
    destruct (Hreq i request node_id Hi) as (node & Hnode & -> & ->).
    apply (Hrep i node Hnode). }
  rewrite (gathered_Ok _ _ reported) in Hrun.
  - exists (union_of_groups reported), c'.
    erewrite bindM_Ok by exact Hrun.
    split; [done|]. apply union_of_groups_spec.
  - unfold answers, planned. rewrite !length_imap. unfold requests.
    by rewrite length_fmap.
  - intros i o Ho. unfold planned in Ho. rewrite answers_lookup in Ho.
    unfold outcome_at in Ho.
    destruct (requests !! i) as [[request node_id]|] eqn:Hi; [|done].
    destruct (Hreq i request node_id Hi) as (node & Hnode & -> & ->).
    destruct (Hrep i node Hnode) as (_ & version & error_code & groups & Hg & Hans & Hv & Hcode).
    injection Ho as <-. simpl. rewrite Hans.
    exists (ListGroupsResponse version error_code groups), groups.
    split; [done|]. split; [|done].
    unfold _list_consumer_groups_process_response.
    rewrite bool_decide_true by done. rewrite Hcode.
    by rewrite bool_decide_true.
Qed.

End ListGroups.

(** Brokers 0 and 1 both report the group ["g1"] (a coordinator
    handoff); broker 1 also reports ["g2"]. *)
Definition handoff : Env :=
  Scenario.scripted 2
    [Succeeded (ListGroupsResponse 2 0 [("g1", "consumer")]);
     Succeeded (ListGroupsResponse 2 0 [("g1", "consumer"); ("g2", "consumer")])]
    Scenario.lifo.

Lemma list_consumer_groups_union_witness :
  exists groups c',
    list_consumer_groups handoff (Some [0; 1]) Scenario.fresh_client = (Ok groups, c')
    /\ NoDup groups
    /\ (forall g, g ∈ groups
                  <-> exists l, l ∈ [[("g1", "consumer")];
                                     [("g1", "consumer"); ("g2", "consumer")]]
                                /\ g ∈ l).
Proof.
  apply (list_consumer_groups_union handoff (Some [0; 1])).
  - apply wf_fresh.
  - split; [reflexivity|].
    intros [|[|i]] node; simpl; intros [= <-];
      (split; [reflexivity|]); eexists _, _, _;
      (split; [reflexivity|]); (split; [reflexivity|]); split; [lia|reflexivity|lia|reflexivity].
Defined.

End ConsumerGroupFacts.

Module DescribeConfigsFacts.
Import Py Structs Admin NetworkFacts.

Section DescribeConfigs.
Variable env : Env.

Definition brokers_of (config_resources : list ConfigResource) : list ConfigResource :=
  filter (fun r => resource_type r = BROKER) config_resources.

Definition others_of (config_resources : list ConfigResource) : list ConfigResource :=
  filter (fun r => resource_type r <> BROKER) config_resources.

Definition negotiated : nat := api_version env "DescribeConfigsRequest" 2.

(** The request for the resources [rs]: v0 has no [include_synonyms]. *)
Definition request_for (include_synonyms : bool) (rs : list ConfigResource) : Request :=
  DescribeConfigsRequest negotiated
    (_convert_describe_config_resource_request <$> rs)
    (if bool_decide (negotiated = 0%nat) then None else Some include_synonyms).

(** One request per BROKER resource, each for the node named by the
    resource, then one request without a node for the other resources,
    if there are any. *)
Definition routed (include_synonyms : bool) (config_resources : list ConfigResource)
    (broker_ids : list Z) : list (Request * option Z) :=
  zip_with (fun r broker_id => (request_for include_synonyms [r], Some broker_id))
           (brokers_of config_resources) broker_ids
  ++ match others_of config_resources with
     | [] => []
     | _ :: _ => [(request_for include_synonyms (others_of config_resources), None)]
     end.

Lemma broker_requests_Ok include_synonyms (rs : list ConfigResource) broker_ids :
  Forall2 (fun r broker_id => int env (name r) = Some broker_id) rs broker_ids ->
  broker_requests env negotiated include_synonyms
    (_convert_describe_config_resource_request <$> rs)
  = Ok (zip_with (fun r broker_id => (request_for include_synonyms [r], Some broker_id))
                 rs broker_ids).
Proof.
  induction 1 as [|r broker_id rs broker_ids Hr _ IH]; [done|].
  rewrite fmap_cons. cbn [broker_requests zip_with].
  cbn [_convert_describe_config_resource_request fst snd]. rewrite Hr, IH.
  unfold request_for. by destruct (bool_decide (negotiated = 0%nat)).
Qed.

Lemma broker_requests_Raise include_synonyms (rs : list ConfigResource) r :
  r ∈ rs -> int env (name r) = None ->
  broker_requests env negotiated include_synonyms
    (_convert_describe_config_resource_request <$> rs)
  = Raise (mkExn Errors.ValueError
             "Broker resource names must be an integer or a string represented integer").
Proof.
  intros Hr Hname. induction rs as [|r' rs IH]; [by apply elem_of_nil in Hr|].
  rewrite fmap_cons. cbn [broker_requests].
  cbn [_convert_describe_config_resource_request fst snd].
  destruct (int env (name r')) as [broker_id|] eqn:Hr'; [|done].
  apply elem_of_cons in Hr as [->|Hr]; [congruence|].
  by rewrite IH.
Qed.

Lemma describe_configs_requests_Ok include_synonyms config_resources broker_ids :
  ~ (include_synonyms = true /\ negotiated = 0%nat) ->
  Forall2 (fun r broker_id => int env (name r) = Some broker_id)
          (brokers_of config_resources) broker_ids ->
  describe_configs_requests env config_resources include_synonyms
  = Ok (routed include_synonyms config_resources broker_ids).
Proof.
  intros Hgate Hids. unfold describe_configs_requests. fold negotiated.
  fold (brokers_of config_resources) (others_of config_resources).
  assert (include_synonyms && bool_decide (negotiated = 0%nat) = false) as ->.
  { destruct include_synonyms; [|done]. simpl. apply bool_decide_eq_false. tauto. }
  rewrite (broker_requests_Ok _ _ _ Hids). cbn [mbind Result_bind].
  unfold routed. rewrite length_fmap.
  destruct (others_of config_resources) as [|r rs] eqn:Hothers.
  - rewrite bool_decide_false by (simpl; lia). by rewrite app_nil_r.
  - rewrite bool_decide_true by (simpl; lia). unfold request_for.
    by destruct (bool_decide (negotiated = 0%nat)).
Qed.

(** C5: [describe_configs] splits its inputs by
    [resource_type == BROKER].  With [include_synonyms] on version 0 it
    raises [IncompatibleBrokerVersion] and sends nothing; otherwise a
    BROKER resource whose name is not an integer makes it raise
    [ValueError] and send nothing; otherwise each BROKER resource is sent
    in a request of its own to the node that is the integer value of its
    name, and the other resources share one request sent to the
    least-loaded node. *)
Theorem describe_configs_routing (config_resources : list ConfigResource)
    (include_synonyms : bool) (c : Client) :
  wf env c ->
  (include_synonyms = true -> negotiated = 0%nat ->
   exists e, describe_configs env config_resources include_synonyms c = (Raise e, c)
             /\ exn_type e = Errors.IncompatibleBrokerVersion)
  /\ (~ (include_synonyms = true /\ negotiated = 0%nat) ->
      forall r, r ∈ brokers_of config_resources -> int env (name r) = None ->
      exists e, describe_configs env config_resources include_synonyms c = (Raise e, c)
                /\ exn_type e = Errors.ValueError)
  /\ (~ (include_synonyms = true /\ negotiated = 0%nat) ->
      forall broker_ids,
        Forall2 (fun r broker_id => int env (name r) = Some broker_id)
                (brokers_of config_resources) broker_ids ->
        describe_configs env config_resources include_synonyms c
        = send_requests env (routed include_synonyms config_resources broker_ids) Ok c
        /\ (all_ready env (length (sent c))
              (routed include_synonyms config_resources broker_ids) ->
            exists result c',
              describe_configs env config_resources include_synonyms c = (result, c')
              /\ sent c'
                 = sent c
                   ++ zip_with (fun r broker_id => (broker_id, request_for include_synonyms [r]))
                        (brokers_of config_resources) broker_ids
                   ++ match others_of config_resources with
                      | [] => []
                      | _ :: _ =>
                          [(least_loaded_node env
                              (length (sent c) + length (brokers_of config_resources)),
                            request_for include_synonyms (others_of config_resources))]
                      end)).
Proof.
  intros Hwf. split_and!.
  - intros -> Hv. eexists. unfold describe_configs, describe_configs_requests.
    fold negotiated. rewrite Hv. simpl. split; reflexivity.
  - intros Hgate r Hr Hname. eexists.
    unfold describe_configs, describe_configs_requests. fold negotiated.
    assert (include_synonyms && bool_decide (negotiated = 0%nat) = false) as ->.
    { destruct include_synonyms; [|done]. simpl. apply bool_decide_eq_false. tauto. }
    fold (brokers_of config_resources).
    rewrite (broker_requests_Raise _ _ r Hr Hname). split; reflexivity.
  - intros Hgate broker_ids Hids.
    assert (describe_configs env config_resources include_synonyms c
            = send_requests env (routed include_synonyms config_resources broker_ids) Ok c)
      as Heq.
    { unfold describe_configs.
      by rewrite (describe_configs_requests_Ok _ _ _ Hgate Hids). }
    split; [done|]. intros Hready. rewrite Heq.
    destruct (send_requests_ready env _ (@Ok Response) c Hwf Hready)
      as (c' & Hrun & _ & Hsent & _).
    eexists _, c'. split; [exact Hrun|]. rewrite Hsent. f_equal.
    unfold planned, routed. rewrite imap_app. f_equal.
    + clear Hready Hrun Hsent Heq. generalize (length (sent c)).
      induction Hids as [|r broker_id rs ids Hr _ IH]; intros n; [done|].
      cbn [zip_with]. rewrite imap_cons. cbn [resolve fst snd]. f_equal.
      rewrite <- (IH (S n)). apply imap_ext. intros i [rq nid] _. simpl.
      by rewrite Nat.add_succ_r.
    + rewrite length_zip_with.
      pose proof (Forall2_length _ _ _ Hids) as Hlen.
      rewrite <- Hlen, Nat.min_id.
      destruct (others_of config_resources); [done|].
      simpl. by rewrite Nat.add_0_r.
Qed.

End DescribeConfigs.

(** Scenario S5: [describe_configs([BROKER:"1", TOPIC:"t"])]. *)
Definition s5_resources : list ConfigResource :=
  [mkConfigResource BROKER "1" None; mkConfigResource TOPIC "t" None].

Definition s5_env : Env :=
  Scenario.scripted 2
    [Succeeded (DescribeConfigsResponse 2 []); Succeeded (DescribeConfigsResponse 2 [])]
    Scenario.fifo.

Lemma describe_configs_routing_witness :
  exists result c',
    describe_configs s5_env s5_resources false Scenario.fresh_client = (result, c')
    /\ sent c'
       = [(1, DescribeConfigsRequest 2 [(BROKER, "1", None)] (Some false));
          (0, DescribeConfigsRequest 2 [(TOPIC, "t", None)] (Some false))].
Proof.
  destruct (describe_configs_routing s5_env s5_resources false Scenario.fresh_client)
    as (_ & _ & Hrouted).
  - apply wf_fresh.
  - destruct (Hrouted ltac:(intros [[=] _]) [1]) as [_ Hsent].
    + repeat constructor.
    + apply Hsent. intros i request node_id _. reflexivity.
Defined.

End DescribeConfigsFacts.

Module CoordinatorFacts.
Import Py Structs Admin NetworkFacts.

(** [env] with another order of completion and other latencies. *)
Definition rescheduled (env : Env) (schedule : list nat -> nat)
    (latencies : nat -> nat) : Env :=
  {| for_code := for_code env;
     request_timeout_ms := request_timeout_ms env;
     config_api_version := config_api_version env;
     api_version := api_version env;
     least_loaded_node := least_loaded_node env;
     await_ready := await_ready env;
     answer := answer env;
     latency := latencies;
     next_completed := schedule;
     check_version := check_version env;
     cluster_brokers := cluster_brokers env;
     cluster_topic_partitions := cluster_topic_partitions env;
     str_request := str_request env;
     str_response := str_response env;
     str_topic_partition := str_topic_partition env;
     int := int env |}.

Section FindCoordinator.
Variable env : Env.

(** The request [_find_coordinator_id_request] builds for a group when
    the negotiated version is at most 2. *)
Definition coordinator_request (group_id : string) : Request :=
  FindCoordinatorRequest (api_version env "FindCoordinatorRequest" 2) group_id
    (if bool_decide (api_version env "FindCoordinatorRequest" 2 <= 0)%nat
     then None else Some 0).

(** The lookup of every group is answered: the [i]-th request, for the
    group [group_ids !! i], goes to a ready least-loaded node, and its
    future succeeds with the FindCoordinator response carrying
    [responses !! i = (error_code, coordinator_id)]. *)
Definition coordinators_answered (c : Client) (group_ids : list string)
    (responses : list (Z * Z)) : Prop :=
  (api_version env "FindCoordinatorRequest" 2 <= 2)%nat
  /\ length responses = length group_ids
  /\ forall i group_id,
      group_ids !! i = Some group_id ->
      await_ready env (length (sent c) + i)
                  (least_loaded_node env (length (sent c) + i)) = None
      /\ exists error_code coordinator_id,
          responses !! i = Some (error_code, coordinator_id)
          /\ answer env (length (sent c) + i)
                    (least_loaded_node env (length (sent c) + i))
                    (coordinator_request group_id)
             = Succeeded (FindCoordinatorResponse error_code coordinator_id).

Lemma _find_coordinator_id_request_Ok group_id :
  (api_version env "FindCoordinatorRequest" 2 <= 2)%nat ->
  _find_coordinator_id_request env group_id = Ok (coordinator_request group_id).
Proof.
  intros Hv. unfold _find_coordinator_id_request, coordinator_request.
  case_bool_decide; [done|]. by rewrite bool_decide_true.
Qed.

Definition coordinator_requests (group_ids : list string) : list (Request * option Z) :=
  (fun group_id => (coordinator_request group_id, @None Z)) <$> group_ids.

Lemma coordinator_requests_Ok group_ids :
  (api_version env "FindCoordinatorRequest" 2 <= 2)%nat ->
  mapR (fun group_id =>
          request ← _find_coordinator_id_request env group_id;
          Ok (request, @None Z)) group_ids
  = Ok (coordinator_requests group_ids).
Proof.
  intros Hv. apply mapR_Ok. unfold coordinator_requests.
  apply Forall2_fmap_r, Forall_Forall2_diag, Forall_forall.
  intros g _. by rewrite _find_coordinator_id_request_Ok.
Qed.

Lemma _find_coordinator_ids_fst group_ids c :
  wf env c ->
  (_find_coordinator_ids env group_ids c).1
  = (requests ← mapR (fun group_id =>
                        request ← _find_coordinator_id_request env group_id;
                        Ok (request, @None Z)) group_ids;
     coordinator_ids ← requests_result env requests
                         (_find_coordinator_id_process_response env)
                         (length (sent c));
     Ok (dict_of (zip group_ids coordinator_ids))).
Proof.
  intros Hwf. unfold _find_coordinator_ids.
  destruct (mapR _ group_ids) as [requests|e|]; try done.
  erewrite bindM_Ok by reflexivity. cbn [mbind Result_bind].
  rewrite <- send_requests_fst by done.
  unfold bindM.
  by destruct (send_requests env requests _ c) as [[ids|e|] c'].
Qed.

Lemma coordinators_answered_run c group_ids responses :
  wf env c -> coordinators_answered c group_ids responses ->
  exists c',
    send_requests env (coordinator_requests group_ids)
      (_find_coordinator_id_process_response env) c
    = (gathered (_find_coordinator_id_process_response env)
         ((fun r : Z * Z => Succeeded (FindCoordinatorResponse r.1 r.2)) <$> responses), c')
    /\ sent c' = sent c ++ planned env (length (sent c)) (coordinator_requests group_ids).
Proof.
  intros Hwf (Hv & Hlen & Hans).
  destruct (send_requests_ready env (coordinator_requests group_ids)
              (_find_coordinator_id_process_response env) c Hwf)
    as (c' & Hrun & _ & Hsent & _).
  { intros i request node_id Hi. unfold coordinator_requests in Hi.
    rewrite list_lookup_fmap in Hi.
    destruct (group_ids !! i) as [g|] eqn:Hg; [|done]. injection Hi as <- <-.
    apply (Hans i g Hg). }
  exists c'. split; [|done]. rewrite Hrun. f_equal. f_equal.
  apply list_eq. intros i. unfold planned. rewrite answers_lookup. unfold outcome_at.
  unfold coordinator_requests. rewrite !list_lookup_fmap.
  destruct (group_ids !! i) as [g|] eqn:Hg; simpl.
  - destruct (Hans i g Hg) as (_ & error_code & coordinator_id & Hr & Ha).
    rewrite Hr. simpl. by rewrite Ha.
  - apply lookup_ge_None in Hg. rewrite <- Hlen in Hg.
    apply lookup_ge_None in Hg. by rewrite Hg.
Qed.

End FindCoordinator.

(** C2: the outcome of [_find_coordinator_ids] does not depend on the
    order in which the responses complete.  When every lookup is
    answered without error, it returns the dictionary
    [dict(zip(group_ids, coordinator_ids))]: each group id is mapped to
    the coordinator id of the response to the request for that group
    (the last one, when a group id is given twice).  When some response
    carries an error code, the typed error of the first such response
    is raised. *)
Theorem _find_coordinator_ids_aligned (env : Env) (group_ids : list string)
    (responses : list (Z * Z)) (c : Client) :
  wf env c ->
  coordinators_answered env c group_ids responses ->
  (forall schedule latencies,
     (_find_coordinator_ids (rescheduled env schedule latencies) group_ids c).1
     = (_find_coordinator_ids env group_ids c).1)
  /\ ((forall r, r ∈ responses -> for_code env r.1 = Errors.NoError) ->
      exists c',
        _find_coordinator_ids env group_ids c
        = (Ok (dict_of (zip group_ids responses.*2)), c')
        /\ forall i group_id coordinator_id,
            group_ids !! i = Some group_id ->
            responses.*2 !! i = Some coordinator_id ->
            (forall j, (i < j)%nat -> group_ids !! j <> Some group_id) ->
            dict_get group_id (dict_of (zip group_ids responses.*2))
            = Some coordinator_id)
  /\ (forall i error_code coordinator_id,
        responses !! i = Some (error_code, coordinator_id) ->
        for_code env error_code <> Errors.NoError ->
        (forall j r, (j < i)%nat -> responses !! j = Some r ->
                     for_code env r.1 = Errors.NoError) ->
        exists e c',
          _find_coordinator_ids env group_ids c = (Raise e, c')
          /\ exn_type e = for_code env error_code).
Proof.
  intros Hwf Hanswered. split_and!.
  - intros schedule latencies.
    assert (same_broker (rescheduled env schedule latencies) env) as Hsame
      by (by split_and!).
    rewrite (_find_coordinator_ids_fst env) by done.
    rewrite (_find_coordinator_ids_fst (rescheduled env schedule latencies))
      by (apply (wf_same_broker env); [by split_and!|done]).
    change (mapR (fun group_id =>
                    request ← _find_coordinator_id_request
                                (rescheduled env schedule latencies) group_id;
                    Ok (request, @None Z)) group_ids)
      with (mapR (fun group_id =>
                    request ← _find_coordinator_id_request env group_id;
                    Ok (request, @None Z)) group_ids).
    destruct (mapR _ group_ids) as [requests|e|]; [|done..].
    cbn [mbind Result_bind].
    rewrite (requests_result_same_broker _ env) by done.
    reflexivity.
  - intros Hok.
    destruct (coordinators_answered_run env c group_ids responses Hwf Hanswered)
      as (c' & Hrun & _).
    destruct Hanswered as (Hv & Hlen & Hans).
    rewrite (gathered_Ok _ _ (responses.*2)) in Hrun.
    + exists c'. split.
      * unfold _find_coordinator_ids.
        rewrite (coordinator_requests_Ok env _ Hv).
        erewrite bindM_Ok by reflexivity.
        by erewrite bindM_Ok by exact Hrun.
      * intros i g cid Hg Hcid Hlast.
        apply (dict_get_dict_of _ i).
        -- rewrite lookup_zip_with, Hg. simpl. by rewrite Hcid.
        -- intros j v' Hj Hjl. rewrite lookup_zip_with in Hjl.
           destruct (group_ids !! j) as [g'|] eqn:Hg'; [|done]. simpl in Hjl.
           destruct (responses.*2 !! j); [|done]. simpl in Hjl.
           injection Hjl as -> ->. by apply (Hlast j).
    + by rewrite !length_fmap.
    + intros i o Ho. rewrite list_lookup_fmap in Ho.
      destruct (responses !! i) as [[error_code coordinator_id]|] eqn:Hr; [|done].
      injection Ho as <-. exists (FindCoordinatorResponse error_code coordinator_id),
        coordinator_id.
      split_and!; [done| |by rewrite list_lookup_fmap, Hr].
      unfold _find_coordinator_id_process_response.
      assert (for_code env error_code = Errors.NoError) as ->; [|done].
      apply (Hok (error_code, coordinator_id)).
      by eapply list_elem_of_lookup_2.
  - intros i error_code coordinator_id Hi Herr Hbefore.
    destruct (coordinators_answered_run env c group_ids responses Hwf Hanswered)
      as (c' & Hrun & _).
    destruct Hanswered as (Hv & Hlen & Hans).
    set (e := mkExn (for_code env error_code)
                ("FindCoordinatorRequest failed with response '"
                 +:+ str_response env (FindCoordinatorResponse error_code coordinator_id)
                 +:+ "'.")).
    rewrite (gathered_Raise _ _ i (FindCoordinatorResponse error_code coordinator_id) e)
      in Hrun.
    + exists e, c'. split; [|done].
      unfold _find_coordinator_ids.
      rewrite (coordinator_requests_Ok env _ Hv).
      erewrite bindM_Ok by reflexivity.
      by erewrite bindM_Raise by exact Hrun.
    + intros j o Ho. rewrite list_lookup_fmap in Ho.
      destruct (responses !! j); [|done]. injection Ho as <-. eauto.
    + by rewrite list_lookup_fmap, Hi.
    + unfold _find_coordinator_id_process_response.
      by rewrite bool_decide_false.
    + intros j v Hj Hv'. rewrite list_lookup_fmap in Hv'.
      destruct (responses !! j) as [[ec cid]|] eqn:Hr; [|done].
      injection Hv' as <-. exists cid.
      unfold _find_coordinator_id_process_response.
      pose proof (Hbefore j (ec, cid) Hj Hr) as Hno. simpl in Hno.
      by rewrite Hno.
Qed.

(** [_find_coordinator_ids(["g1", "g2", "g3"])] with the responses
    completing in the reverse order of the requests. *)
Definition out_of_order : Env :=
  Scenario.scripted 2
    [Succeeded (FindCoordinatorResponse 0 1);
     Succeeded (FindCoordinatorResponse 0 2);
     Succeeded (FindCoordinatorResponse 0 3)]
    Scenario.lifo.

Lemma _find_coordinator_ids_aligned_witness :
  (forall schedule latencies,
     (_find_coordinator_ids (rescheduled out_of_order schedule latencies)
        ["g1"; "g2"; "g3"] Scenario.fresh_client).1
     = (_find_coordinator_ids out_of_order ["g1"; "g2"; "g3"] Scenario.fresh_client).1)
  /\ exists c',
      _find_coordinator_ids out_of_order ["g1"; "g2"; "g3"] Scenario.fresh_client
      = (Ok [("g1", 1); ("g2", 2); ("g3", 3)], c').
Proof.
  destruct (_find_coordinator_ids_aligned out_of_order ["g1"; "g2"; "g3"]
              [(0, 1); (0, 2); (0, 3)] Scenario.fresh_client)
    as (Horder & Hok & _).
  - apply wf_fresh.
  - split; [simpl; lia|]. split; [reflexivity|].
    intros [|[|[|i]]] g; simpl; intros [= <-];
      (split; [reflexivity|]); eexists _, _; split; reflexivity.
  - split; [exact Horder|].
    destruct Hok as (c' & Hrun & _).
    + intros r Hr. repeat (apply elem_of_cons in Hr as [->|Hr]; [reflexivity|]).
      by apply elem_of_nil in Hr.
    + exists c'. exact Hrun.
Defined.

Example out_of_order_arrival :
  (arrived (_find_coordinator_ids out_of_order ["g1"; "g2"; "g3"]
              Scenario.fresh_client).2).*1 = [2; 1; 0]%nat.
Proof. vm_compute. reflexivity. Qed.

End CoordinatorFacts.

Module DeleteRecordsFacts.
Import Py Structs Admin NetworkFacts.

(** [s] occurs in [t]. *)
Definition substring_of (s t : string) : Prop :=
  exists before after, t = before +:+ s +:+ after.

Lemma append_assoc (a b c : string) : (a +:+ b) +:+ c = a +:+ b +:+ c.
Proof.
  induction a as [|x a IH]; [done|].
  change (String x ((a +:+ b) +:+ c) = String x (a +:+ b +:+ c)). by f_equal.
Qed.

Lemma append_empty_r (a : string) : a +:+ "" = a.
Proof.
  induction a as [|x a IH]; [done|].
  change (String x (a +:+ "") = String x a). by f_equal.
Qed.

Lemma substring_of_append_r s t before : substring_of s t -> substring_of s (before +:+ t).
Proof.
  intros (b & a & ->). exists (before +:+ b), a. by rewrite append_assoc.
Qed.

Lemma substring_of_join sep (l : list string) s : s ∈ l -> substring_of s (join sep l).
Proof.
  unfold join. induction l as [|x l IH]; intros Hs; [by apply elem_of_nil in Hs|].
  destruct l as [|y l].
  - apply list_elem_of_singleton in Hs as ->. exists "", "". simpl.
    by rewrite append_empty_r.
  - cbn [String.concat]. apply elem_of_cons in Hs as [->|Hs].
    + by exists "", (sep +:+ String.concat sep (y :: l)).
    + do 2 apply substring_of_append_r. by apply IH.
Qed.

Section DeleteRecords.
Variable env : Env.

(** The partition [tp] has a result with a non-zero error code. *)
Definition failed (results : list (TopicPartition * DeleteRecordsPartition))
    (tp : TopicPartition) : Prop :=
  exists p, (tp, p) ∈ results /\ error_code p <> 0.

Lemma partition2error_of_snoc results r :
  partition2error_of (results ++ [r])
  = if negb (error_code r.2 =? 0)
    then dict_set r.1 (error_code r.2) (partition2error_of results)
    else partition2error_of results.
Proof. unfold partition2error_of. by rewrite foldl_app. Qed.

Lemma partition2result_of_snoc results r :
  partition2result_of (results ++ [r])
  = dict_set r.1 r.2 (partition2result_of results).
Proof. unfold partition2result_of. by rewrite foldl_app. Qed.

Lemma partition2error_of_spec results :
  NoDup (dict_keys (partition2error_of results))
  /\ (forall tp, tp ∈ dict_keys (partition2error_of results) <-> failed results tp)
  /\ (forall tp e, dict_get tp (partition2error_of results) = Some e ->
        e <> 0 /\ exists p, (tp, p) ∈ results /\ error_code p = e).
Proof.
  induction results as [|[tp0 p0] results (IH1 & IH2 & IH3)] using rev_ind.
  - split_and!.
    + constructor.
    + intros tp. split; [by intros ?%elem_of_nil|].
      intros (p & Hp & _). by apply elem_of_nil in Hp.
    + done.
  - rewrite partition2error_of_snoc. cbn [fst snd].
    destruct (Z.eqb_spec (error_code p0) 0) as [Hz|Hnz]; cbn [negb].
    + split_and!; [done| |].
      * intros tp. rewrite IH2. unfold failed. split.
        -- intros (p & Hp & He). exists p. split; [|done].
           apply elem_of_app. by left.
        -- intros (p & [Hp|Hp%list_elem_of_singleton]%elem_of_app & He);
             [by exists p|]. by injection Hp as -> ->.
      * intros tp e He. destruct (IH3 tp e He) as (Hne & p & Hp & Hpe).
        split; [done|]. exists p. split; [|done]. apply elem_of_app. by left.
    + split_and!.
      * by apply dict_keys_set_NoDup.
      * intros tp. rewrite elem_of_dict_keys_set, IH2. unfold failed. split.
        -- intros [->|(p & Hp & He)].
           ++ exists p0. split; [|done]. apply elem_of_app. right.
              by apply list_elem_of_singleton.
           ++ exists p. split; [|done]. apply elem_of_app. by left.
        -- intros (p & [Hp|Hp%list_elem_of_singleton]%elem_of_app & He).
           ++ right. by exists p.
           ++ left. by injection Hp as -> ->.
      * intros tp e. rewrite dict_get_set. case_decide as Htp.
        -- intros [= <-]. subst tp. split; [done|]. exists p0. split; [|done].
           apply elem_of_app. right. by apply list_elem_of_singleton.
        -- intros He. destruct (IH3 tp e He) as (Hne & p & Hp & Hpe).
           split; [done|]. exists p. split; [|done]. apply elem_of_app. by left.
Qed.

Lemma partition2result_of_spec results :
  (forall tp p, (tp, p) ∈ results -> is_Some (dict_get tp (partition2result_of results)))
  /\ (forall tp p, dict_get tp (partition2result_of results) = Some p -> (tp, p) ∈ results).
Proof.
  induction results as [|[tp0 p0] results (IH1 & IH2)] using rev_ind.
  - split; [|done]. intros tp p Hp. by apply elem_of_nil in Hp.
  - rewrite partition2result_of_snoc. cbn [fst snd]. split.
    + intros tp p Hp. rewrite dict_get_set. case_decide; [by eexists|].
      apply elem_of_app in Hp as [Hp|Hp%list_elem_of_singleton]; [by eapply IH1|].
      by injection Hp as -> ->.
    + intros tp p. rewrite dict_get_set. case_decide as Htp.
      * intros [= <-]. subst tp. apply elem_of_app. right.
        by apply list_elem_of_singleton.
      * intros Hp. apply elem_of_app. left. by apply IH2.
Qed.

Definition error_header : string :=
  "The following errors occured when trying to delete records: ".

(** The processing of the responses [delete_records] has collected,
    [results] being their per-partition results.  If no partition has a
    non-zero error
    code, a dictionary is returned that has an entry for every returned
    partition, each entry being a result of that partition with error
    code zero.  If exactly one partition has a non-zero error code, the
    typed error of a non-zero code reported for it is raised, with a
    message naming its topic and partition.  If two or more have, a
    [BrokerResponseError] is raised whose message lists, for every failed
    partition and for no other, the text
    ["topic(partition=n): ErrorName"]. *)
Lemma delete_records_result_spec (responses : list Response)
    (results : list (TopicPartition * DeleteRecordsPartition)) :
  results_of_responses responses = Ok results ->
  ((forall tp, ~ failed results tp) ->
   exists d,
     delete_records_result env responses = Ok d
     /\ (forall tp p, (tp, p) ∈ results -> is_Some (dict_get tp d))
     /\ (forall tp p, dict_get tp d = Some p -> (tp, p) ∈ results /\ error_code p = 0))
  /\ (forall tp,
        failed results tp -> (forall tp', failed results tp' -> tp' = tp) ->
        exists p,
          (tp, p) ∈ results /\ error_code p <> 0
          /\ delete_records_result env responses
             = Raise (mkExn (for_code env (error_code p))
                        ("Error deleting records from topic " +:+ topic tp
                         +:+ " partition " +:+ pretty (partition tp))))
  /\ (forall tp1 tp2,
        failed results tp1 -> failed results tp2 -> tp1 <> tp2 ->
        exists errors : list (TopicPartition * Z),
          delete_records_result env responses
          = Raise (mkExn Errors.BrokerResponseError
                     (error_header
                      +:+ join ", " (partition_error_text env <$> errors)))
          /\ NoDup errors.*1
          /\ (forall tp, tp ∈ errors.*1 <-> failed results tp)
          /\ (forall tp e, (tp, e) ∈ errors ->
                e <> 0
                /\ (exists p, (tp, p) ∈ results /\ error_code p = e)
                /\ substring_of
                     (topic tp +:+ "(partition=" +:+ pretty (partition tp) +:+ "): "
                      +:+ for_code env e)
                     (error_header +:+ join ", " (partition_error_text env <$> errors)))).
Proof.
  intros Hresults.
  destruct (partition2error_of_spec results) as (Hnd & Hkeys & Hget).
  destruct (partition2result_of_spec results) as (Hcover & Hfrom).
  unfold delete_records_result. rewrite Hresults. cbn [mbind Result_bind].
  unfold dict_keys in *.
  split_and!.
  - intros Hnone.
    destruct (partition2error_of results) as [|[tp e] errors] eqn:He.
    + eexists. split; [done|]. split; [done|].
      intros tp p Hp. split; [by apply Hfrom|].
      destruct (Z.eq_dec (error_code p) 0) as [|Hne]; [done|].
      exfalso. apply (Hnone tp). exists p. split; [by apply Hfrom|done].
    + exfalso. apply (Hnone tp), Hkeys. rewrite fmap_cons. left.
  - intros tp Hfailed Honly.
    destruct (partition2error_of results) as [|[tp1 e1] [|[tp2 e2] errors]] eqn:He.
    + apply Hkeys in Hfailed. by apply elem_of_nil in Hfailed.
    + assert (tp1 = tp) as ->.
      { apply Honly, Hkeys. rewrite fmap_cons. left. }
      destruct (Hget tp e1) as (Hne & p & Hp & Hpe).
      { simpl. by rewrite decide_True. }
      exists p. subst e1. by split_and!.
    + exfalso. rewrite !fmap_cons in Hnd. cbn [fst] in Hnd.
      apply NoDup_cons in Hnd as [Hnotin _]. apply Hnotin.
      assert (tp1 = tp) as -> by (apply Honly, Hkeys; rewrite fmap_cons; left).
      assert (tp2 = tp) as ->
        by (apply Honly, Hkeys; rewrite !fmap_cons; right; left).
      left.
  - intros tp1 tp2 Hf1 Hf2 Hne.
    exists (partition2error_of results).
    assert (forall tp e, (tp, e) ∈ partition2error_of results ->
              dict_get tp (partition2error_of results) = Some e) as Hin
      by (intros tp e; by apply elem_of_dict_NoDup).
    destruct (partition2error_of results) as [|[k1 e1] [|[k2 e2] errors]] eqn:He.
    + apply Hkeys in Hf1. by apply elem_of_nil in Hf1.
    + exfalso. apply Hkeys in Hf1, Hf2. rewrite fmap_cons in Hf1, Hf2.
      apply list_elem_of_singleton in Hf1, Hf2. simpl in *. congruence.
    + split; [done|]. split; [done|]. split; [done|].
      intros tp e Hte. destruct (Hget tp e (Hin tp e Hte)) as (Hnz & Hp).
      split_and!; [done..|].
      apply substring_of_append_r, substring_of_join.
      apply (list_elem_of_fmap_2 (partition_error_text env) _ (tp, e)) in Hte.
      exact Hte.
Qed.

End DeleteRecords.

(** Scenario S4: the response for partition 1 of ["t"] carries error
    code 3; that for partition 0 carries none. *)
Definition s4_responses : list Response :=
  [DeleteRecordsResponse [("t", [mkDeleteRecordsPartition 0 100 0])];
   DeleteRecordsResponse [("t", [mkDeleteRecordsPartition 1 (-1) 3])]].

Example one_partition_fails :
  delete_records_result (Scenario.scripted 0 [] Scenario.fifo) s4_responses
  = Raise (mkExn Errors.UnknownTopicOrPartitionError
             "Error deleting records from topic t partition 1").
Proof.
  destruct (delete_records_result_spec (Scenario.scripted 0 [] Scenario.fifo)
              s4_responses
              [(mkTopicPartition "t" 0, mkDeleteRecordsPartition 0 100 0);
               (mkTopicPartition "t" 1, mkDeleteRecordsPartition 1 (-1) 3)]
              eq_refl) as (_ & Hone & _).
  destruct (Hone (mkTopicPartition "t" 1)) as (p & Hp & Hne & Hrun).
  - eexists. split; [right; left|]. done.
  - intros tp' (p & Hp & He).
    apply elem_of_cons in Hp as [[= -> ->]|Hp]; [done|].
    by apply list_elem_of_singleton in Hp as [= -> ->].
  - apply elem_of_cons in Hp as [[=]|Hp].
    apply list_elem_of_singleton in Hp as [= ->].
    exact Hrun.
Qed.

Example two_partitions_fail :
  delete_records_result (Scenario.scripted 0 [] Scenario.fifo)
    [DeleteRecordsResponse [("t", [mkDeleteRecordsPartition 0 (-1) 3])];
     DeleteRecordsResponse [("u", [mkDeleteRecordsPartition 7 (-1) 41])]]
  = Raise (mkExn Errors.BrokerResponseError
             "The following errors occured when trying to delete records: t(partition=0): UnknownTopicOrPartitionError, u(partition=7): NotControllerError").
Proof. vm_compute. reflexivity. Qed.

End DeleteRecordsFacts.

Module LeaderFacts.
Import Py Structs Admin NetworkFacts.

(** The (partition, leader) pairs a Metadata response lists, in the
    order of the two nested loops. *)
Definition listed (metadata_topics : list TopicMetadata) : list (TopicPartition * Z) :=
  topic ← metadata_topics;
  (fun partition =>
     (mkTopicPartition (tm_topic topic) (pm_partition partition), pm_leader partition))
    <$> tm_partitions topic.

(** One step of the loops of [_get_leader_for_partitions]. *)
Definition bucket_step (partitions : gset TopicPartition)
    (acc : list (Z * list TopicPartition) * gset TopicPartition)
    (entry : TopicPartition * Z)
  : list (Z * list TopicPartition) * gset TopicPartition :=
  if bool_decide (entry.1 ∈ partitions)
  then (dict_append entry.2 entry.1 acc.1, acc.2 ∪ {[ entry.1 ]})
  else acc.

(** No partition is in the buckets of two leaders. *)
Definition pairwise_disjoint (leader2partitions : list (Z * list TopicPartition)) : Prop :=
  forall leader1 leader2 bucket1 bucket2 tp,
    dict_get leader1 leader2partitions = Some bucket1 ->
    dict_get leader2 leader2partitions = Some bucket2 ->
    tp ∈ bucket1 -> tp ∈ bucket2 -> leader1 = leader2.

Lemma leaders_of_topic_listed partitions acc topic :
  leaders_of_topic partitions acc topic
  = foldl (bucket_step partitions) acc (listed [topic]).
Proof.
  unfold leaders_of_topic, listed. cbn [mbind list_bind]. rewrite app_nil_r.
  generalize (tm_partitions topic). intros l. revert acc.
  induction l as [|p l IH]; intros acc; [done|].
  rewrite fmap_cons. cbn [foldl]. rewrite IH. reflexivity.
Qed.

Lemma leaders_of_metadata_listed partitions metadata_topics :
  leaders_of_metadata partitions metadata_topics
  = foldl (bucket_step partitions) ([], ∅) (listed metadata_topics).
Proof.
  unfold leaders_of_metadata. generalize ([] : list (Z * list TopicPartition), (∅ : gset TopicPartition)).
  induction metadata_topics as [|topic rest IH]; intros acc; [done|].
  cbn [foldl]. rewrite IH, leaders_of_topic_listed.
  unfold listed. cbn [mbind list_bind]. rewrite app_nil_r.
  by rewrite foldl_app.
Qed.

Lemma dict_get_append {K V} `{EqDecision K} (d : list (K * list V)) k k' x :
  dict_get k' (dict_append k x d)
  = if decide (k' = k) then Some (default [] (dict_get k d) ++ [x]) else dict_get k' d.
Proof. unfold dict_append. apply dict_get_set. Qed.

(** What the loops compute from the listed pairs. *)
Lemma buckets_spec (partitions : gset TopicPartition) (entries : list (TopicPartition * Z)) :
  let acc := foldl (bucket_step partitions) ([], ∅) entries in
  NoDup (dict_keys acc.1)
  /\ (forall tp, tp ∈ acc.2 <-> tp ∈ partitions /\ tp ∈ entries.*1)
  /\ (forall leader bucket, dict_get leader acc.1 = Some bucket ->
        forall tp, tp ∈ bucket <-> tp ∈ partitions /\ (tp, leader) ∈ entries)
  /\ (forall tp leader, tp ∈ partitions -> (tp, leader) ∈ entries ->
        is_Some (dict_get leader acc.1)).
Proof.
  induction entries as [|[tp0 leader0] entries IH] using rev_ind; cbn zeta.
  - split_and!.
    + constructor.
    + intros tp. split; [by intros ?%not_elem_of_empty|].
      intros [_ H]. by apply elem_of_nil in H.
    + done.
    + intros tp leader _ H. by apply elem_of_nil in H.
  - cbn zeta in IH. destruct IH as (IH1 & IH2 & IH3 & IH4).
    rewrite foldl_app. cbn [foldl].
    set (acc := foldl (bucket_step partitions) ([], ∅) entries) in *.
    unfold bucket_step. cbn [fst snd]. rewrite fmap_app.
    case_bool_decide as Hin; cbn [fst snd].
    + split_and!.
      * by apply dict_keys_set_NoDup.
      * intros tp. rewrite elem_of_union, elem_of_singleton, IH2, elem_of_app.
        rewrite fmap_cons, list_elem_of_singleton. cbn [fst fmap list_fmap].
        split; [|tauto]. intros [[? ?]| ->]; tauto.
      * intros leader bucket. rewrite dict_get_append. case_decide as Hl.
        -- subst leader. intros [= <-] tp. rewrite !elem_of_app, !list_elem_of_singleton.
           destruct (dict_get leader0 acc.1) as [b|] eqn:Hb; cbn [default].
           ++ rewrite (IH3 leader0 b Hb tp). split.
              ** intros [[? ?]| ->]; [tauto|]. split; [done|]. by right.
              ** intros [? [?|[= -> ]]]; [tauto|by right].
           ++ split.
              ** intros [H| ->]; [by apply elem_of_nil in H|]. split; [done|by right].
              ** intros [Htp [Hte|[= ->]]]; [|by right].
                 destruct (IH4 tp leader0 Htp Hte) as [b' Hb']. congruence.
        -- intros Hb tp. rewrite (IH3 leader bucket Hb tp), elem_of_app.
           rewrite list_elem_of_singleton. split; [tauto|].
           intros [? [?|[= -> ->]]]; [tauto|done].
      * intros tp leader Htp Hte. rewrite dict_get_append.
        case_decide as Hl; [by eexists|].
        apply elem_of_app in Hte as [Hte|[= -> ->]%list_elem_of_singleton];
          [by eapply IH4|done].
    + split_and!; [done| | |].
      * intros tp. rewrite IH2, elem_of_app, fmap_cons, list_elem_of_singleton.
        cbn [fst fmap list_fmap]. split; [tauto|].
        intros [? [?| ->]]; [tauto|done].
      * intros leader bucket Hb tp. rewrite (IH3 leader bucket Hb tp), elem_of_app.
        rewrite list_elem_of_singleton. split; [tauto|].
        intros [? [?|[= -> ->]]]; [tauto|done].
      * intros tp leader Htp [Hte|[= -> ->]%list_elem_of_singleton]%elem_of_app;
          [eauto|done].
Qed.

Lemma buckets_disjoint (partitions : gset TopicPartition)
    (entries : list (TopicPartition * Z)) :
  NoDup entries.*1 ->
  pairwise_disjoint (foldl (bucket_step partitions) ([], ∅) entries).1.
Proof.
  intros Hnd leader1 leader2 bucket1 bucket2 tp Hb1 Hb2 Ht1 Ht2.
  destruct (buckets_spec partitions entries) as (_ & _ & Hb & _).
  apply (Hb _ _ Hb1) in Ht1 as [_ Ht1]. apply (Hb _ _ Hb2) in Ht2 as [_ Ht2].
  apply (elem_of_dict_NoDup _ _ _ Hnd) in Ht1, Ht2. congruence.
Qed.

Section Leaders.
Variable env : Env.

(** The request [_get_cluster_metadata] builds without
    [auto_topic_creation]. *)
Definition metadata_request_for (topics : option (list string)) : Request :=
  let version := api_version env "MetadataRequest" 8 in
  if bool_decide (version <= 3)%nat then MetadataRequest version topics None None
  else if bool_decide (version <= 7)%nat then
    MetadataRequest version topics (Some false) None
  else MetadataRequest version topics (Some false) (Some true).

(** The set of the topics of the requested partitions. *)
Definition requested_topics (partitions : list TopicPartition) : list string :=
  elements (set_map topic (list_to_set partitions : gset TopicPartition) : gset string).

(** The least-loaded node is ready and answers the Metadata request for
    the requested topics with the topics [metadata_topics]. *)
Definition metadata_answered (c : Client) (partitions : list TopicPartition)
    (metadata_topics : list TopicMetadata) : Prop :=
  await_ready env (length (sent c)) (least_loaded_node env (length (sent c))) = None
  /\ exists version controller_id,
      answer env (length (sent c)) (least_loaded_node env (length (sent c)))
             (metadata_request_for (Some (requested_topics partitions)))
      = Succeeded (MetadataResponse version controller_id metadata_topics).

Lemma _get_cluster_metadata_run topics c version controller_id metadata_topics :
  wf env c ->
  await_ready env (length (sent c)) (least_loaded_node env (length (sent c))) = None ->
  answer env (length (sent c)) (least_loaded_node env (length (sent c)))
         (metadata_request_for topics)
  = Succeeded (MetadataResponse version controller_id metadata_topics) ->
  exists c',
    _get_cluster_metadata env topics false c = (Ok metadata_topics, c')
    /\ wf env c'
    /\ sent c' = sent c ++ [(least_loaded_node env (length (sent c)),
                             metadata_request_for topics)].
Proof.
  intros Hwf Hready Hans. unfold _get_cluster_metadata.
  assert ((if bool_decide (api_version env "MetadataRequest" 8 <= 3)%nat
           then Ok (MetadataRequest (api_version env "MetadataRequest" 8) topics None None)
           else if bool_decide (api_version env "MetadataRequest" 8 <= 7)%nat
                then Ok (MetadataRequest (api_version env "MetadataRequest" 8) topics
                           (Some false) None)
                else Ok (MetadataRequest (api_version env "MetadataRequest" 8) topics
                           (Some false) (Some true)))
          = Ok (metadata_request_for topics)) as ->.
  { unfold metadata_request_for. by repeat case_bool_decide. }
  erewrite bindM_Ok by reflexivity.
  pose proof (send_request_spec env (metadata_request_for topics) None c Hwf) as Hsend.
  cbn zeta in Hsend. cbn [resolve] in Hsend. rewrite Hready, Hans in Hsend.
  destruct Hsend as (c' & Hrun & Hwf' & Hsent & _).
  erewrite bindM_Ok by exact Hrun.
  exists c'. by split_and!.
Qed.

(** C4: [_get_leader_for_partitions] sends one Metadata request, for
    the set of the topics of the requested partitions.  When every
    requested partition is listed in the response, it returns a
    dictionary whose bucket for a leader holds exactly the requested
    partitions listed with that leader, so that the buckets together hold
    exactly the requested partitions; the buckets are pairwise disjoint
    for a response that lists no (topic, partition) twice, a partition
    having one leader.  When some
    requested partition is not listed, it raises
    [UnknownTopicOrPartitionError] with a message that names the
    requested partitions that are not listed, each once, and no other. *)
Theorem _get_leader_for_partitions_spec (partitions : list TopicPartition)
    (timeout_ms : option Z) (metadata_topics : list TopicMetadata) (c : Client) :
  wf env c ->
  metadata_answered c partitions metadata_topics ->
  exists result c',
    _get_leader_for_partitions env partitions timeout_ms c = (result, c')
    /\ sent c' = sent c ++ [(least_loaded_node env (length (sent c)),
                             metadata_request_for (Some (requested_topics partitions)))]
    /\ NoDup (requested_topics partitions)
    /\ (forall t, t ∈ requested_topics partitions
                  <-> exists tp, tp ∈ partitions /\ topic tp = t)
    /\ ((forall tp, tp ∈ partitions -> tp ∈ (listed metadata_topics).*1) ->
        exists leader2partitions,
          result = Ok leader2partitions
          /\ NoDup (dict_keys leader2partitions)
          /\ (forall leader bucket,
                dict_get leader leader2partitions = Some bucket ->
                forall tp, tp ∈ bucket
                           <-> tp ∈ partitions /\ (tp, leader) ∈ listed metadata_topics)
          /\ (forall tp, tp ∈ partitions ->
                exists leader bucket,
                  dict_get leader leader2partitions = Some bucket /\ tp ∈ bucket)
          /\ (NoDup (listed metadata_topics).*1 -> pairwise_disjoint leader2partitions))
    /\ (forall tp0, tp0 ∈ partitions -> tp0 ∉ (listed metadata_topics).*1 ->
        exists missing,
          result = Raise (mkExn Errors.UnknownTopicOrPartitionError
                            ("The following partitions are not known: "
                             +:+ join ", " (str_topic_partition env <$> missing)))
          /\ NoDup missing
          /\ forall tp, tp ∈ missing
                        <-> tp ∈ partitions /\ tp ∉ (listed metadata_topics).*1).
Proof.
  intros Hwf (Hready & version & controller_id & Hans).
  destruct (_get_cluster_metadata_run _ c _ _ _ Hwf Hready Hans)
    as (c' & Hrun & _ & Hsent).
  unfold _get_leader_for_partitions. cbn zeta.
  fold (requested_topics partitions).
  erewrite bindM_Ok by exact Hrun.
  rewrite leaders_of_metadata_listed.
  destruct (buckets_spec (list_to_set partitions) (listed metadata_topics))
    as (Hkeys & Hvalid & Hbucket & Hsome).
  pose proof (buckets_disjoint (list_to_set partitions) (listed metadata_topics))
    as Hdisjoint.
  destruct (foldl (bucket_step (list_to_set partitions)) ([], ∅) (listed metadata_topics))
    as [leader2partitions valid_partitions] eqn:Hfold.
  cbn [fst snd] in *.
  assert (valid_partitions ⊆ list_to_set partitions) as Hsub.
  { intros tp Htp. by apply Hvalid in Htp as [? _]. }
  assert ((forall tp, tp ∈ partitions -> tp ∈ (listed metadata_topics).*1) ->
          size (list_to_set partitions : gset TopicPartition) = size valid_partitions)
    as Hall_size.
  { intros Hall. f_equal. apply set_eq. intros tp. split; [|apply Hsub].
    intros Htp. apply Hvalid. split; [done|].
    apply Hall. by apply elem_of_list_to_set in Htp. }
  assert (forall tp0, tp0 ∈ partitions -> tp0 ∉ (listed metadata_topics).*1 ->
          size (list_to_set partitions : gset TopicPartition) <> size valid_partitions)
    as Hmissing_size.
  { intros tp0 Htp0 Hmissing.
    assert (size valid_partitions < size (list_to_set partitions : gset TopicPartition))%nat;
      [|lia].
    apply subset_size. split; [done|]. intros Hsup.
    assert (tp0 ∈ valid_partitions) as [_ H]%Hvalid; [|done].
    apply Hsup. by apply elem_of_list_to_set. }
  assert (NoDup (requested_topics partitions)
          /\ (forall t, t ∈ requested_topics partitions
                        <-> exists tp, tp ∈ partitions /\ topic tp = t)) as [Ht1 Ht2].
  { unfold requested_topics. split; [apply NoDup_elements|].
    intros t. rewrite elem_of_elements, elem_of_map.
    split; intros (tp & H1 & H2).
    - exists tp. split; [by apply elem_of_list_to_set in H2|done].
    - exists tp. split; [done|by apply elem_of_list_to_set]. }
  destruct (bool_decide (size (list_to_set partitions : gset TopicPartition)
                         = size valid_partitions)) eqn:Hsize; cbn [negb].
  - apply bool_decide_eq_true in Hsize.
    exists (Ok leader2partitions), c'. split; [reflexivity|].
    split_and!; try done.
    + intros Hall. exists leader2partitions. split_and!; try done.
      * intros leader bucket Hb tp. rewrite (Hbucket leader bucket Hb tp).
        by rewrite elem_of_list_to_set.
      * intros tp Htp.
        pose proof (Hall tp Htp) as Hl.
        apply list_elem_of_fmap in Hl as ([tp' leader] & -> & Hl). cbn [fst] in *.
        assert (tp' ∈ (list_to_set partitions : gset TopicPartition)) as Hin
          by (by apply elem_of_list_to_set).
        destruct (Hsome tp' leader Hin Hl) as [bucket Hb].
        exists leader, bucket. split; [done|]. by apply (Hbucket leader bucket Hb).
    + intros tp0 Htp0 Hmissing. by destruct (Hmissing_size tp0 Htp0 Hmissing).
  - apply bool_decide_eq_false in Hsize.
    eexists _, c'. split; [reflexivity|].
    split_and!; try done.
    + intros Hall. by destruct Hsize; apply Hall_size.
    + intros tp0 Htp0 Hmissing.
      exists (elements (list_to_set partitions ∖ valid_partitions)).
      split; [done|]. split; [apply NoDup_elements|].
      intros tp. rewrite elem_of_elements, elem_of_difference, Hvalid.
      rewrite elem_of_list_to_set. tauto.
Qed.

End Leaders.

(** Disjointness rests on the metadata naming one leader per
    partition.  Here the response lists partition 0 of ["t"] twice, once
    with the leader 1 and once with the leader 2, and the partition is
    put into both buckets. *)
Definition listed_twice : Env :=
  Scenario.scripted 8
    [Succeeded (MetadataResponse 8 1
       [mkTopicMetadata "t" [mkPartitionMetadata 0 1; mkPartitionMetadata 0 2]])]
    Scenario.fifo.

Example partition_listed_twice :
  exists leader2partitions c',
    _get_leader_for_partitions listed_twice [mkTopicPartition "t" 0] None
      Scenario.fresh_client = (Ok leader2partitions, c')
    /\ ~ pairwise_disjoint leader2partitions.
Proof.
  eexists _, _. split; [vm_compute; reflexivity|].
  intros Hdisjoint.
  specialize (Hdisjoint 1 2 [mkTopicPartition "t" 0] [mkTopicPartition "t" 0]
                (mkTopicPartition "t" 0) eq_refl eq_refl).
  assert (1 = 2) as Habs by (apply Hdisjoint; left). discriminate.
Qed.

(** Partitions 0 and 1 of ["t"] have the leaders 1 and 2. *)
Definition two_leaders : Env :=
  Scenario.scripted 8
    [Succeeded (MetadataResponse 8 1
       [mkTopicMetadata "t" [mkPartitionMetadata 0 1; mkPartitionMetadata 1 2]])]
    Scenario.fifo.

Lemma _get_leader_for_partitions_spec_witness :
  exists leader2partitions c',
    _get_leader_for_partitions two_leaders
      [mkTopicPartition "t" 0; mkTopicPartition "t" 1] None Scenario.fresh_client
    = (Ok leader2partitions, c')
    /\ sent c' = [(0, MetadataRequest 8 (Some ["t"]) (Some false) (Some true))]
    /\ pairwise_disjoint leader2partitions.
Proof.
  destruct (_get_leader_for_partitions_spec two_leaders
              [mkTopicPartition "t" 0; mkTopicPartition "t" 1] None
              [mkTopicMetadata "t" [mkPartitionMetadata 0 1; mkPartitionMetadata 1 2]]
              Scenario.fresh_client)
    as (result & c' & Hrun & Hsent & _ & _ & Hok & _).
  - apply wf_fresh.
  - split; [reflexivity|]. eexists _, _. vm_compute. reflexivity.
  - destruct Hok as (leader2partitions & -> & _ & _ & _ & Hdisjoint).
    + intros tp Htp. apply elem_of_cons in Htp as [->|Htp]; [left|].
      apply list_elem_of_singleton in Htp as ->. right. left.
    + exists leader2partitions, c'. split; [exact Hrun|]. split.
      * rewrite Hsent. vm_compute. reflexivity.
      * apply Hdisjoint. vm_compute. apply NoDup_cons. split.
        -- by intros [=]%list_elem_of_singleton.
        -- apply NoDup_singleton.
Defined.

End LeaderFacts.

(** * Requests to the controller *)

Module ControllerFacts.
Import Py Structs Admin NetworkFacts.

Definition is_metadata (request : Request) : bool :=
  match request with
  | MetadataRequest _ _ _ _ => true
  | _ => false
  end.

(** What a scan of the per-entity error codes of a response finds. *)
Inductive Scan :=
| NoErrors
| FirstError (error_type : string)
| NoErrorList.

Section Controller.
Variable env : Env.

(** The class of the first code that is not tolerated. *)
Fixpoint first_error (tolerated : string -> bool) (codes : list Z) : Scan :=
  match codes with
  | [] => NoErrors
  | code :: rest =>
      if tolerated (for_code env code) then first_error tolerated rest
      else FirstError (for_code env code)
  end.

Definition is_NoError (error_type : string) : bool :=
  bool_decide (error_type = Errors.NoError).

Definition is_NoError_or_ElectionNotNeeded (error_type : string) : bool :=
  bool_decide (error_type = Errors.NoError)
  || bool_decide (error_type = Errors.ElectionNotNeededError).

(** The first error of a response to a controller-bound request, in the
    order of its per-entity error list: [NoError] is skipped, and so is
    [ElectionNotNeededError] in the response to a leader election. *)
Definition scan (response : Response) : Scan :=
  match response with
  | CreateTopicsResponse topic_errors
  | CreatePartitionsResponse topic_errors =>
      first_error is_NoError (te_error_code <$> topic_errors)
  | DeleteTopicsResponse topic_error_codes =>
      first_error is_NoError (te_error_code <$> topic_error_codes)
  | ElectLeadersResponse _ replication_election_results =>
      first_error is_NoError_or_ElectionNotNeeded
        (pr_error_code <$> concat (snd <$> replication_election_results))
  | _ => NoErrorList
  end.

(** **** [_refresh_controller_id] *)

(** [c'] is [c] after more requests, all of them Metadata requests. *)
Definition metadata_only (c c' : Client) : Prop :=
  exists l, sent c' = sent c ++ l /\ Forall (fun nr => is_metadata nr.2 = true) l.

Lemma metadata_only_refl c : metadata_only c c.
Proof. exists []. split; [by rewrite app_nil_r|constructor]. Qed.

Lemma metadata_only_trans c1 c2 c3 :
  metadata_only c1 c2 -> metadata_only c2 c3 -> metadata_only c1 c3.
Proof.
  intros (l1 & H1 & F1) (l2 & H2 & F2). exists (l1 ++ l2).
  split; [by rewrite H2, H1, app_assoc|by apply Forall_app].
Qed.

Lemma _refresh_controller_id_loop_spec fuel request timeout_at c :
  wf env c -> is_metadata request = true ->
  (1 <= fuel)%nat -> timeout_at - now_ms c <= (Z.of_nat fuel - 1) * 1000 ->
  exists r c',
    _refresh_controller_id_loop env fuel request timeout_at c = (r, c')
    /\ r <> Diverges /\ wf env c' /\ metadata_only c c'.
Proof.
  revert c. induction fuel as [|fuel IH]; intros c Hwf Hmd Hfuel Htime; [lia|].
  cbn [_refresh_controller_id_loop].
  erewrite bindM_Ok by reflexivity.
  destruct (Z.ltb_spec (now_ms c) timeout_at) as [Hlt|Hge].
  2:{ eexists _, c. split; [reflexivity|]. split_and!; [done|done|].
      apply metadata_only_refl. }
  pose proof (send_request_spec env request None c Hwf) as Hsend.
  cbn zeta in Hsend.
  destruct (await_ready env (length (sent c)) (resolve env (length (sent c)) None))
    as [e|].
  { erewrite bindM_Raise by exact Hsend. eexists _, c.
    split; [reflexivity|]. split_and!; [done|done|apply metadata_only_refl]. }
  destruct Hsend as (c1 & Hrun & Hwf1 & Hsent1 & Hcid1 & Hnow1).
  assert (metadata_only c c1) as Hmo1.
  { eexists. split; [exact Hsent1|]. by repeat constructor. }
  destruct (answer env _ _ request) as [response|e]; cbn [result_of] in Hrun.
  2:{ erewrite bindM_Raise by exact Hrun. eexists _, c1.
      split; [reflexivity|]. by split_and!. }
  erewrite bindM_Ok by exact Hrun.
  destruct (response_controller_id response) as [controller_id|e|] eqn:Hcid.
  2:{ erewrite bindM_Raise by reflexivity. eexists _, c1.
      split; [reflexivity|]. by split_and!. }
  2:{ by destruct response. }
  erewrite bindM_Ok by reflexivity.
  destruct (Z.eqb_spec controller_id (-1)) as [->|Hne].
  - erewrite bindM_Ok by reflexivity.
    set (c2 := mkClient (_controller_id c1) (sent c1) (in_flight c1) (arrived c1)
                        (now_ms c1 + 1000)).
    assert (wf env c2) as Hwf2 by (by destruct Hwf1).
    destruct (IH c2 Hwf2 Hmd) as (r & c' & Hloop & Hr & Hwf' & Hmo').
    + unfold c2 in *. simpl. lia.
    + unfold c2. simpl. lia.
    + exists r, c'. split; [exact Hloop|]. split_and!; [done|done|].
      apply (metadata_only_trans c c1); [done|].
      destruct Hmo' as (l & Hl & Fl). by exists l.
  - unfold client_check_version.
    destruct (check_version env controller_id) as [e|controller_version].
    + erewrite bindM_Raise by reflexivity. eexists _, c1.
      split; [reflexivity|]. by split_and!.
    + erewrite bindM_Ok by reflexivity.
      destruct (version_lt controller_version (0, 10, 0)).
      * eexists _, c1. split; [reflexivity|]. by split_and!.
      * eexists _, _. split; [reflexivity|]. split_and!; [done| |done].
        by destruct Hwf1.
Qed.

(** [_refresh_controller_id] returns or raises (its loop does not run
    out of fuel), and sends Metadata requests only. *)
Lemma _refresh_controller_id_spec timeout_ms c :
  wf env c ->
  exists r c',
    _refresh_controller_id env timeout_ms c = (r, c')
    /\ r <> Diverges /\ wf env c' /\ metadata_only c c'.
Proof.
  intros Hwf. unfold _refresh_controller_id.
  case_bool_decide.
  { eexists _, c. split; [reflexivity|]. split_and!; [done|done|].
    apply metadata_only_refl. }
  erewrite bindM_Ok by reflexivity.
  apply _refresh_controller_id_loop_spec; [done|done|lia|].
  assert (timeout_ms / 1000 * 1000 <= timeout_ms < timeout_ms / 1000 * 1000 + 1000)
    by (pose proof (Z.div_mod timeout_ms 1000 ltac:(lia));
        pose proof (Z.mod_pos_bound timeout_ms 1000 ltac:(lia)); lia).
  destruct (Z.le_gt_cases 0 (timeout_ms / 1000)).
  - rewrite Nat2Z.inj_add, Z2Nat.id by done. lia.
  - rewrite Nat2Z.inj_add, Z2Nat.nonpos by lia. lia.
Qed.

(** **** Judging a response *)

(** What [_send_request_to_controller] does with a response when
    [tries] attempts are left after it. *)
Definition judged (scanned : Scan) (request : Request) (response : Response)
    (tries : nat) : M bool :=
  match scanned with
  | NoErrors => ret true
  | FirstError error_type =>
      if negb (tries =? 0)%nat && bool_decide (error_type = Errors.NotControllerError)
      then (_ <- _refresh_controller_id env 30000 ;; ret false)
      else raise (request_failed env error_type request response)
  | NoErrorList => raise (mkExn Errors.AttributeError "replication_election_results")
  end.

Definition judge (request : Request) (response : Response) (tries : nat) : M bool :=
  judged (scan response) request response tries.

Lemma NotControllerError_not_tolerated error_type :
  error_type = Errors.NotControllerError ->
  is_NoError error_type = false /\ is_NoError_or_ElectionNotNeeded error_type = false.
Proof. intros ->. by split. Qed.

Lemma _parse_topic_request_response_spec topic_error_tuples request response tries :
  _parse_topic_request_response env topic_error_tuples request response tries
  = judged (first_error is_NoError (te_error_code <$> topic_error_tuples))
           request response tries.
Proof.
  induction topic_error_tuples as [|e rest IH]; [done|].
  rewrite fmap_cons. cbn [_parse_topic_request_response first_error].
  destruct (negb (tries =? 0)%nat
            && bool_decide (for_code env (te_error_code e) = Errors.NotControllerError))
    eqn:Hretry.
  - apply andb_prop in Hretry as [Htries Hnc]. apply bool_decide_eq_true in Hnc.
    destruct (NotControllerError_not_tolerated _ Hnc) as [-> _].
    unfold judged. by rewrite Htries, Hnc.
  - unfold is_NoError at 1.
    destruct (bool_decide (for_code env (te_error_code e) = Errors.NoError));
      cbn [negb]; [done|].
    unfold judged. by rewrite Hretry.
Qed.

Lemma first_error_app tolerated codes1 codes2 :
  first_error tolerated (codes1 ++ codes2)
  = match first_error tolerated codes1 with
    | NoErrors => first_error tolerated codes2
    | scanned => scanned
    end.
Proof.
  induction codes1 as [|code codes1 IH]; [done|].
  cbn [app first_error]. by destruct (tolerated (for_code env code)).
Qed.

Lemma _parse_partition_results_spec partition_results rest request response tries c :
  (verdict <- _parse_partition_results env partition_results request response tries ;;
   match verdict with
   | Some success => ret success
   | None => _parse_election_results env rest request response tries
   end) c
  = match first_error is_NoError_or_ElectionNotNeeded
            (pr_error_code <$> partition_results) with
    | NoErrors => _parse_election_results env rest request response tries c
    | scanned => judged scanned request response tries c
    end.
Proof.
  induction partition_results as [|r results IH]; [done|].
  rewrite fmap_cons. cbn [_parse_partition_results first_error].
  destruct (negb (tries =? 0)%nat
            && bool_decide (for_code env (pr_error_code r) = Errors.NotControllerError))
    eqn:Hretry.
  - apply andb_prop in Hretry as [Htries Hnc]. apply bool_decide_eq_true in Hnc.
    destruct (NotControllerError_not_tolerated _ Hnc) as [_ ->].
    unfold judged. rewrite Htries, Hnc. cbn [andb].
    rewrite bool_decide_true by done.
    unfold bindM. by destruct (_refresh_controller_id env 30000 c) as [[[]|e|] c'].
  - unfold is_NoError_or_ElectionNotNeeded at 1.
    destruct (bool_decide (for_code env (pr_error_code r) = Errors.NoError)
              || bool_decide (for_code env (pr_error_code r) = Errors.ElectionNotNeededError))
      eqn:Htol.
    + apply orb_prop in Htol as [-> | Htol]; cbn [negb andb]; [apply IH|].
      rewrite Htol. rewrite andb_false_r. apply IH.
    + apply orb_false_elim in Htol as [-> ->]. cbn [negb andb].
      unfold judged. by rewrite Hretry.
Qed.

Lemma _parse_election_results_spec results request response tries c :
  _parse_election_results env results request response tries c
  = judged (first_error is_NoError_or_ElectionNotNeeded
              (pr_error_code <$> concat (snd <$> results)))
           request response tries c.
Proof.
  induction results as [|[topic partition_results] results IH]; [done|].
  cbn [_parse_election_results]. rewrite _parse_partition_results_spec.
  rewrite fmap_cons. cbn [concat snd]. rewrite fmap_app, first_error_app.
  by destruct (first_error _ (pr_error_code <$> partition_results)).
Qed.

(** The two parsers agree with [judge]. *)
Lemma judge_spec request response tries c :
  match topic_error_tuples_of response with
  | Some topic_error_tuples =>
      _parse_topic_request_response env topic_error_tuples request response tries
  | None => _parse_topic_partition_request_response env request response tries
  end c
  = judge request response tries c.
Proof.
  unfold judge, scan.
  destruct response; cbn [topic_error_tuples_of _parse_topic_partition_request_response];
    try reflexivity.
  - by rewrite _parse_topic_request_response_spec.
  - by rewrite _parse_topic_request_response_spec.
  - by rewrite _parse_topic_request_response_spec.
  - by rewrite _parse_election_results_spec.
Qed.

(** **** [_send_request_to_controller] *)

(** One attempt: the request is sent to the cached controller. *)
Definition attempt (request : Request) (c : Client) : Result Response * Client :=
  send_request env request (Some (_controller_id c)) c.

Lemma _send_request_to_controller_loop_step tries request c :
  _send_request_to_controller_loop env (S tries) request c
  = match attempt request c with
    | (Ok response, c1) =>
        match judge request response tries c1 with
        | (Ok true, c2) => (Ok response, c2)
        | (Ok false, c2) => _send_request_to_controller_loop env tries request c2
        | (Raise e, c2) => (Raise e, c2)
        | (Diverges, c2) => (Diverges, c2)
        end
    | (Raise e, c1) => (Raise e, c1)
    | (Diverges, c1) => (Diverges, c1)
    end.
Proof.
  cbn [_send_request_to_controller_loop]. unfold attempt.
  unfold bindM at 1, get_controller_id. unfold bindM at 1.
  destruct (send_request env request (Some (_controller_id c)) c) as [[r|e|] c1];
    try done.
  unfold bindM. rewrite judge_spec.
  by destruct (judge request r tries c1) as [[[]|e|] c2].
Qed.

Lemma judge_NoErrors request response tries c :
  scan response = NoErrors -> judge request response tries c = (Ok true, c).
Proof. unfold judge. by intros ->. Qed.

Lemma judge_raise request response tries error_type c :
  scan response = FirstError error_type ->
  tries = 0%nat \/ error_type <> Errors.NotControllerError ->
  judge request response tries c
  = (Raise (request_failed env error_type request response), c).
Proof.
  unfold judge. intros -> Hno. cbn [judged].
  destruct Hno as [->|Hne]; [done|].
  by rewrite bool_decide_false, andb_false_r.
Qed.

Lemma judge_retry request response tries c :
  scan response = FirstError Errors.NotControllerError ->
  judge request response (S tries) c
  = match _refresh_controller_id env 30000 c with
    | (Ok _, c') => (Ok false, c')
    | (Raise e, c') => (Raise e, c')
    | (Diverges, c') => (Diverges, c')
    end.
Proof.
  unfold judge. intros ->. cbn [judged]. rewrite bool_decide_true by done.
  cbn [Nat.eqb negb andb]. unfold bindM.
  by destruct (_refresh_controller_id env 30000 c) as [[[]|e|] c'].
Qed.

(** The last attempt: no retry is left. *)
Lemma last_attempt request c :
  _send_request_to_controller_loop env 1 request c
  = match attempt request c with
    | (Ok response, c1) =>
        match scan response with
        | NoErrors => (Ok response, c1)
        | FirstError error_type =>
            (Raise (request_failed env error_type request response), c1)
        | NoErrorList =>
            (Raise (mkExn Errors.AttributeError "replication_election_results"), c1)
        end
    | other => other
    end.
Proof.
  rewrite _send_request_to_controller_loop_step.
  destruct (attempt request c) as [[response|e|] c1]; try done.
  destruct (scan response) as [|error_type|] eqn:Hscan.
  - by rewrite judge_NoErrors.
  - rewrite (judge_raise _ _ _ error_type) by auto. done.
  - unfold judge. by rewrite Hscan.
Qed.

Lemma attempt_spec request c r c1 :
  wf env c -> attempt request c = (r, c1) ->
  r <> Diverges /\ wf env c1 /\ _controller_id c1 = _controller_id c
  /\ (sent c1 = sent c
      \/ sent c1 = sent c ++ [(_controller_id c, request)])
  /\ (forall response, r = Ok response ->
        sent c1 = sent c ++ [(_controller_id c, request)]).
Proof.
  intros Hwf Hrun. unfold attempt in Hrun.
  pose proof (send_request_spec env request (Some (_controller_id c)) c Hwf) as Hs.
  cbn zeta in Hs. cbn [resolve] in Hs.
  destruct (await_ready env (length (sent c)) (_controller_id c)) as [e|].
  - rewrite Hs in Hrun. injection Hrun as <- <-. split_and!; try done; auto.
  - destruct Hs as (c' & Hrun' & Hwf' & Hsent & Hcid & _).
    rewrite Hrun' in Hrun. injection Hrun as <- <-.
    split_and!; try done; auto.
    by destruct (answer env _ _ request).
Qed.

(** [c'] is [c] after more requests: at most [k] of them are not
    Metadata requests, and those are [request]. *)
Definition requests_sent (k : nat) (request : Request) (c c' : Client) : Prop :=
  exists sends,
    sent c' = sent c ++ sends
    /\ (length (filter (fun nr => is_metadata nr.2 = false) sends) <= k)%nat
    /\ Forall (fun nr => is_metadata nr.2 = false -> nr.2 = request) sends.

Lemma requests_sent_trans k1 k2 request c1 c2 c3 :
  requests_sent k1 request c1 c2 -> requests_sent k2 request c2 c3 ->
  requests_sent (k1 + k2) request c1 c3.
Proof.
  intros (l1 & H1 & L1 & F1) (l2 & H2 & L2 & F2). exists (l1 ++ l2).
  split_and!.
  - by rewrite H2, H1, app_assoc.
  - rewrite filter_app, length_app. lia.
  - by apply Forall_app.
Qed.

Lemma requests_sent_attempt request c r c1 :
  wf env c -> attempt request c = (r, c1) -> requests_sent 1 request c c1.
Proof.
  intros Hwf Hrun.
  destruct (attempt_spec request c r c1 Hwf Hrun) as (_ & _ & _ & [Hs|Hs] & _).
  - exists []. rewrite app_nil_r. split_and!; [done|simpl; lia|constructor].
  - exists [(_controller_id c, request)]. split_and!; [done| |by repeat constructor].
    rewrite length_filter. simpl. lia.
Qed.

Lemma requests_sent_metadata_only request c c' :
  metadata_only c c' -> requests_sent 0 request c c'.
Proof.
  intros (l & Hl & Fl). exists l. split_and!; [done| |].
  - clear Hl. induction Fl as [|nr l Hnr _ IH]; [simpl; lia|].
    rewrite filter_cons_False; [done|]. by rewrite Hnr.
  - eapply Forall_impl; [exact Fl|]. intros nr Hnr Hno. congruence.
Qed.

Lemma requests_sent_weaken k k' request c c' :
  (k <= k')%nat -> requests_sent k request c c' -> requests_sent k' request c c'.
Proof. intros Hk (l & ? & ? & ?). exists l. split_and!; [done|lia|done]. Qed.

Lemma requests_sent_refl request c : requests_sent 0 request c c.
Proof. apply requests_sent_metadata_only, metadata_only_refl. Qed.

(** The call returns or raises, and hands the request over at most
    twice; whatever else it sends is a Metadata request. *)
Lemma _send_request_to_controller_bounded request c :
  wf env c ->
  exists result c',
    _send_request_to_controller env request c = (result, c')
    /\ result <> Diverges
    /\ requests_sent 2 request c c'.
Proof.
  intros Hwf. unfold _send_request_to_controller.
  rewrite _send_request_to_controller_loop_step.
  destruct (attempt request c) as [r c1] eqn:Hattempt.
  destruct (attempt_spec request c r c1 Hwf Hattempt) as (Hr & Hwf1 & _).
  pose proof (requests_sent_attempt request c r c1 Hwf Hattempt) as Hsent1.
  destruct r as [response|e|]; [| |done].
  2:{ eexists _, _. split; [reflexivity|]. split; [done|].
      apply (requests_sent_weaken 1); [lia|done]. }
  destruct (scan response) as [|error_type|] eqn:Hscan.
  - rewrite judge_NoErrors by done. eexists _, _. split; [reflexivity|].
    split; [done|]. apply (requests_sent_weaken 1); [lia|done].
  - destruct (decide (error_type = Errors.NotControllerError)) as [->|Hne].
    + rewrite judge_retry by done.
      destruct (_refresh_controller_id_spec 30000 c1 Hwf1)
        as (rr & c2 & Hrefresh & Hrr & Hwf2 & Hmo).
      rewrite Hrefresh.
      pose proof (requests_sent_trans _ _ _ _ _ _ Hsent1
                    (requests_sent_metadata_only request _ _ Hmo)) as Hsent2.
      destruct rr as [[]|e|]; [| |done].
      * rewrite last_attempt.
        destruct (attempt request c2) as [r2 c3] eqn:Hattempt2.
        destruct (attempt_spec request c2 r2 c3 Hwf2 Hattempt2) as (Hr2 & _).
        pose proof (requests_sent_trans _ _ _ _ _ _ Hsent2
                      (requests_sent_attempt request c2 r2 c3 Hwf2 Hattempt2)) as Hsent3.
        destruct r2 as [response2|e|]; [|by eexists _, _|done].
        destruct (scan response2); by eexists _, _.
      * eexists _, _. split; [reflexivity|]. split; [done|].
        apply (requests_sent_weaken (1 + 0)); [lia|done].
    + rewrite (judge_raise _ _ _ error_type) by auto.
      eexists _, _. split; [reflexivity|]. split; [done|].
      apply (requests_sent_weaken 1); [lia|done].
  - unfold judge. rewrite Hscan. eexists _, _. split; [reflexivity|].
    split; [done|]. apply (requests_sent_weaken 1); [lia|done].
Qed.

Lemma first_attempt_runs request c r1 c1 :
  attempt request c = (Ok r1, c1) ->
  _send_request_to_controller env request c
  = match judge request r1 1 c1 with
    | (Ok true, c2) => (Ok r1, c2)
    | (Ok false, c2) => _send_request_to_controller_loop env 1 request c2
    | (Raise e, c2) => (Raise e, c2)
    | (Diverges, c2) => (Diverges, c2)
    end.
Proof.
  intros Hattempt. unfold _send_request_to_controller.
  by rewrite _send_request_to_controller_loop_step, Hattempt.
Qed.

(** The runs of [_send_request_to_controller], by the first error of
    each response.  The call returns or raises, having handed the
    request over at most twice, all else it sent being Metadata
    requests.  A failure to send, or a failed future, is raised.  A
    first response without error (for a leader election: with no other
    error than [ElectionNotNeededError]) is returned.  If the first
    error of the first response, in the order of its error list, is not
    [NotControllerError], that typed error is raised at once.  If it is
    [NotControllerError], the controller id is refreshed (an exception
    of the refresh being raised) and a second attempt is made with the
    refreshed controller: its response without error is returned, and
    the first error of its response, [NotControllerError] included, is
    raised. *)
Lemma _send_request_to_controller_runs (request : Request) (c : Client) :
  wf env c ->
  (exists result c',
     _send_request_to_controller env request c = (result, c')
     /\ result <> Diverges
     /\ requests_sent 2 request c c')
  /\ (forall e c1,
        attempt request c = (Raise e, c1) ->
        _send_request_to_controller env request c = (Raise e, c1))
  /\ (forall r1 c1,
        attempt request c = (Ok r1, c1) ->
        sent c1 = sent c ++ [(_controller_id c, request)]
        /\ (scan r1 = NoErrors ->
            _send_request_to_controller env request c = (Ok r1, c1))
        /\ (forall error_type,
              scan r1 = FirstError error_type ->
              error_type <> Errors.NotControllerError ->
              _send_request_to_controller env request c
              = (Raise (request_failed env error_type request r1), c1))
        /\ (scan r1 = FirstError Errors.NotControllerError ->
            (forall e c2,
               _refresh_controller_id env 30000 c1 = (Raise e, c2) ->
               _send_request_to_controller env request c = (Raise e, c2))
            /\ (forall u c2,
                  _refresh_controller_id env 30000 c1 = (Ok u, c2) ->
                  metadata_only c1 c2
                  /\ (forall e c3,
                        attempt request c2 = (Raise e, c3) ->
                        _send_request_to_controller env request c = (Raise e, c3))
                  /\ (forall r2 c3,
                        attempt request c2 = (Ok r2, c3) ->
                        sent c3 = sent c2 ++ [(_controller_id c2, request)]
                        /\ (scan r2 = NoErrors ->
                            _send_request_to_controller env request c = (Ok r2, c3))
                        /\ (forall error_type,
                              scan r2 = FirstError error_type ->
                              _send_request_to_controller env request c
                              = (Raise (request_failed env error_type request r2), c3)))))).
Proof.
  intros Hwf. split; [by apply _send_request_to_controller_bounded|]. split.
  { intros e c1 Hattempt. unfold _send_request_to_controller.
    by rewrite _send_request_to_controller_loop_step, Hattempt. }
  intros r1 c1 Hattempt.
  destruct (attempt_spec request c _ c1 Hwf Hattempt) as (_ & Hwf1 & _ & _ & Hsent1).
  rewrite (first_attempt_runs _ _ _ _ Hattempt).
  split; [exact (Hsent1 _ eq_refl)|]. split; [|split].
  - intros Hscan. by rewrite judge_NoErrors.
  - intros error_type Hscan Hne. by rewrite (judge_raise _ _ _ error_type) by auto.
  - intros Hscan. rewrite judge_retry by done. split.
    + intros e c2 Hrefresh. by rewrite Hrefresh.
    + intros u c2 Hrefresh. rewrite Hrefresh, last_attempt.
      destruct (_refresh_controller_id_spec 30000 c1 Hwf1)
        as (rr & c2' & Hrefresh' & _ & Hwf2 & Hmo).
      rewrite Hrefresh in Hrefresh'. injection Hrefresh' as <- <-.
      split; [done|]. split.
      * intros e c3 Hattempt2. by rewrite Hattempt2.
      * intros r2 c3 Hattempt2. rewrite Hattempt2.
        destruct (attempt_spec request c2 _ c3 Hwf2 Hattempt2) as (_ & _ & _ & _ & Hsent3).
        split; [exact (Hsent3 _ eq_refl)|]. split.
        -- by intros ->.
        -- by intros error_type ->.
Qed.

End Controller.

(** The four controller-bound operations raise before sending anything
    or call [_send_request_to_controller] on a request that is not a
    Metadata request. *)
Definition controller_bound (env : Env) (call : M Response) : Prop :=
  (exists e, call = raise e)
  \/ exists request,
      is_metadata request = false /\ call = _send_request_to_controller env request.

Lemma controller_bound_operations (env : Env) :
  (forall new_topics timeout_ms validate_only,
     controller_bound env (create_topics env new_topics timeout_ms validate_only))
  /\ (forall topics timeout_ms,
        controller_bound env (delete_topics env topics timeout_ms))
  /\ (forall topic_partitions timeout_ms validate_only,
        controller_bound env (create_partitions env topic_partitions timeout_ms validate_only))
  /\ (forall election_type topic_partitions timeout_ms,
        controller_bound env
          (perform_leader_election env election_type topic_partitions timeout_ms)).
Proof.
  assert (forall request,
            is_metadata request = false ->
            controller_bound env (_send_request_to_controller env request)) as Hsend.
  { intros request Hrequest. right. by exists request. }
  split_and!.
  - intros. unfold create_topics.
    case_bool_decide; [destruct validate_only|case_bool_decide];
      try (by apply Hsend); left; by eexists.
  - intros. by apply Hsend.
  - intros. by apply Hsend.
  - intros. unfold perform_leader_election.
    destruct (to_ElectionType election_type) as [t|e|] eqn:Ht.
    + by apply Hsend.
    + left. by eexists.
    + unfold to_ElectionType in Ht. by repeat case_match.
Qed.

(** Scenario S1: the first CreateTopics response carries
    [NotControllerError] (code 41) for ["t"], the Metadata response names
    node 7 as controller, and the second CreateTopics response carries
    no error. *)
Definition s1_request : Request :=
  CreateTopicsRequest 3 [("t", 1, 1, [], [])] 30000 (Some false).


(** A response that mixes errors, which the brokers are taken not to
    send: the first response carries [TopicAlreadyExistsError] (code 36)
    for ["t1"] and then [NotControllerError] for ["t2"]. *)
Definition mixed_env : Env :=
  Scenario.scripted 3
    [Succeeded (CreateTopicsResponse
                  [mkTopicError "t1" 36 None; mkTopicError "t2" 41 None]);
     Succeeded (MetadataResponse 3 7 []);
     Succeeded (CreateTopicsResponse
                  [mkTopicError "t1" 0 None; mkTopicError "t2" 0 None])]
    Scenario.fifo.

Definition mixed_request : Request :=
  CreateTopicsRequest 3 [("t1", 1, 1, [], []); ("t2", 1, 1, [], [])] 30000 (Some false).

(** The error list is read in order: the error that precedes
    [NotControllerError] is raised, the controller id is not refreshed
    and the request is not sent again. *)
Example mixed_errors_first_wins :
  exists topic_errors e c',
    answer mixed_env 0 1 mixed_request = Succeeded (CreateTopicsResponse topic_errors)
    /\ (exists entry, entry ∈ topic_errors
                      /\ for_code mixed_env (te_error_code entry)
                         = Errors.NotControllerError)
    /\ _send_request_to_controller mixed_env mixed_request Scenario.fresh_client
       = (Raise e, c')
    /\ exn_type e = "TopicAlreadyExistsError"
    /\ sent c' = [(1, mixed_request)]
    /\ _controller_id c' = 1.
Proof.
  eexists _, _, _. split; [reflexivity|]. split.
  - exists (mkTopicError "t2" 41 None). split; [right; left|reflexivity].
  - split; [vm_compute; reflexivity|]. by split_and!.
Qed.

End ControllerFacts.

(** ** The retry on [NotControllerError] *)

Module ControllerRetryFacts.
Import Py Structs Admin NetworkFacts ControllerFacts.





Section Retry.
Variable env : Env.


Definition is_election (response : Response) : bool :=
  match response with
  | ElectLeadersResponse _ _ => true
  | _ => false
  end.

(** An entry that is no error: [NoError], and for a leader election
    also [ElectionNotNeededError]. *)
Definition tolerated (response : Response) (error_type : string) : Prop :=
  error_type = Errors.NoError
  \/ (is_election response = true /\ error_type = Errors.ElectionNotNeededError).




















End Retry.


Example NotControllerError_twice :
  exists e c',
    _send_request_to_controller
      (Scenario.scripted 3
         [Succeeded (CreateTopicsResponse [mkTopicError "t" 41 None]);
          Succeeded (MetadataResponse 3 7 []);
          Succeeded (CreateTopicsResponse [mkTopicError "t" 41 None])]
         Scenario.fifo)
      s1_request Scenario.fresh_client = (Raise e, c')
    /\ exn_type e = Errors.NotControllerError
    /\ sent c' = [(1, s1_request);
                  (0, MetadataRequest 3 None None None);
                  (7, s1_request)].
Proof. eexists _, _. split; [vm_compute; reflexivity|]. by split. Qed.

End ControllerRetryFacts.

(** * Further properties

    Properties of the functions that the statements above do not cover:
    the network helpers, the controller lookup, the request builders,
    the response processing, the registries and the assignor. *)

(** ** Further properties of the network helpers *)

Module RequestFacts.
Import Py Structs Admin NetworkFacts.

Lemma mapR_Ok_inv {A B} (f : A -> Result B) l bs :
  mapR f l = Ok bs -> Forall2 (fun a b => f a = Ok b) l bs.
Proof.
  revert bs. induction l as [|a l IH]; intros bs Hrun; cbn [mapR] in Hrun.
  - injection Hrun as <-. constructor.
  - destruct (f a) as [b| |] eqn:Ha; [|done..].
    destruct (mapR f l) as [bs'| |]; [|done..].
    injection Hrun as <-. constructor; [done|]. by apply IH.
Qed.

Lemma first_failure_None_inv outcomes :
  first_failure outcomes = None ->
  Forall2 (fun o value => o = Succeeded value) outcomes (values_of outcomes).
Proof.
  induction outcomes as [|[value|e] outcomes IH]; cbn [first_failure values_of];
    intros Hnone; [constructor| |done].
  constructor; [done|]. by apply IH.
Qed.

Section Requests.
Variable env : Env.

Lemma dispatch_None_ready n requests_and_node_ids :
  (dispatch env n requests_and_node_ids).2 = None ->
  all_ready env n requests_and_node_ids.
Proof.
  revert n. induction requests_and_node_ids as [|[request node_id] rest IH];
    intros n Hnone i r nid Hi; [done|].
  cbn [dispatch] in Hnone.
  destruct (await_ready env n (resolve env n node_id)) as [e|] eqn:Hready; [done|].
  cbn [snd] in Hnone. destruct i as [|i].
  - injection Hi as <- <-. by rewrite Nat.add_0_r.
  - rewrite Nat.add_succ_r. apply (IH (S n) Hnone i r nid Hi).
Qed.

(** The loop of [send_requests] when the node of the [i]-th request is
    not ready. *)
Lemma dispatch_not_ready n requests_and_node_ids i request node_id e :
  requests_and_node_ids !! i = Some (request, node_id) ->
  all_ready env n (take i requests_and_node_ids) ->
  await_ready env (n + i) (resolve env (n + i) node_id) = Some e ->
  dispatch env n requests_and_node_ids
  = (planned env n (take i requests_and_node_ids), Some e).
Proof.
  revert n i. induction requests_and_node_ids as [|[r nid] rest IH];
    intros n i Hi Hready He; [done|].
  destruct i as [|i].
  - injection Hi as -> ->. rewrite Nat.add_0_r in He.
    cbn [dispatch take]. by rewrite He.
  - cbn [lookup list_lookup] in Hi. cbn [take dispatch].
    pose proof (Hready 0%nat r nid eq_refl) as H0. rewrite Nat.add_0_r in H0.
    rewrite H0. rewrite Nat.add_succ_r in He.
    rewrite (IH (S n) i Hi); [|intros j r' nid' Hj|done].
    + cbn [fst snd]. unfold planned. rewrite imap_cons. cbn [fst snd].
      rewrite Nat.add_0_r. do 2 f_equal. apply imap_ext. intros j [r' nid'] _.
      simpl. by rewrite Nat.add_succ_r.
    + specialize (Hready (S j) r' nid' Hj). by rewrite Nat.add_succ_r in Hready.
Qed.

End Requests.

(** X1: [send_request] hands exactly one request over, to the given node or
    to the least-loaded node, and returns the value of its future or
    raises the exception the future failed with; when [await_ready]
    raises, the exception propagates and nothing is sent. *)
Theorem send_request_outcome (env : Env) (request : Request) (node_id : option Z)
    (c : Client) :
  wf env c ->
  let node := resolve env (length (sent c)) node_id in
  (forall e, await_ready env (length (sent c)) node = Some e ->
             send_request env request node_id c = (Raise e, c))
  /\ (await_ready env (length (sent c)) node = None ->
      exists c',
        sent c' = sent c ++ [(node, request)]
        /\ _controller_id c' = _controller_id c
        /\ (forall value,
              answer env (length (sent c)) node request = Succeeded value ->
              send_request env request node_id c = (Ok value, c'))
        /\ (forall exception,
              answer env (length (sent c)) node request = Failed exception ->
              send_request env request node_id c = (Raise exception, c'))).
Proof.
  intros Hwf node. pose proof (send_request_spec env request node_id c Hwf) as Hs.
  cbn zeta in Hs. fold node in Hs. split.
  - intros e He. by rewrite He in Hs.
  - intros Hready. rewrite Hready in Hs.
    destruct Hs as (c' & Hrun & _ & Hsent & Hcid & _).
    exists c'. split_and!; [done|done| |].
    + intros value Hv. by rewrite Hrun, Hv.
    + intros exception Hv. by rewrite Hrun, Hv.
Qed.

(** Node 2 is not ready; everything else is as in the scripted
    scenario. *)
Definition node_2_down (answers : list Outcome) : Env :=
  let env := Scenario.scripted 2 answers Scenario.fifo in
  {| for_code := for_code env;
     request_timeout_ms := request_timeout_ms env;
     config_api_version := config_api_version env;
     api_version := api_version env;
     least_loaded_node := least_loaded_node env;
     await_ready := fun _ node =>
       if node =? 2 then Some (mkExn "KafkaConnectionError" "node 2") else None;
     answer := answer env;
     latency := latency env;
     next_completed := next_completed env;
     check_version := check_version env;
     cluster_brokers := cluster_brokers env;
     cluster_topic_partitions := cluster_topic_partitions env;
     str_request := str_request env;
     str_response := str_response env;
     str_topic_partition := Admin.str_topic_partition env;
     int := Admin.int env |}.

Lemma send_request_outcome_witness :
  send_request (node_2_down []) (ListGroupsRequest 2) (Some 2) Scenario.fresh_client
  = (Raise (mkExn "KafkaConnectionError" "node 2"), Scenario.fresh_client).
Proof.
  destruct (send_request_outcome (node_2_down []) (ListGroupsRequest 2) (Some 2)
              Scenario.fresh_client (wf_fresh _ _ _)) as [Hdown _].
  by apply Hdown.
Defined.

(** X2: [send_requests] returns [[response_fn(future.value) ...]] in the
    order of its input, whatever the order in which the responses
    complete: its result is the same in every environment that differs
    only in the order of completion and the latencies, and when it
    returns, its result has one element per request, the [i]-th being
    [response_fn] of the response to the [i]-th request, and the
    requests were handed over in input order. *)
Theorem send_requests_in_input_order {A} (env : Env)
    (requests_and_node_ids : list (Request * option Z))
    (response_fn : Response -> Result A) (c : Client) :
  wf env c ->
  (forall env', same_broker env' env ->
     (send_requests env' requests_and_node_ids response_fn c).1
     = (send_requests env requests_and_node_ids response_fn c).1)
  /\ (forall bs c',
        send_requests env requests_and_node_ids response_fn c = (Ok bs, c') ->
        sent c' = sent c ++ planned env (length (sent c)) requests_and_node_ids
        /\ Forall2 (fun o b => exists value, o = Succeeded value /\ response_fn value = Ok b)
             (answers env (length (sent c))
                (planned env (length (sent c)) requests_and_node_ids))
             bs).
Proof.
  intros Hwf. split.
  - intros env' Hsame.
    assert (same_broker env env') as Hsym
      by (destruct Hsame as (H1 & H2 & H3); by split_and!).
    rewrite (send_requests_fst env) by done.
    rewrite (send_requests_fst env') by (by apply (wf_same_broker env)).
    by apply requests_result_same_broker.
  - intros bs c' Hrun.
    destruct (send_requests_spec env requests_and_node_ids response_fn c Hwf)
      as (c'' & Hspec & _ & Hsent & _).
    rewrite Hrun in Hspec. injection Hspec as Hres <-.
    destruct ((dispatch env (length (sent c)) requests_and_node_ids).2) as [e|] eqn:Hd;
      [done|].
    apply dispatch_None_ready in Hd.
    rewrite (dispatch_ready env _ _ Hd) in Hres, Hsent. cbn [fst] in *.
    fold (planned env (length (sent c)) requests_and_node_ids) in Hres, Hsent.
    split; [done|]. unfold gathered in Hres.
    destruct (first_failure _) as [e|] eqn:Hff; [done|].
    apply first_failure_None_inv in Hff. symmetry in Hres.
    apply mapR_Ok_inv in Hres. clear Hrun Hsent.
    revert Hff Hres. generalize (values_of (answers env (length (sent c))
      (planned env (length (sent c)) requests_and_node_ids))).
    generalize (answers env (length (sent c))
      (planned env (length (sent c)) requests_and_node_ids)).
    intros outcomes values Hff. revert bs.
    induction Hff as [|o value outcomes values Ho _ IH]; intros bs Hres.
    + inversion Hres. constructor.
    + inversion Hres as [|? b ? bs' Hb Hbs]; subst. constructor; [eauto|by apply IH].
Qed.

Lemma send_requests_in_input_order_witness :
  exists c',
    send_requests
      (Scenario.scripted 2
         [Succeeded (FindCoordinatorResponse 0 7);
          Succeeded (FindCoordinatorResponse 0 8)] Scenario.lifo)
      [(FindCoordinatorRequest 2 "g1" (Some 0), None);
       (FindCoordinatorRequest 2 "g2" (Some 0), Some 1)]
      Ok Scenario.fresh_client
    = (Ok [FindCoordinatorResponse 0 7; FindCoordinatorResponse 0 8], c')
    /\ sent c' = [(0, FindCoordinatorRequest 2 "g1" (Some 0));
                  (1, FindCoordinatorRequest 2 "g2" (Some 0))].
Proof.
  eexists. split; [vm_compute; reflexivity|].
  destruct (send_requests_in_input_order
              (Scenario.scripted 2
                 [Succeeded (FindCoordinatorResponse 0 7);
                  Succeeded (FindCoordinatorResponse 0 8)] Scenario.lifo)
              [(FindCoordinatorRequest 2 "g1" (Some 0), None);
               (FindCoordinatorRequest 2 "g2" (Some 0), Some 1)]
              Ok Scenario.fresh_client (wf_fresh _ _ _)) as [_ Hok].
  edestruct Hok as [Hsent _]; [vm_compute; reflexivity|].
  exact Hsent.
Defined.

(** X3: When the node of the [i]-th request is not ready, [send_requests]
    raises the exception of [await_ready]: the [i] requests before it
    have been handed over and are left in flight, no response has been
    waited for, and the requests after it are not sent. *)
Theorem send_requests_stops_at_unready_node {A} (env : Env)
    (requests_and_node_ids : list (Request * option Z))
    (response_fn : Response -> Result A) (c : Client)
    (i : nat) (request : Request) (node_id : option Z) (e : Exn) :
  wf env c ->
  requests_and_node_ids !! i = Some (request, node_id) ->
  all_ready env (length (sent c)) (take i requests_and_node_ids) ->
  await_ready env (length (sent c) + i) (resolve env (length (sent c) + i) node_id)
  = Some e ->
  exists c',
    send_requests env requests_and_node_ids response_fn c = (Raise e, c')
    /\ sent c' = sent c ++ planned env (length (sent c)) (take i requests_and_node_ids)
    /\ in_flight c' = in_flight c ++ seq (length (sent c)) i
    /\ arrived c' = arrived c.
Proof.
  intros Hwf Hi Hready He.
  pose proof (dispatch_not_ready env _ _ _ _ _ _ Hi Hready He) as Hd.
  destruct (send_requests_futures_spec env requests_and_node_ids c Hwf) as [Hrun _].
  rewrite Hd in Hrun. cbn [fst snd] in Hrun.
  eexists. unfold send_requests. erewrite bindM_Raise by exact Hrun.
  split; [reflexivity|]. unfold after_dispatch. cbn [sent in_flight arrived].
  split_and!; [done| |done]. do 2 f_equal. unfold planned.
  rewrite length_imap, length_take. apply lookup_lt_Some in Hi. lia.
Qed.

Lemma send_requests_stops_at_unready_node_witness :
  exists c',
    send_requests (node_2_down [])
      [(ListGroupsRequest 2, Some 1); (ListGroupsRequest 2, Some 2);
       (ListGroupsRequest 2, Some 3)]
      Ok Scenario.fresh_client
    = (Raise (mkExn "KafkaConnectionError" "node 2"), c')
    /\ sent c' = [(1, ListGroupsRequest 2)]
    /\ in_flight c' = [0%nat]
    /\ arrived c' = [].
Proof.
  refine (send_requests_stops_at_unready_node (node_2_down [])
            [(ListGroupsRequest 2, Some 1); (ListGroupsRequest 2, Some 2);
             (ListGroupsRequest 2, Some 3)]
            Ok Scenario.fresh_client 1 (ListGroupsRequest 2) (Some 2)
            (mkExn "KafkaConnectionError" "node 2") _ _ _ _).
  - apply wf_fresh.
  - reflexivity.
  - intros [|j] r nid; [|done]. intros [= <- <-]. reflexivity.
  - reflexivity.
Defined.

Lemma first_failure_Some outcomes i e :
  outcomes !! i = Some (Failed e) ->
  (forall j o, (j < i)%nat -> outcomes !! j = Some o -> exists v, o = Succeeded v) ->
  first_failure outcomes = Some e.
Proof.
  revert i. induction outcomes as [|o outcomes IH]; intros i Hi Hbefore; [done|].
  destruct i as [|i].
  - by injection Hi as ->.
  - destruct (Hbefore 0%nat o ltac:(lia) eq_refl) as [v ->].
    cbn [first_failure]. apply (IH i); [done|].
    intros j o' Hj Ho'. apply (Hbefore (S j)); [lia|done].
Qed.

(** X4: A failed future takes precedence over [response_fn]: when every
    node is ready and the future of the [i]-th request is the first, in
    input order, that failed, [send_requests] raises its exception
    after all the requests have been handed over, and [response_fn] is
    applied to no response, whatever it would do with them. *)
Theorem send_requests_raises_first_failure {A} (env : Env)
    (requests_and_node_ids : list (Request * option Z))
    (response_fn : Response -> Result A) (c : Client) (i : nat) (e : Exn) :
  wf env c ->
  all_ready env (length (sent c)) requests_and_node_ids ->
  outcome_at env (length (sent c)) requests_and_node_ids i = Some (Failed e) ->
  (forall j o, (j < i)%nat ->
     outcome_at env (length (sent c)) requests_and_node_ids j = Some o ->
     exists value, o = Succeeded value) ->
  exists c',
    send_requests env requests_and_node_ids response_fn c = (Raise e, c')
    /\ sent c' = sent c ++ planned env (length (sent c)) requests_and_node_ids.
Proof.
  intros Hwf Hready Hi Hbefore.
  destruct (send_requests_ready env requests_and_node_ids response_fn c Hwf Hready)
    as (c' & Hrun & _ & Hsent & _).
  exists c'. split; [|done]. rewrite Hrun. f_equal. unfold gathered.
  rewrite (first_failure_Some _ i e); [done| |].
  - unfold planned. by rewrite answers_lookup.
  - intros j o Hj Ho. unfold planned in Ho. rewrite answers_lookup in Ho.
    by apply (Hbefore j).
Qed.

Lemma send_requests_raises_first_failure_witness :
  exists c',
    send_requests
      (Scenario.scripted 2
         [Succeeded (ListGroupsResponse 2 3 []); Scenario.timed_out] Scenario.lifo)
      [(ListGroupsRequest 2, Some 1); (ListGroupsRequest 2, Some 2)]
      (_list_consumer_groups_process_response
         (Scenario.scripted 2
            [Succeeded (ListGroupsResponse 2 3 []); Scenario.timed_out] Scenario.lifo))
      Scenario.fresh_client
    = (Raise (mkExn "RequestTimedOutError" EmptyString), c')
    /\ sent c' = [(1, ListGroupsRequest 2); (2, ListGroupsRequest 2)].
Proof.
  refine (send_requests_raises_first_failure
            (Scenario.scripted 2
               [Succeeded (ListGroupsResponse 2 3 []); Scenario.timed_out] Scenario.lifo)
            [(ListGroupsRequest 2, Some 1); (ListGroupsRequest 2, Some 2)]
            _ Scenario.fresh_client 1 (mkExn "RequestTimedOutError" EmptyString)
            _ _ _ _).
  - apply wf_fresh.
  - intros j r nid _. reflexivity.
  - reflexivity.
  - intros [|j] o Hj; [|lia]. intros [= <-]. by eexists.
Defined.

End RequestFacts.

(** ** The controller lookup *)

Module RefreshFacts.
Import Py Structs Admin NetworkFacts.

Section Refresh.
Variable env : Env.

(** The last request sent was [request], and the response to it named
    the current controller, a node other than -1 whose broker version
    is at least 0.10.0. *)
Definition controller_found (request : Request) (c : Client) : Prop :=
  exists k node API_VERSION topics broker_version,
    sent c !! k = Some (node, request)
    /\ S k = length (sent c)
    /\ answer env k node request
       = Succeeded (MetadataResponse API_VERSION (_controller_id c) topics)
    /\ _controller_id c <> -1
    /\ check_version env (_controller_id c) = inr broker_version
    /\ version_lt broker_version (0, 10, 0) = false.

(** What a run of the loop of [_refresh_controller_id] leaves behind:
    the requests [l] it sent, its result [r] and the state [c']. *)
Definition refresh_run (request : Request) (budget_ms : Z) (c : Client)
    (r : Result unit) (c' : Client) : Prop :=
  exists l,
    sent c' = sent c ++ l
    /\ Forall (fun nr : Z * Request => nr.2 = request) l
    /\ (l = [] \/ (Z.of_nat (length l) - 1) * 1000 < budget_ms)
    /\ r <> Diverges
    /\ (r = Ok tt -> controller_found request c')
    /\ (forall e, r = Raise e -> _controller_id c' = _controller_id c).

Lemma _refresh_controller_id_loop_run fuel request timeout_at c :
  wf env c ->
  (1 <= fuel)%nat -> timeout_at - now_ms c <= (Z.of_nat fuel - 1) * 1000 ->
  exists r c',
    _refresh_controller_id_loop env fuel request timeout_at c = (r, c')
    /\ refresh_run request (timeout_at - now_ms c) c r c'.
Proof.
  revert c. induction fuel as [|fuel IH]; intros c Hwf Hfuel Htime; [lia|].
  cbn [_refresh_controller_id_loop].
  erewrite bindM_Ok by reflexivity.
  destruct (Z.ltb_spec (now_ms c) timeout_at) as [Hlt|Hge].
  2:{ eexists _, c. split; [reflexivity|]. exists [].
      rewrite app_nil_r. split_and!; try done; auto. }
  pose proof (send_request_spec env request None c Hwf) as Hsend.
  cbn zeta in Hsend.
  destruct (await_ready env (length (sent c)) (resolve env (length (sent c)) None))
    as [e|].
  { erewrite bindM_Raise by exact Hsend. eexists _, c.
    split; [reflexivity|]. exists []. rewrite app_nil_r.
    split_and!; try done; auto. }
  destruct Hsend as (c1 & Hrun & Hwf1 & Hsent1 & Hcid1 & Hnow1).
  set (node := resolve env (length (sent c)) None) in *.
  assert (forall r, r <> Diverges -> r <> Ok tt ->
            refresh_run request (timeout_at - now_ms c) c r c1) as Hstop.
  { intros r Hr Hno. exists [(node, request)].
    split; [done|]. split; [by repeat constructor|].
    split; [right; simpl; lia|]. split; [done|]. split; [done|].
    intros e _. done. }
  destruct (answer env _ _ request) as [response|e] eqn:Hans; cbn [result_of] in Hrun.
  2:{ erewrite bindM_Raise by exact Hrun. eexists _, c1.
      split; [reflexivity|]. by apply Hstop. }
  erewrite bindM_Ok by exact Hrun.
  destruct (response_controller_id response) as [controller_id|e|] eqn:Hcid.
  2:{ erewrite bindM_Raise by reflexivity. eexists _, c1.
      split; [reflexivity|]. by apply Hstop. }
  2:{ by destruct response. }
  erewrite bindM_Ok by reflexivity.
  destruct (Z.eqb_spec controller_id (-1)) as [->|Hne].
  - erewrite bindM_Ok by reflexivity.
    set (c2 := mkClient (_controller_id c1) (sent c1) (in_flight c1) (arrived c1)
                        (now_ms c1 + 1000)).
    assert (wf env c2) as Hwf2 by (by destruct Hwf1).
    destruct (IH c2 Hwf2) as (r & c' & Hloop & l & Hl & Fl & Hbound & Hr & Hok & Hraise).
    + unfold c2 in *. simpl. lia.
    + unfold c2. simpl. lia.
    + exists r, c'. split; [exact Hloop|]. exists ((node, request) :: l).
      split_and!; try done.
      * rewrite Hl. unfold c2. cbn [sent]. rewrite Hsent1.
        by rewrite <- app_assoc.
      * by constructor.
      * right. unfold c2 in Hbound. cbn [now_ms] in Hbound.
        destruct Hbound as [->|Hbound]; simpl in *; lia.
      * intros e He. rewrite (Hraise e He). unfold c2. simpl. done.
  - unfold client_check_version.
    destruct (check_version env controller_id) as [e|controller_version] eqn:Hcv.
    + erewrite bindM_Raise by reflexivity. eexists _, c1.
      split; [reflexivity|]. by apply Hstop.
    + erewrite bindM_Ok by reflexivity.
      destruct (version_lt controller_version (0, 10, 0)) eqn:Hv.
      * eexists _, c1. split; [reflexivity|]. by apply Hstop.
      * eexists _, _. split; [reflexivity|]. exists [(node, request)].
        cbn [sent _controller_id]. split_and!; try done.
        -- by repeat constructor.
        -- right. simpl. lia.
        -- intros _. destruct response; try done. injection Hcid as ->.
           exists (length (sent c)), node, API_VERSION, topics, controller_version.
           cbn [sent _controller_id]. rewrite Hsent1.
           split_and!; try done.
           ++ by rewrite list_lookup_middle.
           ++ rewrite length_app. simpl. lia.
Qed.

(** X5: [_refresh_controller_id] returns or raises.  It sends nothing but
    its own Metadata request (no topics), at most once per started
    second of [timeout_ms].  When it returns, [_controller_id] is the
    controller named by the response to the last request sent: a node
    other than -1 whose broker version is at least 0.10.0.  When it
    raises, [_controller_id] is left as it was; with MetadataRequest
    version 0 it raises [UnrecognizedBrokerVersion] and sends
    nothing. *)
Theorem _refresh_controller_id_outcome (timeout_ms : Z) (c : Client) :
  wf env c ->
  let request :=
    MetadataRequest (api_version env "MetadataRequest" 8) None None None in
  exists r c' l,
    _refresh_controller_id env timeout_ms c = (r, c')
    /\ r <> Diverges
    /\ sent c' = sent c ++ l
    /\ Forall (fun nr : Z * Request => nr.2 = request) l
    /\ (Z.of_nat (length l) - 1) * 1000 < Z.max 0 timeout_ms
    /\ (r = Ok tt -> controller_found request c')
    /\ (forall e, r = Raise e -> _controller_id c' = _controller_id c)
    /\ (api_version env "MetadataRequest" 8 = 0%nat ->
        l = [] /\ exists e, r = Raise e /\ exn_type e = Errors.UnrecognizedBrokerVersion).
Proof.
  intros Hwf request. unfold _refresh_controller_id.
  case_bool_decide as Hversion.
  { eexists _, c, []. rewrite app_nil_r. split; [reflexivity|].
    split_and!; try done; [simpl; lia|]. intros _. split; [done|]. by eexists. }
  erewrite bindM_Ok by reflexivity.
  destruct (_refresh_controller_id_loop_run
              (Z.to_nat (timeout_ms / 1000) + 2) request (now_ms c + timeout_ms) c Hwf)
    as (r & c' & Hrun & l & Hl & Fl & Hbound & Hr & Hok & Hraise).
  - lia.
  - assert (timeout_ms / 1000 * 1000 <= timeout_ms < timeout_ms / 1000 * 1000 + 1000)
      by (pose proof (Z.div_mod timeout_ms 1000 ltac:(lia));
          pose proof (Z.mod_pos_bound timeout_ms 1000 ltac:(lia)); lia).
    destruct (Z.le_gt_cases 0 (timeout_ms / 1000)).
    + rewrite Nat2Z.inj_add, Z2Nat.id by done. lia.
    + rewrite Nat2Z.inj_add, Z2Nat.nonpos by lia. lia.
  - exists r, c', l. split; [exact Hrun|]. split_and!; try done.
    destruct Hbound as [->|Hbound]; simpl; lia.
Qed.

End Refresh.

(** The first Metadata response has no controller (-1), the second
    names node 7. *)
Definition controller_late : Env :=
  Scenario.scripted 8
    [Succeeded (MetadataResponse 8 (-1) []); Succeeded (MetadataResponse 8 7 [])]
    Scenario.fifo.

Lemma _refresh_controller_id_outcome_witness :
  exists c',
    _refresh_controller_id controller_late 30000 Scenario.fresh_client = (Ok tt, c')
    /\ _controller_id c' = 7
    /\ sent c' = [(0, MetadataRequest 8 None None None);
                  (0, MetadataRequest 8 None None None)]
    /\ controller_found controller_late (MetadataRequest 8 None None None) c'.
Proof.
  destruct (_refresh_controller_id_outcome controller_late 30000 Scenario.fresh_client
              (wf_fresh _ _ _))
    as (r & c' & l & Hrun & _ & _ & _ & _ & Hfound & _).
  assert (exists c0, _refresh_controller_id controller_late 30000 Scenario.fresh_client
                     = (Ok tt, c0) /\ _controller_id c0 = 7
                     /\ sent c0 = [(0, MetadataRequest 8 None None None);
                                   (0, MetadataRequest 8 None None None)])
    as (c0 & Hrun0 & Hcid & Hsent).
  { eexists. split; [vm_compute; reflexivity|]. split; reflexivity. }
  rewrite Hrun0 in Hrun. injection Hrun as <- <-.
  exists c0. split_and!; try done. by apply Hfound.
Defined.

End RefreshFacts.

(** ** Requests built from dictionaries *)

Module GroupingFacts.
Import Py NetworkFacts.

(** [d[key(x)].append(val(x))] for every [x] of a list, on a
    [defaultdict(list)]: the bucket of a key holds the values of the
    elements with that key, in order, and there is no empty bucket. *)
Lemma dict_append_foldl {A K V} `{EqDecision K} (key : A -> K) (val : A -> V)
    (l : list A) :
  let d := foldl (fun acc x => dict_append (key x) (val x) acc) [] l in
  NoDup (dict_keys d)
  /\ forall k,
      dict_get k d = match filter (fun x => key x = k) l with
                     | [] => None
                     | (_ :: _) as xs => Some (val <$> xs)
                     end.
Proof.
  induction l as [|x l IH] using rev_ind; cbn zeta.
  - split; [constructor|done].
  - cbn zeta in IH. destruct IH as [IH1 IH2]. rewrite foldl_app. cbn [foldl].
    set (d := foldl (fun acc x => dict_append (key x) (val x) acc) [] l) in *.
    split; [by apply dict_keys_set_NoDup|].
    intros k. unfold dict_append. rewrite dict_get_set, filter_app.
    case_decide as Hk.
    + subst k. rewrite IH2. rewrite filter_cons_True by done. rewrite filter_nil.
      destruct (filter (fun x0 => key x0 = key x) l) as [|y ys]; [done|].
      cbn [default app]. by rewrite !fmap_cons, fmap_app.
    + rewrite IH2. rewrite filter_cons_False by (by intros <-). rewrite filter_nil.
      by rewrite app_nil_r.
Qed.

Lemma mapR_fmap {A B} (f : A -> Result B) (g : A -> B) (l : list A) :
  (forall x, x ∈ l -> f x = Ok (g x)) -> mapR f l = Ok (g <$> l).
Proof.
  induction l as [|x l IH]; intros Hf; [done|].
  cbn [mapR]. rewrite (Hf x) by left. rewrite IH; [done|].
  intros y Hy. apply Hf. by right.
Qed.

End GroupingFacts.

Module OffsetFetchRequestFacts.
Import Py Structs Admin NetworkFacts.

(** The dictionary [topics_partitions_dict]. *)
Lemma topics_partitions_dict_spec (partitions : list TopicPartition) :
  let d := foldl (fun d tp =>
                    dict_set (topic tp)
                      (default ∅ (dict_get (topic tp) d) ∪ {[ partition tp ]}) d)
                 [] partitions : list (string * gset Z) in
  NoDup (dict_keys d)
  /\ (forall t ps, dict_get t d = Some ps ->
        ps <> ∅ /\ forall p, p ∈ ps <-> mkTopicPartition t p ∈ partitions)
  /\ (forall tp, tp ∈ partitions -> is_Some (dict_get (topic tp) d)).
Proof.
  induction partitions as [|[t0 p0] partitions IH] using rev_ind; cbn zeta.
  - split_and!; [constructor|done|]. intros tp H. by apply elem_of_nil in H.
  - cbn zeta in IH. destruct IH as (IH1 & IH2 & IH3). rewrite foldl_app. cbn [foldl].
    set (d := foldl _ [] partitions) in *. cbn [topic partition].
    split_and!.
    + by apply dict_keys_set_NoDup.
    + intros t ps. rewrite dict_get_set. case_decide as Ht.
      * subst t. intros [= <-]. split.
        { intros Hempty. apply (not_elem_of_empty (C:=gset Z) p0).
          rewrite <- Hempty. apply elem_of_union_r. by apply elem_of_singleton. }
        intros p. rewrite elem_of_union, elem_of_singleton, elem_of_app.
        rewrite list_elem_of_singleton.
        destruct (dict_get t0 d) as [ps0|] eqn:Hd; cbn [default].
        -- destruct (IH2 t0 ps0 Hd) as [_ Hps0]. rewrite Hps0.
           split; [intros [?| ->]; auto|]. intros [?|[= ->]]; auto.
        -- split.
           ++ intros [H| ->]; [by apply not_elem_of_empty in H|by right].
           ++ intros [H|[= ->]]; [|by right].
              destruct (IH3 _ H) as [ps' Hps']. simpl in Hps'. congruence.
      * intros Hd. destruct (IH2 t ps Hd) as [Hne Hps]. split; [done|].
        intros p. rewrite Hps, elem_of_app, list_elem_of_singleton.
        split; [auto|]. intros [?|[= -> ->]]; [done|done].
    + intros tp [Htp| ->%list_elem_of_singleton]%elem_of_app.
      * rewrite dict_get_set. case_decide; [by eexists|by apply IH3].
      * cbn [topic]. rewrite dict_get_set. rewrite decide_True by done. by eexists.
Qed.

(** X6: The request built for given [partitions] groups them by topic:
    every topic occurs once, with a non-empty list of distinct
    partitions, and a partition is listed under a topic exactly when
    the [TopicPartition] is among the given ones.  No version is
    refused. *)
Theorem offsets_request_groups_by_topic (env : Env) (group_id : string)
    (partitions : list TopicPartition) :
  exists topics,
    _list_consumer_group_offsets_request env group_id (Some partitions)
    = Ok (OffsetFetchRequest (api_version env "OffsetFetchRequest" 5) group_id
            (Some topics))
    /\ NoDup topics.*1
    /\ (forall t ps, (t, ps) ∈ topics -> ps <> [] /\ NoDup ps)
    /\ (forall t p, (exists ps, (t, ps) ∈ topics /\ p ∈ ps)
                    <-> mkTopicPartition t p ∈ partitions).
Proof.
  eexists. split; [reflexivity|]. unfold topics_partitions_of.
  destruct (topics_partitions_dict_spec partitions) as (Hnd & Hget & Hsome).
  cbn zeta in *. set (d := foldl _ [] partitions) in *.
  assert (forall t ps, (t, ps) ∈ ((fun ts : string * gset Z => (ts.1, elements ts.2)) <$> d)
                       <-> exists s, dict_get t d = Some s /\ ps = elements s) as Hin.
  { intros t ps. rewrite list_elem_of_fmap. split.
    - intros ([t' s] & [= -> ->] & Hts). exists s. split; [|done].
      by apply elem_of_dict_NoDup.
    - intros (s & Hs & ->). exists (t, s). split; [done|].
      by apply dict_get_Some_elem_of. }
  split_and!.
  - rewrite <- list_fmap_compose. exact Hnd.
  - intros t ps (s & Hs & ->)%Hin. destruct (Hget t s Hs) as [Hne _]. split.
    + intros Hnil. apply Hne. apply leibniz_equiv. by apply elements_empty_inv.
    + apply NoDup_elements.
  - intros t p. split.
    + intros (ps & (s & Hs & ->)%Hin & Hp). apply elem_of_elements in Hp.
      by apply (Hget t s Hs).
    + intros Htp. destruct (Hsome _ Htp) as [s Hs]. cbn [topic] in Hs.
      exists (elements s). split; [apply Hin; eauto|].
      apply elem_of_elements. by apply (Hget t s Hs).
Qed.

End OffsetFetchRequestFacts.

Module DeleteRecordsRequestFacts.
Import Py Structs Admin NetworkFacts GroupingFacts.

Section Requests.
Variable env : Env.

(** The topics array of the DeleteRecords request for the partitions
    [partitions] of one leader. *)
Definition topics_of (records_to_delete : list (TopicPartition * Z))
    (partitions : list TopicPartition) : list (string * list (Z * Z)) :=
  (fun tps : string * list TopicPartition =>
     (tps.1, (fun tp => (partition tp, default 0 (dict_get tp records_to_delete)))
               <$> tps.2))
    <$> topic2partitions_of partitions.

Lemma delete_records_request_Ok version records_to_delete partitions timeout_ms :
  (forall tp, tp ∈ partitions -> is_Some (dict_get tp records_to_delete)) ->
  delete_records_request env version records_to_delete partitions timeout_ms
  = Ok (DeleteRecordsRequest version (topics_of records_to_delete partitions) timeout_ms).
Proof.
  intros Hkeys. unfold delete_records_request, topics_of.
  destruct (dict_append_foldl topic id partitions) as [Hnd Hget]. cbn zeta in *.
  fold (topic2partitions_of partitions) in Hnd, Hget.
  erewrite mapR_fmap; [reflexivity|].
  intros [t bucket] Hb. cbn [fst snd].
  erewrite mapR_fmap; [reflexivity|].
  intros tp Htp. unfold partition_offset.
  assert (tp ∈ partitions) as Hin.
  { apply (elem_of_dict_NoDup _ _ _ Hnd) in Hb. rewrite Hget in Hb.
    destruct (filter (fun x => topic x = t) partitions) as [|y ys] eqn:Hf; [done|].
    injection Hb as <-. rewrite list_fmap_id, <- Hf in Htp.
    by apply list_elem_of_filter in Htp as [_ ?]. }
  destruct (Hkeys tp Hin) as [offset ->]. done.
Qed.

Lemma topics_of_spec records_to_delete partitions :
  NoDup (topics_of records_to_delete partitions).*1
  /\ forall t p o,
      (exists offsets, (t, offsets) ∈ topics_of records_to_delete partitions
                       /\ (p, o) ∈ offsets)
      <-> mkTopicPartition t p ∈ partitions
          /\ o = default 0 (dict_get (mkTopicPartition t p) records_to_delete).
Proof.
  destruct (dict_append_foldl topic id partitions) as [Hnd Hget]. cbn zeta in *.
  fold (topic2partitions_of partitions) in Hnd, Hget.
  unfold topics_of. split; [by rewrite <- list_fmap_compose|].
  intros t p o. split.
  - intros (offsets & ([t' bucket] & [= -> ->] & Hb)%list_elem_of_fmap & Hpo).
    apply (elem_of_dict_NoDup _ _ _ Hnd) in Hb. rewrite Hget in Hb.
    destruct (filter (fun x => topic x = t') partitions) as [|y ys] eqn:Hf; [done|].
    injection Hb as <-. rewrite list_fmap_id, <- Hf in Hpo.
    apply list_elem_of_fmap in Hpo as ([t'' p'] & [= -> ->] & Htp).
    apply list_elem_of_filter in Htp as [Ht Htp]. cbn [topic partition] in *.
    by subst t''.
  - intros [Htp ->].
    assert (mkTopicPartition t p ∈ filter (fun x => topic x = t) partitions) as Hf
      by (by apply list_elem_of_filter).
    specialize (Hget t).
    destruct (filter (fun x => topic x = t) partitions) as [|y ys] eqn:Heq;
      [by apply elem_of_nil in Hf|].
    rewrite list_fmap_id in Hget. apply dict_get_Some_elem_of in Hget.
    eexists. split.
    + apply list_elem_of_fmap. eexists. split; [|exact Hget]. reflexivity.
    + cbn [snd]. apply list_elem_of_fmap. by exists (mkTopicPartition t p).
Qed.

End Requests.

(** X7: With [partition_leader_id] given, [delete_records] asks for no
    metadata: it sends one DeleteRecords request, to that node.  The
    request lists every topic once and holds under it exactly the
    partitions of [records_to_delete] with their offsets (the lookup of
    an offset never fails); with an empty [records_to_delete] the
    request is still sent, with no topics.  The outcome is that of the
    processing of its response. *)
Theorem delete_records_at_given_leader (env : Env)
    (records_to_delete : list (TopicPartition * Z)) (timeout_ms : option Z)
    (partition_leader_id : Z) (c : Client) :
  wf env c ->
  await_ready env (length (sent c)) partition_leader_id = None ->
  exists topics c',
    let request :=
      DeleteRecordsRequest (api_version env "DeleteRecordsRequest" 0) topics
        (_validate_timeout env timeout_ms) in
    sent c' = sent c ++ [(partition_leader_id, request)]
    /\ delete_records env records_to_delete timeout_ms (Some partition_leader_id) c
       = (response ← result_of (answer env (length (sent c)) partition_leader_id request);
          obj ← to_object response;
          delete_records_result env [obj], c')
    /\ NoDup topics.*1
    /\ (forall t p o,
          (exists offsets, (t, offsets) ∈ topics /\ (p, o) ∈ offsets)
          <-> dict_get (mkTopicPartition t p) records_to_delete = Some o)
    /\ (records_to_delete = [] -> topics = []).
Proof.
  intros Hwf Hready.
  set (partitions := elements (list_to_set (dict_keys records_to_delete)
                               : gset TopicPartition)).
  assert (forall tp, tp ∈ partitions <-> is_Some (dict_get tp records_to_delete)) as Hkeys.
  { intros tp. unfold partitions. rewrite elem_of_elements, elem_of_list_to_set.
    rewrite <- not_eq_None_Some, dict_get_None. split; [auto|].
    intros H. by destruct (decide (tp ∈ dict_keys records_to_delete)). }
  exists (topics_of records_to_delete partitions).
  set (request := DeleteRecordsRequest (api_version env "DeleteRecordsRequest" 0)
                    (topics_of records_to_delete partitions)
                    (_validate_timeout env timeout_ms)).
  pose proof (send_request_spec env request (Some partition_leader_id) c Hwf) as Hsend.
  cbn zeta in Hsend. cbn [resolve] in Hsend. rewrite Hready in Hsend.
  destruct Hsend as (c' & Hrun & _ & Hsent & _).
  exists c'. cbn zeta. fold request.
  destruct (topics_of_spec records_to_delete partitions) as [Hnd Hin].
  split_and!; [done| |done| |].
  - unfold delete_records. cbn zeta. unfold bindM at 1 2.
    unfold ret at 1. cbn [delete_records_send]. fold partitions.
    unfold bindM at 1. unfold lift at 1.
    rewrite delete_records_request_Ok by (intros tp; apply Hkeys).
    fold request. unfold bindM at 1. rewrite Hrun.
    destruct (answer env (length (sent c)) partition_leader_id request)
      as [response|e]; cbn [result_of mbind Result_bind]; [|done].
    unfold bindM, lift, ret.
    destruct (to_object response) as [obj| |]; done.
  - intros t p o. rewrite Hin, Hkeys. split.
    + intros [[o' Ho'] ->]. by rewrite Ho'.
    + intros Ho. rewrite Ho. split; [by eexists|done].
  - intros ->. done.
Qed.

(** Offsets for two partitions of ["t"] and one of ["u"], sent to
    node 3. *)
Definition three_offsets : list (TopicPartition * Z) :=
  [(mkTopicPartition "t" 0, 5); (mkTopicPartition "u" 1, 7);
   (mkTopicPartition "t" 2, 9)].

Definition deleted : Env :=
  Scenario.scripted 0
    [Succeeded (DeleteRecordsResponse
       [("t", [mkDeleteRecordsPartition 0 5 0; mkDeleteRecordsPartition 2 9 0]);
        ("u", [mkDeleteRecordsPartition 1 7 0])])]
    Scenario.fifo.

Lemma delete_records_at_given_leader_witness :
  exists topics c',
    sent c' = [(3, DeleteRecordsRequest 0 topics 30000)]
    /\ (delete_records deleted three_offsets None (Some 3) Scenario.fresh_client).2 = c'
    /\ NoDup topics.*1
    /\ (forall t p o,
          (exists offsets, (t, offsets) ∈ topics /\ (p, o) ∈ offsets)
          <-> dict_get (mkTopicPartition t p) three_offsets = Some o).
Proof.
  destruct (delete_records_at_given_leader deleted three_offsets None 3
              Scenario.fresh_client (wf_fresh _ _ _) eq_refl)
    as (topics & c' & Hsent & Hrun & Hnd & Hin & _).
  exists topics, c'. split_and!; [exact Hsent|by rewrite Hrun|exact Hnd|exact Hin].
Defined.

Example delete_records_at_given_leader_run :
  exists c',
    delete_records deleted three_offsets None (Some 3) Scenario.fresh_client
    = (Ok [(mkTopicPartition "t" 0, mkDeleteRecordsPartition 0 5 0);
           (mkTopicPartition "t" 2, mkDeleteRecordsPartition 2 9 0);
           (mkTopicPartition "u" 1, mkDeleteRecordsPartition 1 7 0)], c').
Proof. eexists. vm_compute. reflexivity. Qed.

End DeleteRecordsRequestFacts.

(** ** Topic listings *)

Module TopicQueries.
Import Py Structs Admin NetworkFacts.

Section WithEnv.
Variable env : Env.

(** [[t['topic'] for t in metadata['topics']]] *)
Definition list_topics : M (list string) :=
  metadata <- _get_cluster_metadata env None false ;;
  ret (tm_topic <$> metadata).

(** [metadata['topics']] *)
Definition describe_topics (topics : option (list string)) : M (list TopicMetadata) :=
  _get_cluster_metadata env topics false.

(** X8: [list_topics] sends one Metadata request, for all topics and
    without automatic topic creation, to the least-loaded node, and
    returns the topic names of the response in the order of the
    response; a failed request and a node that is not ready make it
    raise. *)
Theorem list_topics_names (c : Client) :
  wf env c ->
  let node := least_loaded_node env (length (sent c)) in
  let request := LeaderFacts.metadata_request_for env None in
  (exists allow_auto_topic_creation include_authorized_operations,
     request = MetadataRequest (api_version env "MetadataRequest" 8) None
                 allow_auto_topic_creation include_authorized_operations
     /\ allow_auto_topic_creation <> Some true)
  /\ (forall e, await_ready env (length (sent c)) node = Some e ->
                list_topics c = (Raise e, c))
  /\ (await_ready env (length (sent c)) node = None ->
      exists c',
        sent c' = sent c ++ [(node, request)]
        /\ (forall API_VERSION controller_id topics,
              answer env (length (sent c)) node request
              = Succeeded (MetadataResponse API_VERSION controller_id topics) ->
              list_topics c = (Ok (tm_topic <$> topics), c'))
        /\ (forall exception,
              answer env (length (sent c)) node request = Failed exception ->
              list_topics c = (Raise exception, c'))).
Proof.
  intros Hwf node request.
  assert (_get_cluster_metadata env None false
          = (response <- send_request env request None ;;
             lift (_process_metadata_response response))) as Hmeta.
  { unfold _get_cluster_metadata, request, LeaderFacts.metadata_request_for.
    by repeat case_bool_decide. }
  split.
  { unfold request, LeaderFacts.metadata_request_for.
    repeat case_bool_decide; by eexists _, _. }
  pose proof (send_request_spec env request None c Hwf) as Hsend.
  cbn zeta in Hsend. cbn [resolve] in Hsend. fold node in Hsend.
  unfold list_topics. rewrite Hmeta. split.
  - intros e He. rewrite He in Hsend. unfold bindM. by rewrite Hsend.
  - intros Hready. rewrite Hready in Hsend.
    destruct Hsend as (c' & Hrun & _ & Hsent & _).
    exists c'. split; [done|]. split.
    + intros v cid topics Hans. rewrite Hans in Hrun. unfold bindM. by rewrite Hrun.
    + intros exception Hans. rewrite Hans in Hrun. unfold bindM. by rewrite Hrun.
Qed.

End WithEnv.

Lemma list_topics_names_witness :
  exists c',
    list_topics
      (Scenario.scripted 8
         [Succeeded (MetadataResponse 8 1
            [mkTopicMetadata "b" [mkPartitionMetadata 0 1];
             mkTopicMetadata "a" []])]
         Scenario.fifo)
      Scenario.fresh_client
    = (Ok ["b"; "a"], c')
    /\ sent c' = [(0, MetadataRequest 8 None (Some false) (Some true))].
Proof.
  destruct (list_topics_names
              (Scenario.scripted 8
                 [Succeeded (MetadataResponse 8 1
                    [mkTopicMetadata "b" [mkPartitionMetadata 0 1];
                     mkTopicMetadata "a" []])]
                 Scenario.fifo)
              Scenario.fresh_client (wf_fresh _ _ _)) as (_ & _ & Hready).
  destruct (Hready eq_refl) as (c' & Hsent & Hok & _).
  exists c'. split; [|exact Hsent].
  exact (Hok 8%nat 1 [mkTopicMetadata "b" [mkPartitionMetadata 0 1];
                      mkTopicMetadata "a" []] eq_refl).
Defined.

End TopicQueries.

(** ** Errors of the consumer-group listing *)

Module ListGroupsErrorFacts.
Import Py Structs Admin NetworkFacts.

Section ListGroups.
Variable env : Env.

(** The queried brokers are ready and broker [i] answers its ListGroups
    request with the response [responses !! i]. *)
Definition brokers_answer (c : Client) (broker_ids : list Z)
    (responses : list (nat * Z * list (string * string))) : Prop :=
  length responses = length broker_ids
  /\ forall i node,
      broker_ids !! i = Some node ->
      await_ready env (length (sent c) + i) node = None
      /\ exists version error_code groups,
          responses !! i = Some (version, error_code, groups)
          /\ answer env (length (sent c) + i) node (_list_consumer_groups_request env)
             = Succeeded (ListGroupsResponse version error_code groups).

(** A response that [_list_consumer_groups_process_response] accepts. *)
Definition accepted (response : nat * Z * list (string * string)) : Prop :=
  (response.1.1 <= 2)%nat /\ for_code env response.1.2 = Errors.NoError.

(** X9: [list_consumer_groups] queries every broker before it looks at any
    response.  It then raises for the first response, in the order of
    the brokers queried, that is not accepted: the typed error of its
    error code, or [NotImplementedError] for a response version above
    2.  With an empty list of brokers it sends nothing and returns the
    empty list. *)
Theorem list_consumer_groups_first_error (broker_ids : option (list Z))
    (responses : list (nat * Z * list (string * string))) (c : Client) :
  wf env c ->
  brokers_answer c (default (cluster_brokers env) broker_ids) responses ->
  (forall i version error_code groups,
     responses !! i = Some (version, error_code, groups) ->
     ~ accepted (version, error_code, groups) ->
     (forall j r, (j < i)%nat -> responses !! j = Some r -> accepted r) ->
     exists e c',
       list_consumer_groups env broker_ids c = (Raise e, c')
       /\ exn_type e = (if bool_decide (version <= 2)%nat
                        then for_code env error_code
                        else Errors.NotImplementedError)
       /\ sent c'
          = sent c ++ ((fun node => (node, _list_consumer_groups_request env))
                         <$> default (cluster_brokers env) broker_ids))
  /\ (default (cluster_brokers env) broker_ids = [] ->
      list_consumer_groups env broker_ids c = (Ok [], c)).
Proof.
  intros Hwf [Hlen Hrep]. unfold list_consumer_groups.
  set (ids := default (cluster_brokers env) broker_ids) in *.
  set (requests := (fun broker_id => (_list_consumer_groups_request env, Some broker_id)) <$> ids).
  split; [|by unfold requests; intros ->].
  intros i version error_code groups Hi Hbad Hbefore.
  assert (forall i request node_id, requests !! i = Some (request, node_id) ->
            exists node, ids !! i = Some node
                         /\ request = _list_consumer_groups_request env
                         /\ node_id = Some node) as Hreq.
  { intros k request node_id Hk. unfold requests in Hk.
    rewrite list_lookup_fmap in Hk.
    destruct (ids !! k) as [node|]; [|done]. injection Hk as <- <-. eauto. }
  destruct (send_requests_ready env requests
              (_list_consumer_groups_process_response env) c Hwf)
    as (c' & Hrun & _ & Hsent & _).
  { intros k request node_id Hk.
    destruct (Hreq k request node_id Hk) as (node & Hnode & -> & ->).
    apply (Hrep k node Hnode). }
  assert (forall k, answers env (length (sent c)) (planned env (length (sent c)) requests) !! k
                    = (fun r : nat * Z * list (string * string) =>
                         Succeeded (ListGroupsResponse r.1.1 r.1.2 r.2)) <$> responses !! k)
    as Hans.
  { intros k. unfold planned. rewrite answers_lookup. unfold outcome_at.
    destruct (requests !! k) as [[request node_id]|] eqn:Hk; cbn [fmap option_fmap option_map].
    - destruct (Hreq k request node_id Hk) as (node & Hnode & -> & ->).
      destruct (Hrep k node Hnode) as (_ & v & code & gs & Hr & Ha).
      rewrite Hr. simpl. by rewrite Ha.
    - apply lookup_ge_None in Hk. unfold requests in Hk. rewrite length_fmap in Hk.
      rewrite <- Hlen in Hk. apply lookup_ge_None in Hk. by rewrite Hk. }
  assert (exists e,
            _list_consumer_groups_process_response env
              (ListGroupsResponse version error_code groups) = Raise e
            /\ exn_type e = (if bool_decide (version <= 2)%nat
                             then for_code env error_code
                             else Errors.NotImplementedError)) as (e & He & Htype).
  { unfold _list_consumer_groups_process_response.
    case_bool_decide as Hv; [|by eexists].
    rewrite bool_decide_false; [by eexists|].
    intros Hcode. apply Hbad. by split. }
  exists e, c'. split_and!; [|done|].
  - erewrite bindM_Raise; [reflexivity|]. rewrite Hrun. f_equal.
    apply (gathered_Raise _ _ i (ListGroupsResponse version error_code groups)).
    + intros j o Hj. rewrite Hans in Hj.
      destruct (responses !! j) as [r|]; [|done]. injection Hj as <-. eauto.
    + by rewrite Hans, Hi.
    + done.
    + intros j v Hj Hv. rewrite Hans in Hv.
      destruct (responses !! j) as [[[vj cj] gj]|] eqn:Hrj; [|done].
      injection Hv as <-. destruct (Hbefore j _ Hj Hrj) as [Hvj Hcj].
      cbn [fst snd] in *. exists gj.
      unfold _list_consumer_groups_process_response.
      rewrite bool_decide_true by done. rewrite Hcj. by rewrite bool_decide_true.
  - rewrite Hsent. f_equal. unfold planned, requests.
    apply list_eq. intros k. rewrite list_lookup_imap, !list_lookup_fmap.
    by destruct (ids !! k).
Qed.

End ListGroups.

(** Broker 0 reports a group, broker 1 answers with the error code 3. *)
Definition second_broker_fails : Env :=
  Scenario.scripted 2
    [Succeeded (ListGroupsResponse 2 0 [("g1", "consumer")]);
     Succeeded (ListGroupsResponse 2 3 [])]
    Scenario.fifo.

Lemma list_consumer_groups_first_error_witness :
  exists e c',
    list_consumer_groups second_broker_fails (Some [0; 1]) Scenario.fresh_client
    = (Raise e, c')
    /\ exn_type e = Errors.UnknownTopicOrPartitionError
    /\ sent c' = [(0, ListGroupsRequest 2); (1, ListGroupsRequest 2)].
Proof.
  destruct (list_consumer_groups_first_error second_broker_fails (Some [0; 1])
              [(2%nat, 0, [("g1", "consumer")]); (2%nat, 3, [])]
              Scenario.fresh_client (wf_fresh _ _ _)) as [Herror _].
  - split; [reflexivity|].
    intros [|[|i]] node; simpl; intros [= <-];
      (split; [reflexivity|]); eexists _, _, _; split; reflexivity.
  - apply (Herror 1%nat 2%nat 3 []).
    + reflexivity.
    + intros [_ Hcode]. discriminate Hcode.
    + intros [|j] r Hj; [|lia]. intros [= <-]. split; [simpl; lia|reflexivity].
Defined.

End ListGroupsErrorFacts.

(** ** Response processing

    [_list_consumer_group_offsets_process_response] and
    [_convert_create_acls_response_to_acls] of [kafka/admin/client.py],
    on the fields they read of the responses. *)

Module Processing.
Import Py Structs Admin.

Definition IndexError : Errors.ErrorClass := "IndexError".

(** [OffsetAndMetadata(offset, metadata, leader_epoch)] ([kafka.structs]) *)
Record OffsetAndMetadata := mkOffsetAndMetadata {
  om_offset : Z;
  om_metadata : option string;
  om_leader_epoch : Z }.

(** An element of the [partitions] array of an OffsetFetch response: a
    tuple of four fields up to v4, of five fields ([leader_epoch]
    included) in v5. *)
Record OffsetFetchPartition := mkOffsetFetchPartition {
  ofp_partition : Z;
  ofp_offset : Z;
  ofp_leader_epoch : option Z;
  ofp_metadata : option string;
  ofp_error_code : Z }.

(** An OffsetFetch response; the top-level [error_code] exists from
    v2. *)
Record OffsetFetchResponse := mkOffsetFetchResponse {
  of_API_VERSION : nat;
  of_error_code : option Z;
  of_topics : list (string * list OffsetFetchPartition) }.

(** A CreateAcls response. *)
Record CreateAclsResponse := mkCreateAclsResponse {
  ca_API_VERSION : nat;
  creation_responses : list (Z * option string) }.

Section WithEnv.
Variable env : Env.
Variable str_offset_fetch_response : OffsetFetchResponse -> string.

(** The tuple unpacking of [partition_data]. *)
Definition unpack_partition_data (API_VERSION : nat) (partition_data : OffsetFetchPartition)
  : Result (Z * Z * Z * option string * Z) :=
  if bool_decide (API_VERSION <= 4)%nat then
    match ofp_leader_epoch partition_data with
    | None =>
        Ok (ofp_partition partition_data, ofp_offset partition_data, -1,
            ofp_metadata partition_data, ofp_error_code partition_data)
    | Some _ =>
        Raise (mkExn Errors.ValueError "too many values to unpack (expected 4)")
    end
  else
    match ofp_leader_epoch partition_data with
    | Some leader_epoch =>
        Ok (ofp_partition partition_data, ofp_offset partition_data, leader_epoch,
            ofp_metadata partition_data, ofp_error_code partition_data)
    | None =>
        Raise (mkExn Errors.ValueError "not enough values to unpack (expected 5, got 4)")
    end.

(** The inner loop, over the partitions of one topic. *)
Fixpoint offsets_of_partitions (API_VERSION : nat) (topic : string)
    (partitions : list OffsetFetchPartition)
    (offsets : list (TopicPartition * OffsetAndMetadata))
  : Result (list (TopicPartition * OffsetAndMetadata)) :=
  match partitions with
  | [] => Ok offsets
  | partition_data :: rest =>
      match unpack_partition_data API_VERSION partition_data with
      | Ok (partition, offset, leader_epoch, metadata, error_code) =>
          let error_type := for_code env error_code in
          if negb (bool_decide (error_type = Errors.NoError)) then
            Raise (mkExn error_type
                     ("Unable to fetch consumer group offsets for topic " +:+ topic
                      +:+ ", partition " +:+ pretty partition))
          else
            offsets_of_partitions API_VERSION topic rest
              (dict_set (mkTopicPartition topic partition)
                        (mkOffsetAndMetadata offset metadata leader_epoch) offsets)
      | Raise e => Raise e
      | Diverges => Diverges
      end
  end.

(** The outer loop, over [response.topics]. *)
Fixpoint offsets_of_topics (API_VERSION : nat)
    (topics : list (string * list OffsetFetchPartition))
    (offsets : list (TopicPartition * OffsetAndMetadata))
  : Result (list (TopicPartition * OffsetAndMetadata)) :=
  match topics with
  | [] => Ok offsets
  | (topic, partitions) :: rest =>
      offsets ← offsets_of_partitions API_VERSION topic partitions offsets;
      offsets_of_topics API_VERSION rest offsets
  end.

Definition _list_consumer_group_offsets_process_response (response : OffsetFetchResponse)
  : Result (list (TopicPartition * OffsetAndMetadata)) :=
  if bool_decide (of_API_VERSION response <= 5)%nat then
    _ ← (if bool_decide (1 < of_API_VERSION response)%nat then
           match of_error_code response with
           | None => Raise (mkExn Errors.AttributeError "error_code")
           | Some error_code =>
               let error_type := for_code env error_code in
               if negb (bool_decide (error_type = Errors.NoError)) then
                 Raise (mkExn error_type
                          ("OffsetFetchResponse failed with response '"
                           +:+ str_offset_fetch_response response +:+ "'."))
               else Ok tt
           end
         else Ok tt);
    offsets_of_topics (of_API_VERSION response) (of_topics response) []
  else
    Raise (mkExn Errors.NotImplementedError
             ("Support for OffsetFetchResponse_v" +:+ pretty (of_API_VERSION response)
              +:+ " has not yet been added to KafkaAdminClient.")).

(** The loop of [_convert_create_acls_response_to_acls] over
    [enumerate(create_response.creation_responses)], from index [i]
    on. *)
Fixpoint creations_loop {ACL : Type} (version : nat) (acls : list ACL) (i : nat)
    (creation_responses : list (Z * option string))
    (creations_success : list ACL) (creations_error : list (ACL * string))
  : Result (list ACL * list (ACL * string)) :=
  match creation_responses with
  | [] => Ok (creations_success, creations_error)
  | (error_code, error_message) :: rest =>
      if bool_decide (version <= 1)%nat then
        match acls !! i with
        | None => Raise (mkExn IndexError "list index out of range")
        | Some acl =>
            let error := for_code env error_code in
            if bool_decide (error = Errors.NoError) then
              creations_loop version acls (S i) rest (creations_success ++ [acl])
                creations_error
            else
              creations_loop version acls (S i) rest creations_success
                (creations_error ++ [(acl, error)])
        end
      else
        Raise (mkExn Errors.NotImplementedError
                 ("Support for DescribeAcls Response v" +:+ pretty version
                  +:+ " has not yet been added to KafkaAdmin."))
  end.

(** The pair of the entries ["succeeded"] and ["failed"] of the
    returned dictionary. *)
Definition _convert_create_acls_response_to_acls {ACL : Type} (acls : list ACL)
    (create_response : CreateAclsResponse)
  : Result (list ACL * list (ACL * string)) :=
  creations_loop (ca_API_VERSION create_response) acls 0
    (creation_responses create_response) [] [].

End WithEnv.
End Processing.

Module ProcessingFacts.
Import Py Structs Admin NetworkFacts Processing.

Lemma elem_of_dict_keys_dict_of {K V} `{EqDecision K} (l : list (K * V)) k :
  k ∈ dict_keys (dict_of l) <-> k ∈ l.*1.
Proof.
  induction l as [|[k' v'] l IH] using rev_ind.
  - done.
  - rewrite dict_of_snoc, elem_of_dict_keys_set, IH, fmap_app, elem_of_app.
    rewrite fmap_cons, list_elem_of_singleton. cbn [fst]. tauto.
Qed.

Section Offsets.
Variable env : Env.
Variable str_offset_fetch_response : OffsetFetchResponse -> string.

(** The partitions of a response in the order of the two loops, each
    with the value it is given and its error code; [leader_epoch] is -1
    where the response has none. *)
Definition entries (response : OffsetFetchResponse)
  : list (TopicPartition * OffsetAndMetadata * Z) :=
  topic ← of_topics response;
  (fun pd =>
     (mkTopicPartition topic.1 (ofp_partition pd),
      mkOffsetAndMetadata (ofp_offset pd) (ofp_metadata pd)
        (default (-1) (ofp_leader_epoch pd)),
      ofp_error_code pd))
    <$> topic.2.

(** The tuples have the arity of the response version. *)
Definition arity_ok (response : OffsetFetchResponse) : Prop :=
  forall topic pd, topic ∈ of_topics response -> pd ∈ topic.2 ->
    (is_Some (ofp_leader_epoch pd) <-> (5 <= of_API_VERSION response)%nat).

(** The top-level error code is [NoError] where there is one. *)
Definition top_level_ok (response : OffsetFetchResponse) : Prop :=
  (1 < of_API_VERSION response)%nat ->
  exists error_code,
    of_error_code response = Some error_code
    /\ for_code env error_code = Errors.NoError.

(** The two loops as one loop over [entries]. *)
Fixpoint scan_offsets (l : list (TopicPartition * OffsetAndMetadata * Z))
    (offsets : list (TopicPartition * OffsetAndMetadata))
  : Result (list (TopicPartition * OffsetAndMetadata)) :=
  match l with
  | [] => Ok offsets
  | (tp, om, error_code) :: rest =>
      if negb (bool_decide (for_code env error_code = Errors.NoError)) then
        Raise (mkExn (for_code env error_code)
                 ("Unable to fetch consumer group offsets for topic " +:+ topic tp
                  +:+ ", partition " +:+ pretty (partition tp)))
      else scan_offsets rest (dict_set tp om offsets)
  end.

Lemma scan_offsets_app l1 l2 offsets :
  scan_offsets (l1 ++ l2) offsets = (offsets' ← scan_offsets l1 offsets; scan_offsets l2 offsets').
Proof.
  revert offsets. induction l1 as [|[[tp om] code] l1 IH]; intros offsets; [done|].
  cbn [app scan_offsets]. by destruct (negb _).
Qed.

Lemma offsets_of_partitions_flat version t partitions offsets :
  (forall pd, pd ∈ partitions ->
     (is_Some (ofp_leader_epoch pd) <-> (5 <= version)%nat)) ->
  offsets_of_partitions env version t partitions offsets
  = scan_offsets ((fun pd =>
             (mkTopicPartition t (ofp_partition pd),
              mkOffsetAndMetadata (ofp_offset pd) (ofp_metadata pd)
                (default (-1) (ofp_leader_epoch pd)),
              ofp_error_code pd)) <$> partitions) offsets.
Proof.
  revert offsets. induction partitions as [|pd rest IH]; intros offsets Harity; [done|].
  rewrite fmap_cons. cbn [offsets_of_partitions scan_offsets topic partition].
  pose proof (Harity pd ltac:(left)) as Hpd.
  assert (unpack_partition_data version pd
          = Ok (ofp_partition pd, ofp_offset pd, default (-1) (ofp_leader_epoch pd),
                ofp_metadata pd, ofp_error_code pd)) as ->.
  { unfold unpack_partition_data. case_bool_decide as Hv.
    - destruct (ofp_leader_epoch pd) as [le|]; [|done].
      assert (5 <= version)%nat by (apply Hpd; eauto). lia.
    - destruct (ofp_leader_epoch pd) as [le|]; [done|].
      assert (is_Some (@None Z)) as [? ?] by (apply Hpd; lia). done. }
  destruct (negb _); [done|]. apply IH. intros pd' Hpd'. apply Harity. by right.
Qed.

Lemma offsets_of_topics_flat version topics offsets :
  (forall topic pd, topic ∈ topics -> pd ∈ topic.2 ->
     (is_Some (ofp_leader_epoch pd) <-> (5 <= version)%nat)) ->
  offsets_of_topics env version topics offsets
  = scan_offsets (topic ← topics;
          (fun pd =>
             (mkTopicPartition topic.1 (ofp_partition pd),
              mkOffsetAndMetadata (ofp_offset pd) (ofp_metadata pd)
                (default (-1) (ofp_leader_epoch pd)),
              ofp_error_code pd)) <$> topic.2) offsets.
Proof.
  revert offsets. induction topics as [|[t partitions] rest IH];
    intros offsets Harity; [done|].
  cbn [offsets_of_topics mbind list_bind]. rewrite scan_offsets_app.
  rewrite offsets_of_partitions_flat
    by (intros pd Hpd; apply (Harity (t, partitions)); [left|done]).
  cbn [fst snd]. destruct (scan_offsets _ offsets) as [offsets'| |]; [|done..].
  cbn [mbind Result_bind]. apply IH. intros t' pd Ht. apply Harity. by right.
Qed.

Lemma scan_offsets_Ok l offsets :
  (forall e, e ∈ l -> for_code env e.2 = Errors.NoError) ->
  scan_offsets l offsets = Ok (foldl (fun d e => dict_set e.1.1 e.1.2 d) offsets l).
Proof.
  revert offsets. induction l as [|[[tp om] code] l IH]; intros offsets Hok; [done|].
  cbn [scan_offsets foldl fst snd].
  rewrite bool_decide_true by (apply (Hok (tp, om, code)); left).
  cbn [negb]. apply IH. intros e He. apply Hok. by right.
Qed.

Lemma scan_offsets_Raise l offsets i tp om error_code :
  l !! i = Some (tp, om, error_code) ->
  for_code env error_code <> Errors.NoError ->
  (forall j e, (j < i)%nat -> l !! j = Some e -> for_code env e.2 = Errors.NoError) ->
  scan_offsets l offsets
  = Raise (mkExn (for_code env error_code)
             ("Unable to fetch consumer group offsets for topic " +:+ topic tp
              +:+ ", partition " +:+ pretty (partition tp))).
Proof.
  revert offsets i. induction l as [|[[tp' om'] code'] l IH]; intros offsets i Hi Hbad Hbefore;
    [done|].
  cbn [scan_offsets]. destruct i as [|i].
  - injection Hi as -> -> ->. by rewrite bool_decide_false.
  - rewrite bool_decide_true by (apply (Hbefore 0%nat (tp', om', code')); [lia|done]).
    cbn [negb]. apply (IH _ i); [done|done|].
    intros j e Hj He. apply (Hbefore (S j)); [lia|done].
Qed.

(** X10: A response of a supported version whose top-level error code (from
    v2 on; v0 and v1 have none and nothing is consulted) is [NoError].
    When no partition carries an error, the result is the dictionary
    [dict] of the listed partitions in response order: every listed
    partition is a key, the value of a key is that of its last listing,
    and [leader_epoch] is -1 for every value of a response before v5.
    When some partition carries an error, the typed error of the first
    such partition, in response order, is raised, with a message naming
    its topic and partition: no partial dictionary is returned. *)
Theorem offsets_response_processed (response : OffsetFetchResponse) :
  (of_API_VERSION response <= 5)%nat ->
  top_level_ok response ->
  arity_ok response ->
  ((forall e, e ∈ entries response -> for_code env e.2 = Errors.NoError) ->
   _list_consumer_group_offsets_process_response env str_offset_fetch_response response
   = Ok (dict_of (entries response).*1)
   /\ (forall tp om error_code,
         (tp, om, error_code) ∈ entries response ->
         is_Some (dict_get tp (dict_of (entries response).*1)))
   /\ (forall i tp om error_code,
         entries response !! i = Some (tp, om, error_code) ->
         (forall j e, (i < j)%nat -> entries response !! j = Some e -> e.1.1 <> tp) ->
         dict_get tp (dict_of (entries response).*1) = Some om)
   /\ ((of_API_VERSION response <= 4)%nat ->
       forall tp om, dict_get tp (dict_of (entries response).*1) = Some om ->
                     om_leader_epoch om = -1))
  /\ (forall i tp om error_code,
        entries response !! i = Some (tp, om, error_code) ->
        for_code env error_code <> Errors.NoError ->
        (forall j e, (j < i)%nat -> entries response !! j = Some e ->
                     for_code env e.2 = Errors.NoError) ->
        _list_consumer_group_offsets_process_response env str_offset_fetch_response response
        = Raise (mkExn (for_code env error_code)
                   ("Unable to fetch consumer group offsets for topic " +:+ topic tp
                    +:+ ", partition " +:+ pretty (partition tp)))).
Proof.
  intros Hversion Htop Harity.
  assert (_list_consumer_group_offsets_process_response env str_offset_fetch_response
            response = scan_offsets (entries response) []) as Hrun.
  { unfold _list_consumer_group_offsets_process_response.
    rewrite bool_decide_true by done.
    assert ((if bool_decide (1 < of_API_VERSION response)%nat
             then match of_error_code response with
                  | Some error_code =>
                      if negb (bool_decide (for_code env error_code = Errors.NoError))
                      then Raise (mkExn (for_code env error_code)
                                    ("OffsetFetchResponse failed with response '"
                                     +:+ str_offset_fetch_response response +:+ "'."))
                      else Ok tt
                  | None => Raise (mkExn Errors.AttributeError "error_code")
                  end
             else Ok tt) = Ok tt) as ->.
    { case_bool_decide as Hv; [|done]. destruct (Htop Hv) as (code & -> & Hcode).
      by rewrite bool_decide_true. }
    cbn [mbind Result_bind]. by apply offsets_of_topics_flat. }
  rewrite Hrun. split.
  - intros Hok. rewrite (scan_offsets_Ok _ _ Hok).
    assert (foldl (fun d e => dict_set e.1.1 e.1.2 d) [] (entries response)
            = dict_of (entries response).*1) as ->.
    { unfold dict_of. generalize (@nil (TopicPartition * OffsetAndMetadata)).
      generalize (entries response). clear. intros l.
      induction l as [|[[tp om] code] l IH]; intros d; [done|].
      rewrite fmap_cons. cbn [foldl fst snd]. apply IH. }
    split; [done|].
    assert (forall i tp om error_code,
              entries response !! i = Some (tp, om, error_code) ->
              (forall j e, (i < j)%nat -> entries response !! j = Some e -> e.1.1 <> tp) ->
              dict_get tp (dict_of (entries response).*1) = Some om) as Hlast.
    { intros i tp om code Hi Hafter. apply (dict_get_dict_of _ i).
      - by rewrite list_lookup_fmap, Hi.
      - intros j om' Hj. rewrite list_lookup_fmap.
        destruct (entries response !! j) as [[[tp' om''] code']|] eqn:He; [|done].
        intros [= -> ->]. by apply (Hafter j _ Hj He). }
    assert (forall tp om, dict_get tp (dict_of (entries response).*1) = Some om ->
              exists error_code, (tp, om, error_code) ∈ entries response) as Hfrom.
    { intros tp om Hget. unfold dict_of in Hget.
      assert (forall d l, dict_get tp (foldl (fun d kv => dict_set kv.1 kv.2 d) d l) = Some om ->
                dict_get tp d = Some om \/ (tp, om) ∈ l) as Hgen.
      { clear. intros d l. revert d.
        induction l as [|[k v] l IH]; intros d; cbn [foldl]; [auto|].
        intros H. destruct (IH _ H) as [H'|H']; [|right; by right].
        cbn [fst snd] in H'. rewrite dict_get_set in H'. case_decide as Hk.
        - injection H' as <-. subst k. right. left.
        - by left. }
      destruct (Hgen _ _ Hget) as [H|H]; [done|].
      apply list_elem_of_fmap in H as ([[tp' om'] code] & [= -> ->] & He). eauto. }
    split_and!.
    + intros tp om code He. rewrite <- not_eq_None_Some, dict_get_None.
      intros Hout. apply Hout. fold (dict_keys (dict_of (entries response).*1)).
      apply elem_of_dict_keys_dict_of. apply list_elem_of_fmap.
      exists (tp, om). split; [done|]. apply list_elem_of_fmap.
      by exists (tp, om, code).
    + exact Hlast.
    + intros Hv tp om Hget. destruct (Hfrom tp om Hget) as [code He].
      unfold entries in He. apply list_elem_of_bind in He as (t & He & Ht).
      apply list_elem_of_fmap in He as (pd & [= -> -> ->] & Hpd). cbn [om_leader_epoch].
      destruct (ofp_leader_epoch pd) as [le|] eqn:Hle; [|done].
      assert (5 <= of_API_VERSION response)%nat; [|lia].
      apply (Harity t pd Ht Hpd). rewrite Hle. by eexists.
  - intros i tp om code Hi Hbad Hbefore. by apply (scan_offsets_Raise _ _ i tp om code).
Qed.

End Offsets.

(** A v3 response for two partitions of ["t"]. *)
Definition two_offsets : OffsetFetchResponse :=
  mkOffsetFetchResponse 3 (Some 0)
    [("t", [mkOffsetFetchPartition 0 10 None (Some "m") 0;
            mkOffsetFetchPartition 1 20 None None 0])].

Lemma offsets_response_processed_witness :
  _list_consumer_group_offsets_process_response
    (Scenario.scripted 3 [] Scenario.fifo) (fun _ => "<response>") two_offsets
  = Ok [(mkTopicPartition "t" 0, mkOffsetAndMetadata 10 (Some "m") (-1));
        (mkTopicPartition "t" 1, mkOffsetAndMetadata 20 None (-1))].
Proof.
  destruct (offsets_response_processed (Scenario.scripted 3 [] Scenario.fifo)
              (fun _ => "<response>") two_offsets) as [Hok _].
  - simpl. lia.
  - intros _. by exists 0.
  - intros t pd Ht Hpd. simpl in Ht. apply list_elem_of_singleton in Ht as ->.
    simpl in Hpd. simpl.
    repeat (apply elem_of_cons in Hpd as [->|Hpd]; [split; [by intros [? ?]|lia]|]).
    by apply elem_of_nil in Hpd.
  - destruct Hok as [Hrun _]; [|exact Hrun].
    intros e He. unfold entries in He. simpl in He.
    repeat (apply elem_of_cons in He as [->|He]; [reflexivity|]).
    by apply elem_of_nil in He.
Defined.

Section Acls.
Variable env : Env.
Context {ACL : Type}.

Definition created (acls : list ACL) (codes : list Z) : list ACL :=
  fst <$> filter (fun ac : ACL * Z => for_code env ac.2 = Errors.NoError) (zip acls codes).

Definition not_created (acls : list ACL) (codes : list Z) : list (ACL * string) :=
  (fun ac : ACL * Z => (ac.1, for_code env ac.2))
    <$> filter (fun ac : ACL * Z => for_code env ac.2 <> Errors.NoError) (zip acls codes).

Lemma creations_loop_Ok version (acls : list ACL) i creations succeeded failed :
  (version <= 1)%nat ->
  (length creations <= length (drop i acls))%nat ->
  creations_loop env version acls i creations succeeded failed
  = Ok (succeeded ++ created (drop i acls) creations.*1,
        failed ++ not_created (drop i acls) creations.*1).
Proof.
  intros Hv. revert i succeeded failed.
  induction creations as [|[code message] creations IH]; intros i succeeded failed Hlen.
  - unfold created, not_created. rewrite fmap_nil, zip_with_nil_r. cbn.
    by rewrite !app_nil_r.
  - cbn [creations_loop]. rewrite bool_decide_true by done.
    destruct (acls !! i) as [acl|] eqn:Hi.
    2:{ apply lookup_ge_None in Hi. rewrite drop_ge in Hlen by done. simpl in Hlen. lia. }
    rewrite (drop_S _ _ _ Hi) in *. cbn [length] in Hlen.
    rewrite fmap_cons. unfold created, not_created. cbn [zip_with fst].
    case_bool_decide as Hcode.
    + rewrite IH by lia. rewrite filter_cons_True by done.
      rewrite filter_cons_False by (cbn; auto). rewrite fmap_cons.
      unfold created, not_created. by rewrite <- app_assoc.
    + rewrite IH by lia. rewrite filter_cons_False by done.
      rewrite filter_cons_True by done. rewrite fmap_cons.
      unfold created, not_created. by rewrite <- app_assoc.
Qed.

Lemma creations_loop_IndexError version (acls : list ACL) i creations succeeded failed :
  (version <= 1)%nat ->
  (length (drop i acls) < length creations)%nat ->
  creations_loop env version acls i creations succeeded failed
  = Raise (mkExn IndexError "list index out of range").
Proof.
  intros Hv. revert i succeeded failed.
  induction creations as [|[code message] creations IH]; intros i succeeded failed Hlen.
  - simpl in Hlen. lia.
  - cbn [creations_loop]. rewrite bool_decide_true by done.
    destruct (acls !! i) as [acl|] eqn:Hi; [|done].
    rewrite (drop_S _ _ _ Hi) in Hlen. cbn [length] in Hlen.
    case_bool_decide; apply IH; lia.
Qed.

(** X11: [_convert_create_acls_response_to_acls] correlates the creation
    results with the requested ACLs by position.  For a response of
    version 0 or 1 with at most as many results as ACLs, it returns
    under ["succeeded"] the ACLs whose result is [NoError] and under
    ["failed"] the others with their error class, both in order; ACLs
    beyond the last result are in neither list.  With more results
    than ACLs it raises [IndexError].  A response of a later version is
    refused with [NotImplementedError], unless it has no result. *)
Theorem create_acls_response_by_position (acls : list ACL)
    (create_response : CreateAclsResponse) :
  let codes := (creation_responses create_response).*1 in
  ((ca_API_VERSION create_response <= 1)%nat ->
   (length codes <= length acls)%nat ->
   _convert_create_acls_response_to_acls env acls create_response
   = Ok (created acls codes, not_created acls codes)
   /\ (length (created acls codes) + length (not_created acls codes) = length codes)%nat)
  /\ ((ca_API_VERSION create_response <= 1)%nat ->
      (length acls < length codes)%nat ->
      _convert_create_acls_response_to_acls env acls create_response
      = Raise (mkExn IndexError "list index out of range"))
  /\ ((1 < ca_API_VERSION create_response)%nat ->
      codes <> [] ->
      exists e,
        _convert_create_acls_response_to_acls env acls create_response = Raise e
        /\ exn_type e = Errors.NotImplementedError)
  /\ (codes = [] ->
      _convert_create_acls_response_to_acls env acls create_response = Ok ([], [])).
Proof.
  cbn zeta. unfold _convert_create_acls_response_to_acls. split_and!.
  - intros Hv Hlen. rewrite length_fmap in Hlen.
    rewrite creations_loop_Ok by (rewrite ?drop_0; done).
    rewrite drop_0. split; [done|].
    assert (length (zip acls (creation_responses create_response).*1)
            = length (creation_responses create_response).*1) as <-
      by (rewrite length_zip_with, length_fmap; lia).
    unfold created, not_created. rewrite !length_fmap.
    generalize (zip acls (creation_responses create_response).*1). intros l.
    induction l as [|ac l IH]; [done|].
    destruct (decide (for_code env ac.2 = Errors.NoError)) as [Hc|Hc].
    + rewrite filter_cons_True by done. rewrite filter_cons_False by (cbn; auto).
      simpl. lia.
    + rewrite filter_cons_False by done. rewrite filter_cons_True by done.
      simpl. lia.
  - intros Hv Hlen. rewrite length_fmap in Hlen.
    apply creations_loop_IndexError; [done|by rewrite drop_0].
  - intros Hv Hne. destruct (creation_responses create_response) as [|[code msg] rest];
      [done|].
    cbn [creations_loop]. rewrite bool_decide_false by lia. by eexists.
  - intros Hnil. apply fmap_nil_inv in Hnil. by rewrite Hnil.
Qed.

End Acls.
End ProcessingFacts.

(** ** The DeleteGroups requests of [delete_consumer_groups] *)

Module DeleteGroups.
Import Py Structs Admin NetworkFacts.

(** [DeleteGroupsRequest[version](group_ids)] *)
Record DeleteGroupsRequest := mkDeleteGroupsRequest {
  dg_version : nat;
  groups_names : list string }.

Section WithEnv.
Variable env : Env.

Definition _delete_consumer_groups_request (group_ids : list string)
  : DeleteGroupsRequest :=
  mkDeleteGroupsRequest (api_version env "DeleteGroupsRequest" 1) group_ids.

(** The dictionary [coordinators_groups]. *)
Definition coordinators_groups (group_ids : list string)
    (group_coordinator_id : option Z) : M (list (Z * list string)) :=
  match group_coordinator_id with
  | Some group_coordinator_id => ret [(group_coordinator_id, group_ids)]
  | None =>
      found <- _find_coordinator_ids env group_ids ;;
      ret (foldl (fun acc gc => dict_append gc.2 gc.1 acc) [] found)
  end.

(** The list [requests] that [delete_consumer_groups] hands to
    [send_requests]. *)
Definition delete_consumer_groups_requests (group_ids : list string)
    (group_coordinator_id : option Z) : M (list (DeleteGroupsRequest * Z)) :=
  coordinators_groups <- coordinators_groups group_ids group_coordinator_id ;;
  ret ((fun cg : Z * list string => (_delete_consumer_groups_request cg.2, cg.1))
         <$> coordinators_groups).

End WithEnv.
End DeleteGroups.

Module DeleteGroupsFacts.
Import Py Structs Admin NetworkFacts GroupingFacts DeleteGroups.

Lemma dict_of_keys_NoDup {K V} `{EqDecision K} (l : list (K * V)) :
  NoDup (dict_keys (dict_of l)).
Proof.
  induction l as [|[k v] l IH] using rev_ind; [constructor|].
  rewrite dict_of_snoc. by apply dict_keys_set_NoDup.
Qed.

Lemma _find_coordinator_ids_keys env group_ids c found c' :
  _find_coordinator_ids env group_ids c = (Ok found, c') -> NoDup (dict_keys found).
Proof.
  unfold _find_coordinator_ids, bindM, lift, ret.
  destruct (mapR _ group_ids) as [requests| |]; [|done..].
  destruct (send_requests env requests _ c) as [[ids| |] c1]; [|done..].
  intros [= <- <-]. apply dict_of_keys_NoDup.
Qed.

(** X12: With [group_coordinator_id] given, [delete_consumer_groups] builds
    one request, for that node, with [group_ids] as they are.
    Otherwise it builds one request per coordinator that the lookup
    found: each holds, once, the groups found at that coordinator, and
    a group is in the request of a coordinator exactly when the lookup
    found it there (so every group is in one request, also when
    [group_ids] names it twice). *)
Theorem delete_groups_requests_by_coordinator (env : Env) (group_ids : list string)
    (c : Client) :
  (forall group_coordinator_id,
     delete_consumer_groups_requests env group_ids (Some group_coordinator_id) c
     = (Ok [(_delete_consumer_groups_request env group_ids, group_coordinator_id)], c))
  /\ (forall found c',
        _find_coordinator_ids env group_ids c = (Ok found, c') ->
        exists requests,
          delete_consumer_groups_requests env group_ids None c = (Ok requests, c')
          /\ NoDup requests.*2
          /\ (forall request coordinator_id,
                (request, coordinator_id) ∈ requests ->
                dg_version request = api_version env "DeleteGroupsRequest" 1
                /\ groups_names request <> []
                /\ NoDup (groups_names request))
          /\ (forall group_id coordinator_id,
                (exists request, (request, coordinator_id) ∈ requests
                                 /\ group_id ∈ groups_names request)
                <-> dict_get group_id found = Some coordinator_id)).
Proof.
  split; [done|]. intros found c' Hrun.
  pose proof (_find_coordinator_ids_keys _ _ _ _ _ Hrun) as Hkeys.
  unfold delete_consumer_groups_requests, coordinators_groups.
  eexists. split.
  { unfold bindM at 1 2. rewrite Hrun. reflexivity. }
  destruct (dict_append_foldl (fun gc : string * Z => gc.2) fst found) as [Hnd Hget].
  cbn zeta in *. set (d := foldl _ [] found) in *.
  assert (forall request coordinator_id,
            (request, coordinator_id)
              ∈ ((fun cg : Z * list string =>
                    (_delete_consumer_groups_request env cg.2, cg.1)) <$> d)
            <-> filter (fun gc : string * Z => gc.2 = coordinator_id) found <> []
                /\ request = _delete_consumer_groups_request env
                               (fst <$> filter (fun gc : string * Z => gc.2 = coordinator_id)
                                               found)) as Hin.
  { intros request id. rewrite list_elem_of_fmap. split.
    - intros ([id' groups] & [= -> ->] & Hd).
      apply (elem_of_dict_NoDup _ _ _ Hnd) in Hd. rewrite Hget in Hd.
      destruct (filter _ found) as [|y ys]; [done|]. injection Hd as <-. done.
    - intros [Hne ->]. eexists (id, _). split; [reflexivity|].
      apply dict_get_Some_elem_of. rewrite Hget.
      by destruct (filter _ found) as [|y ys]. }
  split_and!.
  - rewrite <- list_fmap_compose. exact Hnd.
  - intros request id [Hne ->]%Hin. split_and!; [done| |].
    + cbn [groups_names]. intros Hnil%fmap_nil_inv. done.
    + cbn [groups_names]. apply (sublist_NoDup _ (dict_keys found)); [exact Hkeys|].
      apply fmap_sublist, sublist_filter.
  - intros g id. split.
    + intros (request & [Hne ->]%Hin & Hg). cbn [groups_names] in Hg.
      apply list_elem_of_fmap in Hg as ([g' id'] & -> & [Hid Hg]%list_elem_of_filter).
      cbn [fst snd] in *. subst id'. by apply elem_of_dict_NoDup.
    + intros Hg%dict_get_Some_elem_of.
      assert ((g, id) ∈ filter (fun gc : string * Z => gc.2 = id) found) as Hf
        by (by apply list_elem_of_filter).
      eexists. split.
      * apply Hin. split; [|reflexivity]. intros Hnil. rewrite Hnil in Hf.
        by apply elem_of_nil in Hf.
      * cbn [groups_names]. apply list_elem_of_fmap. by exists (g, id).
Qed.

(** The groups ["g1"] and ["g3"] are coordinated by node 1, ["g2"] by
    node 2; ["g1"] is named twice. *)
Example delete_groups_requests_run :
  (delete_consumer_groups_requests
     (Scenario.scripted 2
        [Succeeded (FindCoordinatorResponse 0 1);
         Succeeded (FindCoordinatorResponse 0 2);
         Succeeded (FindCoordinatorResponse 0 1);
         Succeeded (FindCoordinatorResponse 0 1)]
        Scenario.fifo)
     ["g1"; "g2"; "g3"; "g1"] None Scenario.fresh_client).1
  = Ok [(mkDeleteGroupsRequest 1 ["g1"; "g3"], 1); (mkDeleteGroupsRequest 1 ["g2"], 2)].
Proof. vm_compute. reflexivity. Qed.

End DeleteGroupsFacts.

(** ** Further invariants of the protocol registries *)

Module RegistryFacts.
Import Protocol.

(** Every class statement of [kafka/protocol/admin.py] and
    [kafka/protocol/group.py] that derives from [Request] or
    [Response], in source order. *)
Definition classes : list ApiClass :=
  [CreateTopicsResponse_v0;
   CreateTopicsResponse_v1;
   CreateTopicsResponse_v2;
   CreateTopicsResponse_v3;
   CreateTopicsRequest_v0;
   CreateTopicsRequest_v1;
   CreateTopicsRequest_v2;
   CreateTopicsRequest_v3;
   DeleteTopicsResponse_v0;
   DeleteTopicsResponse_v1;
   DeleteTopicsResponse_v2;
   DeleteTopicsResponse_v3;
   DeleteTopicsRequest_v0;
   DeleteTopicsRequest_v1;
   DeleteTopicsRequest_v2;
   DeleteTopicsRequest_v3;
   DeleteRecordsResponse_v0;
   DeleteRecordsRequest_v0;
   ListGroupsResponse_v0;
   ListGroupsResponse_v1;
   ListGroupsResponse_v2;
   ListGroupsRequest_v0;
   ListGroupsRequest_v1;
   ListGroupsRequest_v2;
   DescribeGroupsResponse_v0;
   DescribeGroupsResponse_v1;
   DescribeGroupsResponse_v2;
   DescribeGroupsResponse_v3;
   DescribeGroupsRequest_v0;
   DescribeGroupsRequest_v1;
   DescribeGroupsRequest_v2;
   DescribeGroupsRequest_v3;
   DescribeAclsResponse_v0;
   DescribeAclsResponse_v1;
   DescribeAclsResponse_v2;
   DescribeAclsRequest_v0;
   DescribeAclsRequest_v1;
   DescribeAclsRequest_v2;
   CreateAclsResponse_v0;
   CreateAclsResponse_v1;
   CreateAclsRequest_v0;
   CreateAclsRequest_v1;
   DeleteAclsResponse_v0;
   DeleteAclsResponse_v1;
   DeleteAclsRequest_v0;
   DeleteAclsRequest_v1;
   AlterConfigsResponse_v0;
   AlterConfigsResponse_v1;
   AlterConfigsRequest_v0;
   AlterConfigsRequest_v1;
   DescribeConfigsResponse_v0;
   DescribeConfigsResponse_v1;
   DescribeConfigsResponse_v2;
   DescribeConfigsRequest_v0;
   DescribeConfigsRequest_v1;
   DescribeConfigsRequest_v2;
   DescribeLogDirsResponse_v0;
   DescribeLogDirsRequest_v0;
   SaslAuthenticateResponse_v0;
   SaslAuthenticateResponse_v1;
   SaslAuthenticateRequest_v0;
   SaslAuthenticateRequest_v1;
   CreatePartitionsResponse_v0;
   CreatePartitionsResponse_v1;
   CreatePartitionsRequest_v0;
   CreatePartitionsRequest_v1;
   DeleteGroupsResponse_v0;
   DeleteGroupsResponse_v1;
   DeleteGroupsRequest_v0;
   DeleteGroupsRequest_v1;
   DescribeClientQuotasResponse_v0;
   DescribeClientQuotasRequest_v0;
   AlterPartitionReassignmentsResponse_v0;
   AlterPartitionReassignmentsRequest_v0;
   ListPartitionReassignmentsResponse_v0;
   ListPartitionReassignmentsRequest_v0;
   ElectLeadersResponse_v0;
   ElectLeadersRequest_v0;
   ElectLeadersResponse_v1;
   ElectLeadersRequest_v1;
   JoinGroupResponse_v0;
   JoinGroupResponse_v1;
   JoinGroupResponse_v2;
   JoinGroupResponse_v3;
   JoinGroupResponse_v4;
   JoinGroupResponse_v5;
   JoinGroupRequest_v0;
   JoinGroupRequest_v1;
   JoinGroupRequest_v2;
   JoinGroupRequest_v3;
   JoinGroupRequest_v4;
   JoinGroupRequest_v5;
   SyncGroupResponse_v0;
   SyncGroupResponse_v1;
   SyncGroupResponse_v2;
   SyncGroupResponse_v3;
   SyncGroupRequest_v0;
   SyncGroupRequest_v1;
   SyncGroupRequest_v2;
   SyncGroupRequest_v3;
   HeartbeatResponse_v0;
   HeartbeatResponse_v1;
   HeartbeatResponse_v2;
   HeartbeatResponse_v3;
   HeartbeatRequest_v0;
   HeartbeatRequest_v1;
   HeartbeatRequest_v2;
   HeartbeatRequest_v3;
   LeaveGroupResponse_v0;
   LeaveGroupResponse_v1;
   LeaveGroupResponse_v2;
   LeaveGroupResponse_v3;
   LeaveGroupRequest_v0;
   LeaveGroupRequest_v1;
   LeaveGroupRequest_v2;
   LeaveGroupRequest_v3].

(** The class object a name is bound to. *)
Definition class_named (name : string) : option ApiClass :=
  head (filter (fun c => cls_name c = name) classes).

(** The API of a registry: its name without the suffix ["Request"] or
    ["Response"]. *)
Definition api_of (r : string * Base * list ApiClass) : string :=
  match r.1.2 with
  | Request => String.substring 0 (String.length r.1.1 - 7) r.1.1
  | Response => String.substring 0 (String.length r.1.1 - 8) r.1.1
  end.

Definition same_api_key (r1 r2 : list ApiClass) : bool :=
  forallb (fun c1 => forallb (fun c2 => bool_decide (API_KEY c1 = API_KEY c2)) r2) r1.

Definition registries_agree (r1 r2 : string * Base * list ApiClass) : bool :=
  negb (bool_decide (api_of r1 = api_of r2))
  || (bool_decide (length r1.2 = length r2.2) && same_api_key r1.2 r2.2).

(** What a request class declares as its [RESPONSE_TYPE]. *)
Definition response_type_ok (c : ApiClass) : bool :=
  match cls_base c, RESPONSE_TYPE c with
  | Request, Some name =>
      match class_named name with
      | Some rc =>
          bool_decide (cls_base rc = Response)
          && bool_decide (API_KEY rc = API_KEY c)
          && bool_decide (FLEXIBLE_VERSION rc = FLEXIBLE_VERSION c)
          && (bool_decide (cls_name c = "ListGroupsRequest_v2")
              || bool_decide (API_VERSION rc = API_VERSION c))
      | None => false
      end
  | Request, None => false
  | Response, Some _ => false
  | Response, None => true
  end.

Lemma classes_of_registries :
  forallb (fun r : string * Base * list ApiClass =>
             forallb (fun c => bool_decide (c ∈ classes)) r.2) registries = true.
Proof. vm_compute. reflexivity. Qed.

(** X13: The registries of one API agree: the list of request versions and
    the list of response versions of an API have the same length, and
    all the classes of the two lists (hence of each list) have the same
    [API_KEY]. *)
Theorem registries_of_an_api_agree (r1 r2 : string * Base * list ApiClass) :
  r1 ∈ registries -> r2 ∈ registries -> api_of r1 = api_of r2 ->
  length r1.2 = length r2.2
  /\ forall c1 c2, c1 ∈ r1.2 -> c2 ∈ r2.2 -> API_KEY c1 = API_KEY c2.
Proof.
  intros H1 H2 Hapi.
  assert (forallb (fun r1 => forallb (registries_agree r1) registries) registries = true)
    as Hall by (vm_compute; reflexivity).
  rewrite forallb_forall in Hall. apply list_elem_of_In in H1.
  specialize (Hall r1 H1). rewrite forallb_forall in Hall.
  apply list_elem_of_In in H2. specialize (Hall r2 H2).
  unfold registries_agree in Hall. rewrite bool_decide_true in Hall by done.
  cbn [negb orb] in Hall. apply andb_prop in Hall as [Hlen Hkey].
  apply bool_decide_eq_true in Hlen. split; [done|].
  intros c1 c2 Hc1 Hc2. unfold same_api_key in Hkey.
  rewrite forallb_forall in Hkey. specialize (Hkey c1 (proj1 (list_elem_of_In _ _) Hc1)).
  rewrite forallb_forall in Hkey. specialize (Hkey c2 (proj1 (list_elem_of_In _ _) Hc2)).
  by apply bool_decide_eq_true in Hkey.
Qed.

Lemma registries_of_an_api_agree_witness :
  length CreateTopicsRequest = length CreateTopicsResponse
  /\ forall c1 c2, c1 ∈ CreateTopicsRequest -> c2 ∈ CreateTopicsResponse ->
                   API_KEY c1 = API_KEY c2.
Proof.
  apply (registries_of_an_api_agree
           ("CreateTopicsRequest", Request, CreateTopicsRequest)
           ("CreateTopicsResponse", Response, CreateTopicsResponse)).
  - apply (bool_decide_unpack _). vm_compute. exact I.
  - apply (bool_decide_unpack _). vm_compute. exact I.
  - reflexivity.
Defined.

(** X14: Every request class declares a [RESPONSE_TYPE], and the class it
    names is a response class with the same [API_KEY] and the same
    [FLEXIBLE_VERSION]; it has the same [API_VERSION] too, except for
    [ListGroupsRequest_v2].  No response class declares one. *)
Theorem request_classes_name_their_response (c : ApiClass) :
  c ∈ classes ->
  match cls_base c with
  | Request =>
      exists rc,
        rc ∈ classes
        /\ RESPONSE_TYPE c = Some (cls_name rc)
        /\ cls_base rc = Response
        /\ API_KEY rc = API_KEY c
        /\ FLEXIBLE_VERSION rc = FLEXIBLE_VERSION c
        /\ (cls_name c <> "ListGroupsRequest_v2" -> API_VERSION rc = API_VERSION c)
  | Response => RESPONSE_TYPE c = None
  end.
Proof.
  intros Hc.
  assert (forallb response_type_ok classes = true) as Hall by (vm_compute; reflexivity).
  rewrite forallb_forall in Hall. specialize (Hall c (proj1 (list_elem_of_In _ _) Hc)).
  unfold response_type_ok in Hall.
  destruct (cls_base c), (RESPONSE_TYPE c) as [name|]; try done.
  destruct (class_named name) as [rc|] eqn:Hrc; [|done].
  unfold class_named in Hrc. apply head_Some_elem_of in Hrc.
  apply list_elem_of_filter in Hrc as [Hname Hin].
  apply andb_prop in Hall as [Hall Hversion].
  apply andb_prop in Hall as [Hall Hflexible].
  apply andb_prop in Hall as [Hbase Hkey].
  apply bool_decide_eq_true in Hbase, Hkey, Hflexible.
  exists rc. split; [done|]. split; [by rewrite Hname|].
  split; [done|]. split; [done|]. split; [done|].
  intros Hne. apply orb_prop in Hversion as [H|H]; apply bool_decide_eq_true in H; done.
Qed.

Lemma request_classes_name_their_response_witness :
  exists rc,
    rc ∈ classes
    /\ RESPONSE_TYPE ElectLeadersRequest_v1 = Some (cls_name rc)
    /\ cls_base rc = Response
    /\ API_KEY rc = 43
    /\ FLEXIBLE_VERSION rc = false
    /\ (cls_name ElectLeadersRequest_v1 <> "ListGroupsRequest_v2" -> API_VERSION rc = 1).
Proof.
  apply (request_classes_name_their_response ElectLeadersRequest_v1).
  apply (bool_decide_unpack _). vm_compute. exact I.
Defined.

End RegistryFacts.

(** ** The round-robin assignor when all members take turns *)

Module AssignorFacts.
Import Py Structs RoundRobin NetworkFacts.

(** **** [member_list] *)

Lemma groupby_constant {A} (key : A -> bool) (k : bool) (l : list A) :
  (forall x, x ∈ l -> key x = k) ->
  groupby key l = match l with [] => [] | _ :: _ => [(k, l)] end.
Proof.
  induction l as [|x l IH]; intros Hk; [done|].
  cbn [groupby]. rewrite IH by (intros y Hy; apply Hk; by right).
  rewrite (Hk x) by left. destruct l as [|y l]; [done|].
  by rewrite bool_decide_true.
Qed.

(** When the members are all static or all dynamic, [member_list] holds
    every member once. *)
Lemma member_list_uniform (group_subscriptions : list (string * Subscription)) (k : bool) :
  (forall ms, ms ∈ group_subscriptions ->
     bool_decide (group_instance_id ms.2 <> None) = k) ->
  member_list group_subscriptions ≡ₚ ungrouped group_subscriptions.
Proof.
  intros Hk. unfold member_list, grouped.
  rewrite (groupby_constant _ k).
  - destruct (ungrouped group_subscriptions) as [|x l] eqn:Hu; [done|].
    unfold dict_of. cbn [foldl dict_set fst snd dict_get].
    destruct k.
    + destruct (decide (true = true)) as [_|?]; [|done].
      destruct (decide (false = true)) as [?|_]; [done|].
      cbn [default]. rewrite merge_sort_Permutation.
      change (merge_sort ids_le []) with (@nil Ids). by rewrite app_nil_r.
    + destruct (decide (true = false)) as [?|_]; [done|].
      destruct (decide (false = false)) as [_|?]; [|done].
      cbn [default]. change (merge_sort ids_le []) with (@nil Ids).
      cbn [app]. apply merge_sort_Permutation.
  - intros ids Hids. unfold ungrouped in Hids.
    apply list_elem_of_fmap in Hids as (ms & -> & Hms). cbn [fst].
    by apply Hk.
Qed.

(** **** [all_topic_partitions] *)

Lemma all_topic_partitions_topics cluster group_subscriptions tp :
  tp ∈ all_topic_partitions cluster group_subscriptions ->
  topic tp ∈ all_topics group_subscriptions.
Proof.
  unfold all_topic_partitions, sorted_tps. rewrite merge_sort_Permutation.
  assert (forall ts acc,
            (forall t, t ∈ ts -> t ∈ all_topics group_subscriptions) ->
            (forall x, x ∈ acc -> topic x ∈ all_topics group_subscriptions) ->
            forall x,
              x ∈ foldl (fun acc t =>
                           match cluster t with
                           | None => acc
                           | Some partitions =>
                               acc ++ (mkTopicPartition t <$> elements partitions)
                           end) acc ts ->
              topic x ∈ all_topics group_subscriptions) as Hgen.
  { induction ts as [|t ts IH]; intros acc Hts Hacc x; cbn [foldl]; [by apply Hacc|].
    apply IH; [intros t' Ht'; apply Hts; by right|].
    intros y Hy. destruct (cluster t) as [ps|]; [|by apply Hacc].
    apply elem_of_app in Hy as [Hy|Hy]; [by apply Hacc|].
    apply list_elem_of_fmap in Hy as (p & -> & _). apply Hts. left. }
  apply Hgen.
  - intros t Ht. by apply elem_of_elements in Ht.
  - intros x Hx. by apply elem_of_nil in Hx.
Qed.

(** **** The nested dictionary [assignment] *)

(** The partitions in a [{topic: [partition, ...]}] dictionary. *)
Definition flat (d : list (string * list Z)) : list TopicPartition :=
  tps ← d; mkTopicPartition tps.1 <$> tps.2.

(** The partitions [assignment] holds for a member. *)
Definition given (assignment : list (string * list (string * list Z)))
    (member_id : string) : list TopicPartition :=
  flat (default [] (dict_get member_id assignment)).

Lemma flat_dict_append t p d :
  flat (dict_append t p d) ≡ₚ flat d ++ [mkTopicPartition t p].
Proof.
  unfold dict_append. induction d as [|[t' ps] d IH].
  - done.
  - cbn [dict_get dict_set]. destruct (decide (t = t')) as [->|Hne].
    + unfold flat. cbn [mbind list_bind fst snd default].
      rewrite fmap_app. cbn [fmap list_fmap].
      rewrite <- !app_assoc. apply Permutation_app_head.
      apply Permutation_app_comm.
    + unfold flat in *. cbn [mbind list_bind fst snd].
      rewrite IH. by rewrite app_assoc.
Qed.

Lemma given_append assignment member_id t p member_id' :
  given (assignment_append member_id t p assignment) member_id'
  ≡ₚ given assignment member_id'
     ++ (if decide (member_id' = member_id) then [mkTopicPartition t p] else []).
Proof.
  unfold given, assignment_append. rewrite dict_get_set.
  case_decide as Hm.
  - subst. cbn [default]. apply flat_dict_append.
  - by rewrite app_nil_r.
Qed.

(** **** The loop over the partitions *)

Section Loop.
Variable group_subscriptions : list (string * Subscription).
Variable members : list Ids.

(** The member whose turn it is when [pos] elements have been taken
    from [itertools.cycle(member_list)]. *)
Definition owner (pos : nat) : string :=
  default "" (snd <$> members !! (pos mod length members)%nat).

(** The partitions with the member each is given in turn. *)
Fixpoint turns (pos : nat) (partitions : list TopicPartition)
  : list (string * TopicPartition) :=
  match partitions with
  | [] => []
  | tp :: rest => (owner pos, tp) :: turns (S pos) rest
  end.

(** What the turns give to a member. *)
Definition share (member_id : string) (pos : nat) (partitions : list TopicPartition)
  : list TopicPartition :=
  snd <$> filter (fun x : string * TopicPartition => x.1 = member_id)
                 (turns pos partitions).

Lemma turns_app pos l1 l2 :
  turns pos (l1 ++ l2) = turns pos l1 ++ turns (pos + length l1) l2.
Proof.
  revert pos. induction l1 as [|tp l1 IH]; intros pos.
  - cbn. by rewrite Nat.add_0_r.
  - cbn [app turns length]. rewrite IH. by rewrite Nat.add_succ_r.
Qed.

Lemma turns_snd pos partitions : (turns pos partitions).*2 = partitions.
Proof.
  revert pos. induction partitions as [|tp l IH]; intros pos; [done|].
  cbn [turns]. rewrite fmap_cons. by rewrite IH.
Qed.

Lemma owner_member pos :
  members <> [] ->
  exists ids, members !! (pos mod length members)%nat = Some ids /\ owner pos = ids.2.
Proof.
  intros Hne. unfold owner.
  assert (pos mod length members < length members)%nat as Hlt.
  { apply Nat.mod_upper_bound. by destruct members. }
  destruct (lookup_lt_is_Some_2 _ _ Hlt) as [ids Hids].
  exists ids. split; [exact Hids|]. unfold Ids in *. by rewrite Hids.
Qed.

Lemma turns_owner pos partitions x :
  members <> [] -> x ∈ turns pos partitions -> x.1 ∈ members.*2.
Proof.
  intros Hne. revert pos. induction partitions as [|tp l IH]; intros pos Hx.
  - by apply elem_of_nil in Hx.
  - cbn [turns] in Hx. apply elem_of_cons in Hx as [->|Hx]; [|by eapply IH].
    destruct (owner_member pos Hne) as (ids & Hids & ->).
    apply list_elem_of_fmap. exists ids. split; [done|].
    by eapply list_elem_of_lookup_2.
Qed.

(** When every member subscribes to the topic of every partition, the
    loop gives each partition to the member whose turn it is. *)
Lemma assign_loop_turns partitions pos assignment :
  members <> [] ->
  (forall ids, ids ∈ members ->
     exists subscription,
       dict_get ids.2 group_subscriptions = Some subscription
       /\ forall tp, tp ∈ partitions -> topic tp ∈ topics subscription) ->
  exists assignment',
    assign_loop group_subscriptions members partitions pos assignment = Ok assignment'
    /\ forall member_id,
        given assignment' member_id
        ≡ₚ given assignment member_id ++ share member_id pos partitions.
Proof.
  intros Hne. revert pos assignment.
  induction partitions as [|tp rest IH]; intros pos assignment Hsub.
  - exists assignment. split; [done|]. intros m. unfold share. cbn.
    by rewrite app_nil_r.
  - cbn [assign_loop]. destruct (owner_member pos Hne) as ([g id] & Hids & Hown).
    rewrite Hids. cbn [snd] in Hown.
    destruct (Hsub (g, id)) as (subscription & Hget & Htopics);
      [by eapply list_elem_of_lookup_2|].
    cbn [snd] in Hget. rewrite Hget.
    rewrite bool_decide_true by (apply Htopics; left).
    destruct (IH (S pos) (assignment_append id (topic tp) (partition tp) assignment))
      as (assignment' & Hrun & Hgiven).
    { intros ids Hin. destruct (Hsub ids Hin) as (sub & Hs & Ht).
      exists sub. split; [done|]. intros tp' Htp'. apply Ht. by right. }
    exists assignment'. split; [done|]. intros m.
    rewrite Hgiven, given_append. unfold share. cbn [turns]. rewrite Hown.
    rewrite <- app_assoc. apply Permutation_app_head.
    destruct tp as [t p]. cbn [topic partition].
    destruct (decide (m = id)) as [->|Hm].
    + by rewrite filter_cons_True by done.
    + rewrite filter_cons_False by (cbn; congruence). done.
Qed.

(** The turns are balanced: after [n] partitions, the member at
    position [j] has been given [n / m] partitions, and one more when
    [j < n mod m]. *)
Lemma share_length partitions :
  members <> [] -> NoDup members.*2 ->
  exists q r,
    (length partitions = q * length members + r)%nat
    /\ (r < length members)%nat
    /\ forall j member_id,
        members.*2 !! j = Some member_id ->
        length (share member_id 0 partitions)
        = (q + if decide (j < r)%nat then 1 else 0)%nat.
Proof.
  intros Hne Hnd.
  assert (0 < length members)%nat as Hm by (destruct members; [done|simpl; lia]).
  induction partitions as [|tp partitions IH] using rev_ind.
  - exists 0%nat, 0%nat. split_and!; [done|done|].
    intros j m _. rewrite decide_False by lia. done.
  - destruct IH as (q & r & Hlen & Hr & Hcount).
    assert (owner (length partitions) = default "" (members.*2 !! r)) as Hown.
    { unfold owner. rewrite Hlen, Nat.add_comm, Nat.Div0.mod_add.
      rewrite Nat.mod_small by done. by rewrite list_lookup_fmap. }
    assert (forall j member_id,
              members.*2 !! j = Some member_id ->
              length (share member_id 0 (partitions ++ [tp]))
              = (q + (if decide (j < r)%nat then 1 else 0)
                 + (if decide (j = r) then 1 else 0))%nat) as Hstep.
    { intros j m Hj. unfold share. rewrite turns_app, filter_app, fmap_app, length_app.
      fold (share m 0 partitions). rewrite (Hcount j m Hj).
      cbn [turns Nat.add]. rewrite Hown.
      assert (r < length members.*2)%nat as Hr' by (by rewrite length_fmap).
      destruct (lookup_lt_is_Some_2 _ _ Hr') as [mr Hmr]. rewrite Hmr. cbn [default].
      destruct (decide (j = r)) as [->|Hjr].
      - assert (mr = m) as -> by congruence.
        rewrite filter_cons_True by done. done.
      - rewrite filter_cons_False; [done|]. cbn. intros ->.
        apply Hjr. by apply (NoDup_lookup _ _ _ _ Hnd Hj Hmr). }
    destruct (decide (S r < length members)%nat) as [Hlt|Hge].
    + exists q, (S r). split_and!; [rewrite length_app; simpl; lia|done|].
      intros j m Hj. rewrite (Hstep j m Hj).
      repeat case_decide; lia.
    + exists (S q), 0%nat. split_and!; [rewrite length_app; simpl; lia|done|].
      intros j m Hj. rewrite (Hstep j m Hj).
      assert (j < length members)%nat
        by (apply lookup_lt_Some in Hj; by rewrite length_fmap in Hj).
      repeat case_decide; lia.
Qed.

End Loop.

(** What the members are given, taken together. *)
Lemma shares_cons_absent {K V} `{EqDecision K} (keys : list K) (l : list (K * V)) k0 v0 :
  k0 ∉ keys ->
  (fun k => snd <$> filter (fun x : K * V => x.1 = k) ((k0, v0) :: l)) <$> keys
  = (fun k => snd <$> filter (fun x : K * V => x.1 = k) l) <$> keys.
Proof.
  intros Hk0. apply list_fmap_ext. intros i k Hk.
  rewrite filter_cons_False; [done|]. cbn. intros ->.
  apply Hk0. by eapply list_elem_of_lookup_2.
Qed.

Lemma shares_complete {K V} `{EqDecision K} (keys : list K) (l : list (K * V)) :
  NoDup keys -> (forall x, x ∈ l -> x.1 ∈ keys) ->
  concat ((fun k => snd <$> filter (fun x : K * V => x.1 = k) l) <$> keys) ≡ₚ l.*2.
Proof.
  intros Hnd. induction l as [|[k0 v0] l IH]; intros Hin.
  - clear. induction keys as [|k keys IH]; [done|]. by rewrite fmap_cons.
  - rewrite fmap_cons. cbn [snd]. rewrite <- IH by (intros x Hx; apply Hin; by right).
    assert (k0 ∈ keys) as Hk0 by (apply (Hin (k0, v0)); left).
    clear IH Hin. induction Hnd as [|k keys Hk Hnd IH]; [by apply elem_of_nil in Hk0|].
    rewrite !fmap_cons. cbn [concat].
    destruct (decide (k0 = k)) as [->|Hne].
    + rewrite filter_cons_True by done. rewrite fmap_cons. cbn [snd app].
      by rewrite shares_cons_absent.
    + rewrite filter_cons_False by done.
      apply elem_of_cons in Hk0 as [?|Hk0]; [done|].
      rewrite (IH Hk0). by rewrite Permutation_middle.
Qed.

Lemma flat_Permutation d1 d2 : d1 ≡ₚ d2 -> flat d1 ≡ₚ flat d2.
Proof.
  unfold flat. induction 1 as [|x d1 d2 _ IH|x y d|d1 d2 d3 _ IH1 _ IH2].
  - done.
  - cbn [mbind list_bind]. by rewrite IH.
  - cbn [mbind list_bind]. rewrite !app_assoc. apply Permutation_app_tail.
    apply Permutation_app_comm.
  - by rewrite IH1.
Qed.

Lemma concat_fmap_Permutation {A B} (f g : A -> list B) (l : list A) :
  (forall x, x ∈ l -> f x ≡ₚ g x) -> concat (f <$> l) ≡ₚ concat (g <$> l).
Proof.
  induction l as [|x l IH]; intros Hfg; [done|].
  rewrite !fmap_cons. cbn [concat]. rewrite (Hfg x) by left.
  rewrite IH; [done|]. intros y Hy. apply Hfg. by right.
Qed.

(** X15: When the members are all dynamic or all static, their ids are
    distinct and every member subscribes to every topic of the group,
    [assign] returns an assignment for every member, in the order of
    [group_subscriptions]: every partition that has metadata is
    assigned exactly once, and the numbers of partitions of any two
    members differ by at most one. *)
Theorem assign_balanced_for_uniform_members (cluster : Cluster)
    (group_subscriptions : list (string * Subscription)) :
  NoDup group_subscriptions.*1 ->
  ((forall ms, ms ∈ group_subscriptions -> group_instance_id ms.2 = None)
   \/ (forall ms, ms ∈ group_subscriptions -> group_instance_id ms.2 <> None)) ->
  (forall ms t, ms ∈ group_subscriptions -> t ∈ all_topics group_subscriptions ->
                t ∈ topics ms.2) ->
  exists result,
    assign cluster group_subscriptions = Ok result
    /\ result.*1 = group_subscriptions.*1
    /\ concat (partitions_of <$> result.*2)
       ≡ₚ all_topic_partitions cluster group_subscriptions
    /\ forall a1 a2, a1 ∈ result.*2 -> a2 ∈ result.*2 ->
         (assigned_count a1 <= assigned_count a2 + 1)%nat.
Proof.
  intros Hnd Hkind Hsame. unfold assign.
  set (members := member_list group_subscriptions).
  set (partitions := all_topic_partitions cluster group_subscriptions).
  assert (members ≡ₚ ungrouped group_subscriptions) as Hperm.
  { destruct Hkind as [Hdyn|Hsta].
    - apply (member_list_uniform _ false). intros ms Hms.
      rewrite (Hdyn ms Hms). apply bool_decide_eq_false. intros H. by apply H.
    - apply (member_list_uniform _ true). intros ms Hms.
      apply bool_decide_eq_true. by apply Hsta. }
  assert (members.*2 ≡ₚ group_subscriptions.*1) as Hids.
  { rewrite Hperm. unfold ungrouped. rewrite <- list_fmap_compose. done. }
  assert (NoDup members.*2) as Hnd' by (by rewrite Hids).
  destruct (decide (members = [])) as [Hnil|Hne].
  - assert (group_subscriptions = []) as Hgs.
    { rewrite Hnil in Hperm. apply Permutation_nil_l in Hperm.
      unfold ungrouped in Hperm. symmetry in Hperm. by apply fmap_nil_inv in Hperm. }
    assert (partitions = []) as Hp by (unfold partitions; by rewrite Hgs).
    rewrite Hp, Hgs. cbn. exists []. split_and!; try done.
    intros a1 a2 H. by apply elem_of_nil in H.
  - destruct (assign_loop_turns group_subscriptions members partitions 0 [] Hne)
      as (assignment & Hrun & Hgiven).
    { intros ids Hin. rewrite Hperm in Hin. unfold ungrouped in Hin.
      apply list_elem_of_fmap in Hin as ([m sub] & -> & Hms). cbn [fst snd].
      exists sub. split; [by apply elem_of_dict_NoDup|].
      intros tp Htp. apply (Hsame (m, sub)); [done|].
      by apply (all_topic_partitions_topics cluster). }
    rewrite Hrun. cbn [mbind Result_bind]. eexists. split; [reflexivity|].
    assert (forall ms,
              partitions_of
                (mkMemberAssignment version
                   (merge_sort item_le (default [] (dict_get ms assignment))) "")
              ≡ₚ share members ms 0 partitions) as Hshare.
    { intros ms. unfold partitions_of. cbn [ma_assignment].
      fold (flat (merge_sort item_le (default [] (dict_get ms assignment)))).
      rewrite (flat_Permutation _ _ (merge_sort_Permutation _ _)).
      fold (given assignment ms). by rewrite Hgiven. }
    split_and!.
    + rewrite <- list_fmap_compose. done.
    + rewrite <- !list_fmap_compose.
      rewrite (concat_fmap_Permutation _
                 (fun ms : string * Subscription => share members ms.1 0 partitions))
        by (intros ms _; apply Hshare).
      assert ((fun ms : string * Subscription => share members ms.1 0 partitions)
                <$> group_subscriptions
              = (fun k => share members k 0 partitions) <$> group_subscriptions.*1)
        as -> by (by rewrite <- list_fmap_compose).
      unfold share. rewrite shares_complete.
      * by rewrite turns_snd.
      * done.
      * intros x Hx. rewrite <- Hids. by eapply turns_owner.
    + intros a1 a2 Ha1 Ha2.
      destruct (share_length members partitions Hne Hnd') as (q & r & _ & _ & Hcount).
      assert (forall a, a ∈ ((fun ms : string * Subscription =>
                               (ms.1, mkMemberAssignment version
                                        (merge_sort item_le
                                           (default [] (dict_get ms.1 assignment))) ""))
                             <$> group_subscriptions).*2 ->
                (q <= assigned_count a <= q + 1)%nat) as Hbounds.
      { intros a Ha. rewrite <- list_fmap_compose in Ha.
        apply list_elem_of_fmap in Ha as (ms & -> & Hms). cbn [compose snd fst].
        unfold assigned_count. rewrite (Permutation_length (Hshare ms.1)).
        assert (ms.1 ∈ members.*2) as Hin
          by (rewrite Hids; apply list_elem_of_fmap; eauto).
        apply list_elem_of_lookup in Hin as [j Hj].
        rewrite (Hcount j _ Hj). case_decide; lia. }
      pose proof (Hbounds a1 Ha1). pose proof (Hbounds a2 Ha2). lia.
Qed.

(** Three dynamic members of one topic with five partitions. *)
Definition three_dynamic : list (string * Subscription) :=
  [("m2", mkSubscription ["t"] None);
   ("m1", mkSubscription ["t"] None);
   ("m3", mkSubscription ["t"] None)].

Definition five_partitions : Cluster :=
  fun topic => if decide (topic = "t") then Some {[ 0; 1; 2; 3; 4 ]} else None.

Lemma assign_balanced_for_uniform_members_witness :
  exists result,
    assign five_partitions three_dynamic = Ok result
    /\ result.*1 = ["m2"; "m1"; "m3"]
    /\ concat (partitions_of <$> result.*2)
       ≡ₚ all_topic_partitions five_partitions three_dynamic
    /\ forall a1 a2, a1 ∈ result.*2 -> a2 ∈ result.*2 ->
         (assigned_count a1 <= assigned_count a2 + 1)%nat.
Proof.
  apply (assign_balanced_for_uniform_members five_partitions three_dynamic).
  - apply (bool_decide_unpack _). vm_compute. exact I.
  - left. intros ms Hms. unfold three_dynamic in Hms.
    repeat (apply elem_of_cons in Hms as [->|Hms]; [reflexivity|]).
    by apply elem_of_nil in Hms.
  - intros ms t Hms Ht.
    assert (all_topics three_dynamic = {[ "t" ]}) as Hall by (vm_compute; reflexivity).
    rewrite Hall in Ht. apply elem_of_singleton in Ht as ->.
    unfold three_dynamic in Hms.
    repeat (apply elem_of_cons in Hms as [->|Hms]; [by left|]).
    by apply elem_of_nil in Hms.
Defined.

Example three_dynamic_assignment :
  assign five_partitions three_dynamic
  = Ok [("m2", mkMemberAssignment 0 [("t", [1; 4])] "");
        ("m1", mkMemberAssignment 0 [("t", [0; 3])] "");
        ("m3", mkMemberAssignment 0 [("t", [2])] "")].
Proof. vm_compute. reflexivity. Qed.

(** **** A turn of a member that is not subscribed *)

(** [partition.topic in group_subscriptions[member_id].topics] *)
Definition subscribes (group_subscriptions : list (string * Subscription))
    (member_id topic : string) : Prop :=
  exists subscription,
    dict_get member_id group_subscriptions = Some subscription
    /\ topic ∈ topics subscription.

Lemma assign_loop_unsubscribed group_subscriptions members partitions pos assignment i tp :
  members <> [] ->
  partitions !! i = Some tp ->
  (forall j tp', (j < i)%nat -> partitions !! j = Some tp' ->
     subscribes group_subscriptions (owner members (pos + j)) (topic tp')) ->
  ~ subscribes group_subscriptions (owner members (pos + i)) (topic tp) ->
  exists e,
    assign_loop group_subscriptions members partitions pos assignment = Raise e
    /\ exn_type e = Errors.KeyError.
Proof.
  intros Hne. revert pos assignment i.
  induction partitions as [|tp0 rest IH]; intros pos assignment i Hi Hbefore Hbad; [done|].
  cbn [assign_loop]. destruct (owner_member members pos Hne) as ([g id] & Hids & Hown).
  rewrite Hids. cbn [snd] in Hown. destruct i as [|i].
  - injection Hi as ->. rewrite Nat.add_0_r, Hown in Hbad.
    destruct (dict_get id group_subscriptions) as [subscription|] eqn:Hget;
      [|by eexists].
    rewrite bool_decide_false; [by eexists|].
    intros Hin. apply Hbad. by exists subscription.
  - destruct (Hbefore 0%nat tp0 ltac:(lia) eq_refl) as (subscription & Hget & Hin).
    rewrite Nat.add_0_r, Hown in Hget. rewrite Hget.
    rewrite bool_decide_true by done.
    apply (IH (S pos) _ i); [done| |].
    + intros j tp' Hj Htp'. rewrite Nat.add_succ_l, <- Nat.add_succ_r.
      apply Hbefore; [lia|done].
    + by rewrite Nat.add_succ_l, <- Nat.add_succ_r.
Qed.

(** X16: When the member whose turn it is does not subscribe to the topic of
    the partition at hand, [assign] does not skip to the next
    subscribed member: it raises [KeyError] (the body of the inner
    [while] binds [member_id] to a tuple of the iterator, which is not
    a key of [group_subscriptions]). *)
Theorem assign_raises_at_unsubscribed_turn (cluster : Cluster)
    (group_subscriptions : list (string * Subscription)) (i : nat)
    (tp : TopicPartition) :
  member_list group_subscriptions <> [] ->
  all_topic_partitions cluster group_subscriptions !! i = Some tp ->
  (forall j tp', (j < i)%nat ->
     all_topic_partitions cluster group_subscriptions !! j = Some tp' ->
     subscribes group_subscriptions (owner (member_list group_subscriptions) j)
       (topic tp')) ->
  ~ subscribes group_subscriptions (owner (member_list group_subscriptions) i) (topic tp) ->
  exists e,
    assign cluster group_subscriptions = Raise e /\ exn_type e = Errors.KeyError.
Proof.
  intros Hne Hi Hbefore Hbad. unfold assign.
  destruct (assign_loop_unsubscribed group_subscriptions
              (member_list group_subscriptions)
              (all_topic_partitions cluster group_subscriptions) 0 [] i tp Hne Hi)
    as (e & Hrun & He); [done|done|].
  rewrite Hrun. by exists e.
Qed.

(** The second example of the class docstring: [C0] subscribes to
    [t0], [C1] to [t0] and [t1], [C2] to [t0], [t1] and [t2]; the
    topics have one, two and three partitions. *)
Definition docstring_subscriptions : list (string * Subscription) :=
  [("C0", mkSubscription ["t0"] None);
   ("C1", mkSubscription ["t0"; "t1"] None);
   ("C2", mkSubscription ["t0"; "t1"; "t2"] None)].

Definition docstring_cluster : Cluster :=
  fun topic =>
    if decide (topic = "t0") then Some {[ 0 ]}
    else if decide (topic = "t1") then Some {[ 0; 1 ]}
    else if decide (topic = "t2") then Some {[ 0; 1; 2 ]}
    else None.

Lemma assign_raises_at_unsubscribed_turn_witness :
  exists e,
    assign docstring_cluster docstring_subscriptions = Raise e
    /\ exn_type e = Errors.KeyError.
Proof.
  apply (assign_raises_at_unsubscribed_turn docstring_cluster docstring_subscriptions
           3 (mkTopicPartition "t2" 0)).
  - vm_compute. discriminate.
  - vm_compute. reflexivity.
  - intros [|[|[|j]]] tp' Hj Htp'; [| | |lia];
      vm_compute in Htp'; injection Htp' as <-;
      eexists; (split; [vm_compute; reflexivity|]); cbn [topics topic].
    + left.
    + right. left.
    + right. left.
  - intros (subscription & Hget & Hin). vm_compute in Hget. injection Hget as <-.
    cbn [topics topic] in Hin.
    apply elem_of_cons in Hin as [Hin|Hin]; [discriminate|].
    by apply elem_of_nil in Hin.
Defined.

End AssignorFacts.

(** ** [delete_records] without a leader hint *)

Module DeleteRecordsRunFacts.
Import Py Structs Admin NetworkFacts LeaderFacts DeleteRecordsRequestFacts.

Section Run.
Variable env : Env.

(** The buckets and the set of known partitions that the loops of
    [_get_leader_for_partitions] compute. *)
Definition buckets_of (partitions : list TopicPartition)
    (metadata_topics : list TopicMetadata)
  : list (Z * list TopicPartition) * gset TopicPartition :=
  leaders_of_metadata (list_to_set partitions) metadata_topics.

Lemma _get_leader_for_partitions_run partitions timeout_ms metadata_topics c :
  wf env c ->
  metadata_answered env c partitions metadata_topics ->
  exists c',
    wf env c'
    /\ sent c' = sent c ++ [(least_loaded_node env (length (sent c)),
                             metadata_request_for env (Some (requested_topics partitions)))]
    /\ _get_leader_for_partitions env partitions timeout_ms c
       = (if bool_decide (size (list_to_set partitions : gset TopicPartition)
                          = size (buckets_of partitions metadata_topics).2)
          then Ok (buckets_of partitions metadata_topics).1
          else Raise (mkExn Errors.UnknownTopicOrPartitionError
                        (unknown_partitions_message env
                           (list_to_set partitions
                            ∖ (buckets_of partitions metadata_topics).2))), c').
Proof.
  intros Hwf (Hready & version & controller_id & Hans).
  destruct (_get_cluster_metadata_run env _ c _ _ _ Hwf Hready Hans)
    as (c' & Hrun & Hwf' & Hsent).
  exists c'. split; [done|]. split; [done|].
  unfold _get_leader_for_partitions. cbn zeta.
  fold (requested_topics partitions).
  erewrite bindM_Ok by exact Hrun. fold (buckets_of partitions metadata_topics).
  destruct (buckets_of partitions metadata_topics) as [leader2partitions valid_partitions].
  cbn [fst snd]. by case_bool_decide.
Qed.

Lemma buckets_of_spec partitions metadata_topics :
  (forall leader bucket tp,
     (leader, bucket) ∈ (buckets_of partitions metadata_topics).1 -> tp ∈ bucket ->
     tp ∈ partitions /\ (tp, leader) ∈ listed metadata_topics)
  /\ (forall tp, tp ∈ (buckets_of partitions metadata_topics).2
                 <-> tp ∈ partitions /\ tp ∈ (listed metadata_topics).*1).
Proof.
  unfold buckets_of. rewrite leaders_of_metadata_listed.
  destruct (buckets_spec (list_to_set partitions) (listed metadata_topics))
    as (Hkeys & Hvalid & Hbucket & _). cbn zeta in *.
  split.
  - intros leader bucket tp Hin Htp.
    apply (elem_of_dict_NoDup _ _ _ Hkeys) in Hin.
    apply (Hbucket _ _ Hin) in Htp as [Htp Hl]. by apply elem_of_list_to_set in Htp.
  - intros tp. rewrite Hvalid. by rewrite elem_of_list_to_set.
Qed.

(** **** The loop over the leaders *)

Definition requests_of (records_to_delete : list (TopicPartition * Z)) (timeout_ms : Z)
    (leader2partitions : list (Z * list TopicPartition)) : list (Z * Request) :=
  (fun lp : Z * list TopicPartition =>
     (lp.1, DeleteRecordsRequest (api_version env "DeleteRecordsRequest" 0)
              (topics_of records_to_delete lp.2) timeout_ms))
    <$> leader2partitions.

(** The leaders are ready and answer their requests with the
    responses [responses]; [n] requests were sent before. *)
Definition leaders_answer (n : nat) (requests : list (Z * Request))
    (responses : list Response) : Prop :=
  length responses = length requests
  /\ forall i leader request,
      requests !! i = Some (leader, request) ->
      await_ready env (n + i) leader = None
      /\ exists response,
          responses !! i = Some response
          /\ response <> ResponseNone
          /\ answer env (n + i) leader request = Succeeded response.

Lemma delete_records_send_run records_to_delete timeout_ms leader2partitions responses c :
  wf env c ->
  (forall leader bucket tp, (leader, bucket) ∈ leader2partitions -> tp ∈ bucket ->
     is_Some (dict_get tp records_to_delete)) ->
  leaders_answer (length (sent c))
    (requests_of records_to_delete timeout_ms leader2partitions) responses ->
  exists c',
    delete_records_send env (api_version env "DeleteRecordsRequest" 0)
      records_to_delete timeout_ms leader2partitions c
    = (Ok responses, c')
    /\ sent c' = sent c ++ requests_of records_to_delete timeout_ms leader2partitions.
Proof.
  revert c responses.
  induction leader2partitions as [|[leader bucket] rest IH];
    intros c responses Hwf Hkeys [Hlen Hans].
  - destruct responses; [|done]. exists c. split; [done|].
    unfold requests_of. by rewrite app_nil_r.
  - cbn [delete_records_send].
    rewrite delete_records_request_Ok
      by (intros tp Htp; apply (Hkeys leader bucket); [left|done]).
    erewrite bindM_Ok by reflexivity.
    set (request := DeleteRecordsRequest (api_version env "DeleteRecordsRequest" 0)
                      (topics_of records_to_delete bucket) timeout_ms).
    destruct (Hans 0%nat leader request eq_refl)
      as (Hready & response & Hresponse & Hnone & Hanswer).
    rewrite Nat.add_0_r in Hready, Hanswer.
    pose proof (send_request_spec env request (Some leader) c Hwf) as Hsend.
    cbn zeta in Hsend. cbn [resolve] in Hsend. rewrite Hready, Hanswer in Hsend.
    destruct Hsend as (c1 & Hrun & Hwf1 & Hsent1 & _). cbn [result_of] in Hrun.
    erewrite bindM_Ok by exact Hrun.
    assert (to_object response = Ok response) as -> by (by destruct response).
    erewrite bindM_Ok by reflexivity.
    destruct responses as [|response' responses]; [done|].
    injection Hresponse as ->.
    destruct (IH c1 responses Hwf1) as (c' & Hrest & Hsent').
    + intros l b tp Hin Htp. apply (Hkeys l b tp); [by right|done].
    + split; [by injection Hlen|].
      intros i l rq Hi. rewrite Hsent1, length_app. cbn [length].
      replace (length (sent c) + 1 + i)%nat with (length (sent c) + S i)%nat by lia.
      apply (Hans (S i) l rq Hi).
    + erewrite bindM_Ok by exact Hrest. exists c'. split; [done|].
      rewrite Hsent', Hsent1. unfold requests_of. rewrite fmap_cons.
      by rewrite <- app_assoc.
Qed.

(** X17: When the metadata lacks a requested partition, [delete_records]
    raises [UnknownTopicOrPartitionError] after its Metadata request
    and sends no DeleteRecords request: nothing is deleted, also not
    for the partitions that are known. *)
Theorem delete_records_unknown_partition (records_to_delete : list (TopicPartition * Z))
    (timeout_ms : option Z) (metadata_topics : list TopicMetadata)
    (tp : TopicPartition) (c : Client) :
  wf env c ->
  metadata_answered env c (dict_keys records_to_delete) metadata_topics ->
  tp ∈ dict_keys records_to_delete ->
  tp ∉ (listed metadata_topics).*1 ->
  exists e c',
    delete_records env records_to_delete timeout_ms None c = (Raise e, c')
    /\ exn_type e = Errors.UnknownTopicOrPartitionError
    /\ sent c'
       = sent c ++ [(least_loaded_node env (length (sent c)),
                     metadata_request_for env
                       (Some (requested_topics (dict_keys records_to_delete))))].
Proof.
  intros Hwf Hmeta Htp Hmissing.
  destruct (_get_leader_for_partitions_run (dict_keys records_to_delete)
              (Some (_validate_timeout env timeout_ms)) metadata_topics c Hwf Hmeta)
    as (c' & _ & Hsent & Hrun).
  destruct (buckets_of_spec (dict_keys records_to_delete) metadata_topics) as [_ Hvalid].
  rewrite bool_decide_false in Hrun.
  - eexists _, c'. unfold delete_records. cbn zeta.
    erewrite bindM_Raise by exact Hrun.
    by split_and!.
  - intros Hsize.
    assert (size (buckets_of (dict_keys records_to_delete) metadata_topics).2
            < size (list_to_set (dict_keys records_to_delete) : gset TopicPartition))%nat;
      [|lia].
    apply subset_size. split.
    + intros x Hx. apply Hvalid in Hx as [Hx _]. by apply elem_of_list_to_set.
    + intros Hsup. assert (tp ∈ (buckets_of (dict_keys records_to_delete)
                                   metadata_topics).2) as [_ H]%Hvalid; [|done].
      apply Hsup. by apply elem_of_list_to_set.
Qed.

(** X18: When the metadata lists every requested partition and every leader
    answers, [delete_records] sends, after its Metadata request, one
    DeleteRecords request per leader bucket, to that leader; a bucket
    holds only requested partitions that the metadata lists with that
    leader, and the outcome is that of the processing of the
    responses. *)
Theorem delete_records_one_request_per_leader
    (records_to_delete : list (TopicPartition * Z)) (timeout_ms : option Z)
    (metadata_topics : list TopicMetadata) (responses : list Response) (c : Client) :
  wf env c ->
  metadata_answered env c (dict_keys records_to_delete) metadata_topics ->
  (forall tp, tp ∈ dict_keys records_to_delete -> tp ∈ (listed metadata_topics).*1) ->
  let leader2partitions :=
    (buckets_of (dict_keys records_to_delete) metadata_topics).1 in
  let requests :=
    requests_of records_to_delete (_validate_timeout env timeout_ms) leader2partitions in
  leaders_answer (S (length (sent c))) requests responses ->
  exists c',
    delete_records env records_to_delete timeout_ms None c
    = (delete_records_result env responses, c')
    /\ sent c'
       = sent c
         ++ (least_loaded_node env (length (sent c)),
             metadata_request_for env
               (Some (requested_topics (dict_keys records_to_delete))))
            :: requests
    /\ (forall leader bucket tp,
          (leader, bucket) ∈ leader2partitions -> tp ∈ bucket ->
          tp ∈ dict_keys records_to_delete /\ (tp, leader) ∈ listed metadata_topics).
Proof.
  intros Hwf Hmeta Hall leader2partitions requests Hanswer.
  destruct (_get_leader_for_partitions_run (dict_keys records_to_delete)
              (Some (_validate_timeout env timeout_ms)) metadata_topics c Hwf Hmeta)
    as (c1 & Hwf1 & Hsent1 & Hrun).
  destruct (buckets_of_spec (dict_keys records_to_delete) metadata_topics)
    as [Hbucket Hvalid].
  rewrite bool_decide_true in Hrun.
  2:{ f_equal. apply set_eq. intros tp. rewrite Hvalid, elem_of_list_to_set.
      split; [|tauto]. intros Htp. split; [done|by apply Hall]. }
  fold leader2partitions in Hrun.
  destruct (delete_records_send_run records_to_delete (_validate_timeout env timeout_ms)
              leader2partitions responses c1 Hwf1) as (c' & Hsend & Hsent').
  - intros leader bucket tp Hin Htp.
    destruct (Hbucket leader bucket tp Hin Htp) as [Hkey _].
    rewrite <- not_eq_None_Some, dict_get_None. intros H. by apply H.
  - rewrite Hsent1, length_app. cbn [length]. rewrite Nat.add_1_r. exact Hanswer.
  - exists c'. split_and!.
    + unfold delete_records. cbn zeta.
      erewrite bindM_Ok by exact Hrun. erewrite bindM_Ok by exact Hsend.
      reflexivity.
    + rewrite Hsent', Hsent1. by rewrite <- app_assoc.
    + exact Hbucket.
Qed.

End Run.

(** Partition 0 of ["t"] is led by node 1, partition 1 by node 2. *)
Definition two_leaders_delete : Env :=
  Scenario.scripted 0
    [Succeeded (MetadataResponse 0 1
       [mkTopicMetadata "t" [mkPartitionMetadata 0 1; mkPartitionMetadata 1 2]]);
     Succeeded (DeleteRecordsResponse [("t", [mkDeleteRecordsPartition 0 5 0])]);
     Succeeded (DeleteRecordsResponse [("t", [mkDeleteRecordsPartition 1 7 0])])]
    Scenario.fifo.

Definition two_record_offsets : list (TopicPartition * Z) :=
  [(mkTopicPartition "t" 0, 5); (mkTopicPartition "t" 1, 7)].

Lemma delete_records_one_request_per_leader_witness :
  exists c',
    delete_records two_leaders_delete two_record_offsets None None Scenario.fresh_client
    = (Ok [(mkTopicPartition "t" 0, mkDeleteRecordsPartition 0 5 0);
           (mkTopicPartition "t" 1, mkDeleteRecordsPartition 1 7 0)], c')
    /\ sent c' = [(0, MetadataRequest 0 (Some ["t"]) None None);
                  (1, DeleteRecordsRequest 0 [("t", [(0, 5)])] 30000);
                  (2, DeleteRecordsRequest 0 [("t", [(1, 7)])] 30000)].
Proof.
  destruct (delete_records_one_request_per_leader two_leaders_delete two_record_offsets None
              [mkTopicMetadata "t" [mkPartitionMetadata 0 1; mkPartitionMetadata 1 2]]
              [DeleteRecordsResponse [("t", [mkDeleteRecordsPartition 0 5 0])];
               DeleteRecordsResponse [("t", [mkDeleteRecordsPartition 1 7 0])]]
              Scenario.fresh_client)
    as (c' & Hrun & Hsent & _).
  - apply wf_fresh.
  - split; [reflexivity|]. eexists _, _. vm_compute. reflexivity.
  - intros tp Htp. apply elem_of_cons in Htp as [->|Htp]; [left|].
    apply list_elem_of_singleton in Htp as ->. right. left.
  - split; [vm_compute; reflexivity|].
    intros [|[|i]] leader request Hi; vm_compute in Hi; [| |discriminate];
      injection Hi as <- <-; (split; [reflexivity|]); eexists;
      (split; [reflexivity|]); (split; [discriminate|]); reflexivity.
  - exists c'. split.
    + rewrite Hrun. vm_compute. reflexivity.
    + rewrite Hsent. vm_compute. reflexivity.
Defined.

(** The metadata knows partition 0 of ["t"] only. *)
Definition one_known : Env :=
  Scenario.scripted 0
    [Succeeded (MetadataResponse 0 1 [mkTopicMetadata "t" [mkPartitionMetadata 0 1]])]
    Scenario.fifo.

Lemma delete_records_unknown_partition_witness :
  exists e c',
    delete_records one_known two_record_offsets None None Scenario.fresh_client = (Raise e, c')
    /\ exn_type e = Errors.UnknownTopicOrPartitionError
    /\ sent c' = [(0, MetadataRequest 0 (Some ["t"]) None None)].
Proof.
  destruct (delete_records_unknown_partition one_known two_record_offsets None
              [mkTopicMetadata "t" [mkPartitionMetadata 0 1]]
              (mkTopicPartition "t" 1) Scenario.fresh_client)
    as (e & c' & Hrun & Htype & Hsent).
  - apply wf_fresh.
  - split; [reflexivity|]. eexists _, _. vm_compute. reflexivity.
  - right. left.
  - vm_compute. by intros [=]%list_elem_of_singleton.
  - exists e, c'. split_and!; [done|done|]. rewrite Hsent. vm_compute. reflexivity.
Defined.

End DeleteRecordsRunFacts.

(** * The admin calls, from the call to its outcome *)

(** ** The timeout of the requests *)

Module TimeoutFacts.
Import Py Structs Admin AdminFacts NetworkFacts ControllerFacts DeleteRecordsRequestFacts.

(** The timeout field of a request, for the requests that have one. *)
Definition timeout_of (request : Request) : option Z :=
  match request with
  | CreateTopicsRequest _ _ timeout _ => Some timeout
  | DeleteTopicsRequest _ _ timeout => Some timeout
  | CreatePartitionsRequest _ _ timeout _ => Some timeout
  | ElectLeadersRequest _ _ _ timeout => Some timeout
  | DeleteRecordsRequest _ _ timeout_ms => Some timeout_ms
  | _ => None
  end.

(** A request without a timeout field, or with the timeout [timeout]. *)
Definition timed (timeout : Z) (request : Request) : Prop :=
  forall t, timeout_of request = Some t -> t = timeout.

(** [c'] is [c] after more requests, each of them [timed]. *)
Definition extends (timeout : Z) (c c' : Client) : Prop :=
  exists sends, sent c' = sent c ++ sends /\ Forall (fun nr => timed timeout nr.2) sends.

Lemma extends_refl timeout c : extends timeout c c.
Proof. exists []. split; [by rewrite app_nil_r|constructor]. Qed.

Lemma extends_trans timeout c1 c2 c3 :
  extends timeout c1 c2 -> extends timeout c2 c3 -> extends timeout c1 c3.
Proof.
  intros (l1 & H1 & F1) (l2 & H2 & F2). exists (l1 ++ l2).
  split; [by rewrite H2, H1, app_assoc|by apply Forall_app].
Qed.

Lemma timed_metadata timeout request : is_metadata request = true -> timed timeout request.
Proof. by destruct request. Qed.

Lemma extends_metadata_only timeout c c' : metadata_only c c' -> extends timeout c c'.
Proof.
  intros (l & Hl & Fl). exists l. split; [done|].
  eapply Forall_impl; [exact Fl|]. intros nr. apply timed_metadata.
Qed.

Lemma extends_requests_sent timeout k request c c' :
  timed timeout request -> requests_sent k request c c' -> extends timeout c c'.
Proof.
  intros Htimed (l & Hl & _ & Fl). exists l. split; [done|].
  eapply Forall_impl; [exact Fl|]. intros [node r] Hr. cbn [snd] in *.
  destruct (is_metadata r) eqn:Hm; [by apply timed_metadata|].
  by rewrite Hr.
Qed.

Section Timeouts.
Variable env : Env.

(** Every request with a timeout field that [call] hands to the network
    client carries [timeout]. *)
Definition carries {A} (call : M A) (timeout : Z) : Prop :=
  forall c, wf env c ->
    exists sends,
      sent (call c).2 = sent c ++ sends
      /\ Forall (fun nr : Z * Request =>
                   forall t, timeout_of nr.2 = Some t -> t = timeout) sends.

(** No request that [call] hands to the network client has the timeout 0. *)
Definition never_zero {A} (call : M A) : Prop :=
  forall c, wf env c ->
    exists sends,
      sent (call c).2 = sent c ++ sends
      /\ Forall (fun nr : Z * Request => timeout_of nr.2 <> Some 0) sends.

(** When [node] is ready, the first request [call] hands over goes to
    [node] and carries [timeout]. *)
Definition reaches {A} (call : M A) (c : Client) (node : Z) (timeout : Z) : Prop :=
  wf env c ->
  await_ready env (length (sent c)) node = None ->
  exists request rest,
    sent (call c).2 = sent c ++ (node, request) :: rest
    /\ timeout_of request = Some timeout.

(** The admin calls that take [timeout_ms]. *)
Inductive admin_call (timeout_ms : option Z) : forall A : Type, M A -> Prop :=
| call_create_topics new_topics validate_only :
    admin_call timeout_ms Response
      (create_topics env new_topics timeout_ms validate_only)
| call_delete_topics topics :
    admin_call timeout_ms Response (delete_topics env topics timeout_ms)
| call_create_partitions topic_partitions validate_only :
    admin_call timeout_ms Response
      (create_partitions env topic_partitions timeout_ms validate_only)
| call_perform_leader_election election_type topic_partitions :
    admin_call timeout_ms Response
      (perform_leader_election env election_type topic_partitions timeout_ms)
| call_delete_records records_to_delete partition_leader_id :
    admin_call timeout_ms (list (TopicPartition * DeleteRecordsPartition))
      (delete_records env records_to_delete timeout_ms partition_leader_id).

Lemma carries_extends {A} (call : M A) timeout :
  (forall c, wf env c -> extends timeout c (call c).2) -> carries call timeout.
Proof. intros H c Hwf. exact (H c Hwf). Qed.

(** **** What the calls send *)

(** [m] keeps the client well-formed and sends only [timed] requests. *)
Definition sound {A} (timeout : Z) (m : M A) : Prop :=
  forall c, wf env c -> wf env (m c).2 /\ extends timeout c (m c).2.

Lemma sound_lift {A} timeout (r : Result A) : sound timeout (lift r).
Proof. intros c Hwf. split; [done|apply extends_refl]. Qed.

Lemma sound_ret {A} timeout (a : A) : sound timeout (ret a).
Proof. intros c Hwf. split; [done|apply extends_refl]. Qed.

Lemma sound_raise {A} timeout e : sound timeout (raise e : M A).
Proof. intros c Hwf. split; [done|apply extends_refl]. Qed.

Lemma sound_bind {A B} timeout (m : M A) (k : A -> M B) :
  sound timeout m -> (forall a, sound timeout (k a)) -> sound timeout (bindM m k).
Proof.
  intros Hm Hk c Hwf. destruct (Hm c Hwf) as [Hwf1 Hext1]. unfold bindM.
  destruct (m c) as [[a|e|] c1]; cbn [snd] in *; [|done|done].
  destruct (Hk a c1 Hwf1) as [Hwf2 Hext2]. split; [done|].
  by apply (extends_trans _ c c1).
Qed.

Lemma sound_bind_lift {A B} timeout (r : Result A) (k : A -> M B) :
  (forall a, r = Ok a -> sound timeout (k a)) -> sound timeout (bindM (lift r) k).
Proof.
  intros Hk. destruct r as [a|e|].
  - apply (Hk a eq_refl).
  - apply sound_raise.
  - intros c Hwf. split; [done|apply extends_refl].
Qed.

Lemma sound_send_request timeout request node_id :
  timed timeout request -> sound timeout (send_request env request node_id).
Proof.
  intros Htimed c Hwf.
  pose proof (send_request_spec env request node_id c Hwf) as Hs. cbn zeta in Hs.
  destruct (await_ready env (length (sent c)) (resolve env (length (sent c)) node_id)).
  - rewrite Hs. split; [done|apply extends_refl].
  - destruct Hs as (c' & -> & Hwf' & Hsent & _). split; [done|].
    eexists. split; [exact Hsent|]. by repeat constructor.
Qed.

Lemma _send_request_to_controller_extends timeout request c :
  wf env c -> timed timeout request ->
  extends timeout c (_send_request_to_controller env request c).2.
Proof.
  intros Hwf Htimed.
  destruct (_send_request_to_controller_bounded env request c Hwf)
    as (result & c' & -> & _ & Hsent).
  by apply (extends_requests_sent timeout 2 request).
Qed.

Lemma sound__get_cluster_metadata timeout topics auto_topic_creation :
  sound timeout (_get_cluster_metadata env topics auto_topic_creation).
Proof.
  unfold _get_cluster_metadata. cbn zeta.
  apply sound_bind_lift. intros request Hrequest.
  assert (is_metadata request = true) as Hm.
  { repeat case_bool_decide; try destruct auto_topic_creation;
      by first [discriminate Hrequest|injection Hrequest as <-]. }
  apply sound_bind; [|intros; apply sound_lift].
  by apply sound_send_request, timed_metadata.
Qed.

Lemma sound__get_leader_for_partitions timeout partitions timeout_ms :
  sound timeout (_get_leader_for_partitions env partitions timeout_ms).
Proof.
  unfold _get_leader_for_partitions. cbn zeta.
  apply sound_bind; [apply sound__get_cluster_metadata|]. intros metadata.
  destruct (leaders_of_metadata _ metadata) as [leader2partitions valid_partitions].
  destruct (negb _); [apply sound_raise|apply sound_ret].
Qed.

Lemma delete_records_request_timeout version records_to_delete partitions timeout request :
  delete_records_request env version records_to_delete partitions timeout = Ok request ->
  timeout_of request = Some timeout.
Proof.
  unfold delete_records_request. cbn [mbind Result_bind].
  destruct (mapR _ _) as [topics|e|]; [|done|done]. by intros [= <-].
Qed.

Lemma sound_delete_records_send version records_to_delete timeout leader2partitions :
  sound timeout
    (delete_records_send env version records_to_delete timeout leader2partitions).
Proof.
  induction leader2partitions as [|[leader partitions] rest IH]; [apply sound_ret|].
  cbn [delete_records_send].
  apply sound_bind_lift. intros request Hrequest.
  apply sound_bind.
  { apply sound_send_request. intros t Ht.
    rewrite (delete_records_request_timeout _ _ _ _ _ Hrequest) in Ht. by injection Ht. }
  intros response. apply sound_bind; [apply sound_lift|]. intros obj.
  apply sound_bind; [exact IH|]. intros responses. apply sound_ret.
Qed.

Lemma sound_delete_records records_to_delete timeout_ms partition_leader_id :
  sound (_validate_timeout env timeout_ms)
    (delete_records env records_to_delete timeout_ms partition_leader_id).
Proof.
  unfold delete_records. cbn zeta.
  apply sound_bind.
  { destruct partition_leader_id; [apply sound_ret|apply sound__get_leader_for_partitions]. }
  intros leader2partitions.
  apply sound_bind; [apply sound_delete_records_send|]. intros responses.
  apply sound_lift.
Qed.

(** **** The first request of a call *)

Lemma judge_sent request response tries c :
  wf env c ->
  wf env (judge env request response tries c).2
  /\ exists l, sent (judge env request response tries c).2 = sent c ++ l.
Proof.
  intros Hwf. unfold judge, judged.
  assert (exists l, sent c = sent c ++ l) as Hnil by (exists []; by rewrite app_nil_r).
  destruct (scan env response) as [|error_type|]; [done| |done].
  destruct (negb (tries =? 0)%nat && bool_decide (error_type = Errors.NotControllerError));
    [|done].
  destruct (_refresh_controller_id_spec env 30000 c Hwf)
    as (r & c' & Hrun & _ & Hwf' & l & Hl & _).
  unfold bindM. rewrite Hrun.
  destruct r as [[]|e|]; cbn [snd]; (split; [done|by exists l]).
Qed.

Lemma _send_request_to_controller_first request c :
  wf env c ->
  await_ready env (length (sent c)) (_controller_id c) = None ->
  exists rest,
    sent (_send_request_to_controller env request c).2
    = sent c ++ (_controller_id c, request) :: rest.
Proof.
  intros Hwf Hready. unfold _send_request_to_controller.
  rewrite _send_request_to_controller_loop_step.
  pose proof (send_request_spec env request (Some (_controller_id c)) c Hwf) as Hs.
  cbn zeta in Hs. cbn [resolve] in Hs. rewrite Hready in Hs.
  destruct Hs as (c1 & Hattempt & Hwf1 & Hsent1 & _).
  unfold attempt at 1. rewrite Hattempt.
  destruct (answer env (length (sent c)) (_controller_id c) request) as [response|e];
    cbn [result_of]; [|by exists []].
  destruct (judge_sent request response 1 c1 Hwf1) as [Hwf2 [l2 Hsent2]].
  destruct (judge env request response 1 c1) as [[[]|e|] c2]; cbn [snd] in *;
    try (exists l2; by rewrite Hsent2, Hsent1, <- app_assoc).
  rewrite last_attempt.
  destruct (attempt env request c2) as [r2 c3] eqn:Hattempt2.
  destruct (requests_sent_attempt env request c2 r2 c3 Hwf2 Hattempt2) as (l3 & Hsent3 & _).
  assert (sent c3 = sent c ++ (_controller_id c, request) :: (l2 ++ l3)) as Hall.
  { rewrite Hsent3, Hsent2, Hsent1, <- !app_assoc. done. }
  destruct r2 as [response2|e|]; [|by eexists|by eexists].
  destruct (scan env response2); by eexists.
Qed.

Lemma _send_request_to_controller_reaches request timeout c :
  timeout_of request = Some timeout ->
  reaches (_send_request_to_controller env request) c (_controller_id c) timeout.
Proof.
  intros Htimeout Hwf Hready.
  destruct (_send_request_to_controller_first request c Hwf Hready) as [rest Hsent].
  by exists request, rest.
Qed.

(** C10: [_validate_timeout] returns [timeout_ms] when it is truthy (an
    integer other than 0) and the configured [request_timeout_ms]
    otherwise, so that a timeout of 0 or [None] is replaced by the
    configured default and the result is not 0 when [request_timeout_ms]
    is not 0.  Every admin call that takes [timeout_ms] ([create_topics],
    [delete_topics], [create_partitions], [perform_leader_election],
    [delete_records]) puts that result, and nothing else, into the
    timeout field of the requests it sends: no request of such a call
    has the timeout 0 when [request_timeout_ms] is not 0.  And the calls
    do send it: the first request handed to a ready controller (for
    [delete_records] with a leader given: to that leader) carries it. *)
Theorem admin_calls_effective_timeout (timeout_ms : option Z) :
  let effective := _validate_timeout env timeout_ms in
  (effective = if truthy timeout_ms then default 0 timeout_ms else request_timeout_ms env)
  /\ (truthy timeout_ms = true <-> exists z, timeout_ms = Some z /\ z <> 0)
  /\ (timeout_ms = Some 0 \/ timeout_ms = None -> effective = request_timeout_ms env)
  /\ (request_timeout_ms env <> 0 -> effective <> 0)
  /\ (forall A (call : M A), admin_call timeout_ms A call -> carries call effective)
  /\ (request_timeout_ms env <> 0 ->
      forall A (call : M A), admin_call timeout_ms A call -> never_zero call)
  /\ (forall new_topics validate_only c,
        (api_version env "CreateTopicsRequest" 3 <= 3)%nat ->
        (validate_only = true -> api_version env "CreateTopicsRequest" 3 <> 0%nat) ->
        reaches (create_topics env new_topics timeout_ms validate_only) c
          (_controller_id c) effective)
  /\ (forall topics c,
        reaches (delete_topics env topics timeout_ms) c (_controller_id c) effective)
  /\ (forall topic_partitions validate_only c,
        reaches (create_partitions env topic_partitions timeout_ms validate_only) c
          (_controller_id c) effective)
  /\ (forall election_type topic_partitions c,
        election_type = 0 \/ election_type = 1 ->
        reaches (perform_leader_election env election_type topic_partitions timeout_ms) c
          (_controller_id c) effective)
  /\ (forall records_to_delete partition_leader_id c,
        reaches (delete_records env records_to_delete timeout_ms (Some partition_leader_id))
          c partition_leader_id effective).
Proof.
  intros effective.
  destruct (_validate_timeout_spec env timeout_ms) as (Hor & Htruthy & _).
  assert (request_timeout_ms env <> 0 -> effective <> 0) as Hnonzero.
  { unfold effective. rewrite Hor. intros Hconfig.
    pose proof (proj1 Htruthy) as Hz.
    destruct (truthy timeout_ms); [|done].
    by destruct (Hz eq_refl) as (z & -> & Hz'). }
  assert (forall A (call : M A), admin_call timeout_ms A call -> carries call effective)
    as Hcarries.
  { intros A call Hcall. apply carries_extends. intros c Hwf.
    destruct Hcall.
    - unfold create_topics. cbn zeta. fold effective.
      case_bool_decide; [destruct validate_only|case_bool_decide];
        try apply extends_refl;
        apply _send_request_to_controller_extends; try done; by intros t [= <-].
    - apply _send_request_to_controller_extends; [done|]. by intros t [= <-].
    - apply _send_request_to_controller_extends; [done|]. by intros t [= <-].
    - unfold perform_leader_election. cbn zeta. fold effective.
      unfold bindM, lift.
      destruct (to_ElectionType election_type) as [t|e|]; try apply extends_refl.
      apply _send_request_to_controller_extends; [done|]. by intros t' [= <-].
    - by apply sound_delete_records. }
  split_and!; try done.
  - unfold effective. intros [->| ->]; done.
  - intros Hconfig A call Hcall c Hwf.
    destruct (Hcarries A call Hcall c Hwf) as (sends & Hsent & Hall).
    exists sends. split; [done|].
    eapply Forall_impl; [exact Hall|]. intros nr Hnr Hzero.
    apply Hnonzero; [done|]. symmetry. by apply Hnr.
  - intros new_topics validate_only c Hmax Hvalidate.
    unfold create_topics. cbn zeta. fold effective.
    case_bool_decide as Hv0.
    + destruct validate_only; [by destruct Hvalidate|].
      by apply _send_request_to_controller_reaches.
    + rewrite bool_decide_true by done.
      by apply _send_request_to_controller_reaches.
  - intros topics c. by apply _send_request_to_controller_reaches.
  - intros topic_partitions validate_only c.
    by apply _send_request_to_controller_reaches.
  - intros election_type topic_partitions c Htype Hwf Hready.
    unfold perform_leader_election. cbn zeta. fold effective.
    assert (exists t, to_ElectionType election_type = Ok t) as [t Ht]
      by (destruct Htype as [->| ->]; by eexists).
    unfold bindM at 1, lift at 1. rewrite Ht.
    by apply _send_request_to_controller_reaches.
  - intros records_to_delete leader c Hwf Hready.
    set (partitions := elements (list_to_set (dict_keys records_to_delete)
                                 : gset TopicPartition)).
    assert (forall tp, tp ∈ partitions -> is_Some (dict_get tp records_to_delete)) as Hkeys.
    { intros tp. unfold partitions. rewrite elem_of_elements, elem_of_list_to_set.
      rewrite <- not_eq_None_Some, dict_get_None. auto. }
    set (request := DeleteRecordsRequest (api_version env "DeleteRecordsRequest" 0)
                      (topics_of records_to_delete partitions) effective).
    pose proof (send_request_spec env request (Some leader) c Hwf) as Hsend.
    cbn zeta in Hsend. cbn [resolve] in Hsend. rewrite Hready in Hsend.
    destruct Hsend as (c' & Hrun & _ & Hsent & _).
    exists request, []. split; [|done].
    unfold delete_records. cbn zeta. unfold bindM at 1 2.
    unfold ret at 1. cbn [delete_records_send]. fold partitions. fold effective.
    unfold bindM at 1. unfold lift at 1.
    rewrite delete_records_request_Ok by done.
    fold request. unfold bindM at 1. rewrite Hrun.
    destruct (answer env (length (sent c)) leader request)
      as [response|e]; cbn [result_of]; [|done].
    unfold bindM, lift, ret.
    destruct (to_object response) as [obj| |]; [|done|done].
    by destruct (delete_records_result env [obj]).
Qed.

End Timeouts.

(** [delete_topics] with [timeout_ms=0]: the request carries the
    configured 30000 ms. *)
Definition topic_deleted : Env :=
  Scenario.scripted 3
    [Succeeded (DeleteTopicsResponse [mkTopicError "t" 0 None])] Scenario.fifo.

Lemma admin_calls_effective_timeout_witness :
  sent (delete_topics topic_deleted ["t"] (Some 0) Scenario.fresh_client).2
  = [(1, DeleteTopicsRequest 3 ["t"] 30000)]
  /\ never_zero topic_deleted (delete_topics topic_deleted ["t"] (Some 0))
  /\ exists request rest,
      sent (delete_topics topic_deleted ["t"] (Some 0) Scenario.fresh_client).2
      = (1, request) :: rest
      /\ timeout_of request = Some 30000.
Proof.
  destruct (admin_calls_effective_timeout topic_deleted (Some 0))
    as (_ & _ & _ & _ & _ & Hnever & _ & Hreaches & _).
  split; [vm_compute; reflexivity|]. split.
  - apply Hnever; [by vm_compute|]. constructor.
  - exact (Hreaches ["t"] Scenario.fresh_client (wf_fresh _ _ _) eq_refl).
Defined.

End TimeoutFacts.

(** ** The outcome of [delete_records] *)

Module DeleteRecordsCallFacts.
Import Py Structs Admin NetworkFacts GroupingFacts DeleteRecordsFacts LeaderFacts.
Import DeleteRecordsRequestFacts DeleteRecordsRunFacts.

(** The [topics] array of a DeleteRecords response. *)
Definition Reply : Type := list (string * list DeleteRecordsPartition).

(** Some response lists the partition result [result] for the partition
    [tp]: under the topic of [tp], with its partition index. *)
Definition returned (replies : list Reply) (tp : TopicPartition)
    (result : DeleteRecordsPartition) : Prop :=
  exists reply partitions,
    reply ∈ replies
    /\ (topic tp, partitions) ∈ reply
    /\ result ∈ partitions
    /\ partition_index result = partition tp.

(** Some response reports a non-zero error code for the partition [tp]. *)
Definition failed_partition (replies : list Reply) (tp : TopicPartition) : Prop :=
  exists result, returned replies tp result /\ error_code result <> 0.

(** The per-partition results of a response, flattened. *)
Definition flat (response : Response) : list (TopicPartition * DeleteRecordsPartition) :=
  match response with
  | DeleteRecordsResponse topics =>
      topic ← topics;
      (fun partition =>
         (mkTopicPartition topic.1 (partition_index partition), partition))
        <$> topic.2
  | _ => []
  end.

Lemma elem_of_concat {A} (x : A) (ls : list (list A)) :
  x ∈ concat ls <-> exists l, l ∈ ls /\ x ∈ l.
Proof.
  induction ls as [|l0 ls IH]; cbn [concat].
  - split; [by intros ?%elem_of_nil|]. intros (l & Hl & _). by apply elem_of_nil in Hl.
  - rewrite elem_of_app, IH. split.
    + intros [Hx|(l & Hl & Hx)]; [exists l0; split; [left|done]|].
      exists l. split; [by right|done].
    + intros (l & [->|Hl]%elem_of_cons & Hx); [by left|]. right. by exists l.
Qed.

Lemma results_of_replies (replies : list Reply) :
  exists results,
    results_of_responses (DeleteRecordsResponse <$> replies) = Ok results
    /\ forall tp result, (tp, result) ∈ results <-> returned replies tp result.
Proof.
  exists (concat (flat <$> (DeleteRecordsResponse <$> replies))). split.
  - unfold results_of_responses.
    rewrite (mapR_fmap results_of_response flat); [done|].
    by intros response (reply & -> & _)%list_elem_of_fmap.
  - intros tp result. rewrite <- list_fmap_compose. unfold returned. split.
    + intros (l & (reply & -> & Hreply)%list_elem_of_fmap & Hin)%elem_of_concat.
      cbn [compose flat] in Hin.
      apply list_elem_of_bind in Hin as ([t partitions] & Hin & Ht). cbn [fst snd] in Hin.
      apply list_elem_of_fmap in Hin as (p & [= -> ->] & Hp).
      exists reply, partitions. by split_and!.
    + intros (reply & partitions & Hreply & Ht & Hp & Hindex).
      apply elem_of_concat. exists (flat (DeleteRecordsResponse reply)). split.
      * apply list_elem_of_fmap. by exists reply.
      * cbn [flat]. apply list_elem_of_bind. exists (topic tp, partitions).
        split; [|done]. cbn [fst snd]. apply list_elem_of_fmap. exists result.
        split; [|done]. rewrite Hindex. by destruct tp.
Qed.

Lemma partition2result_of_NoDup results : NoDup (dict_keys (partition2result_of results)).
Proof.
  induction results as [|r results IH] using rev_ind; [constructor|].
  rewrite partition2result_of_snoc. by apply dict_keys_set_NoDup.
Qed.

Lemma elem_of_dict_keys_is_Some {K V} `{EqDecision K} (d : list (K * V)) k :
  k ∈ dict_keys d <-> is_Some (dict_get k d).
Proof.
  rewrite <- not_eq_None_Some, dict_get_None. unfold dict_keys.
  split; [auto|]. intros Hk. by destruct (decide (k ∈ d.*1)).
Qed.

Section Call.
Variable env : Env.

(** The brokers the call turns to are ready and answer.  With a leader
    given, that node answers the one DeleteRecords request with
    [responses]; without, the least-loaded node answers the Metadata
    request with topics that list every partition of
    [records_to_delete], and the leader of each bucket answers its
    DeleteRecords request, [responses] being the answers in the order of
    the requests. *)
Definition brokers_answer (c : Client) (records_to_delete : list (TopicPartition * Z))
    (timeout_ms : option Z) (partition_leader_id : option Z)
    (responses : list Response) : Prop :=
  let timeout := _validate_timeout env timeout_ms in
  let partitions := dict_keys records_to_delete in
  match partition_leader_id with
  | Some leader =>
      leaders_answer env (length (sent c))
        (requests_of env records_to_delete timeout
           [(leader, elements (list_to_set partitions : gset TopicPartition))])
        responses
  | None =>
      exists metadata_topics,
        metadata_answered env c partitions metadata_topics
        /\ (forall tp, tp ∈ partitions -> tp ∈ (listed metadata_topics).*1)
        /\ leaders_answer env (S (length (sent c)))
             (requests_of env records_to_delete timeout
                (buckets_of partitions metadata_topics).1)
             responses
  end.

(** ["topic(partition=n): ErrorName"] *)
Definition failure_text (failure : TopicPartition * Z) : string :=
  topic failure.1 +:+ "(partition=" +:+ pretty (partition failure.1) +:+ "): "
  +:+ for_code env failure.2.

Lemma delete_records_run records_to_delete timeout_ms partition_leader_id responses c :
  wf env c ->
  brokers_answer c records_to_delete timeout_ms partition_leader_id responses ->
  (delete_records env records_to_delete timeout_ms partition_leader_id c).1
  = delete_records_result env responses.
Proof.
  intros Hwf Hanswer. unfold delete_records. cbn zeta.
  destruct partition_leader_id as [leader|]; cbn zeta in Hanswer.
  - destruct (delete_records_send_run env records_to_delete (_validate_timeout env timeout_ms)
                [(leader, elements (list_to_set (dict_keys records_to_delete)
                                    : gset TopicPartition))]
                responses c Hwf) as (c' & Hsend & _); [|done|].
    + intros l bucket tp [= -> ->]%list_elem_of_singleton Htp.
      apply elem_of_elements, elem_of_list_to_set in Htp.
      by apply elem_of_dict_keys_is_Some.
    + erewrite bindM_Ok by reflexivity. erewrite bindM_Ok by exact Hsend. done.
  - destruct Hanswer as (metadata_topics & Hmeta & Hall & Hanswer).
    destruct (_get_leader_for_partitions_run env (dict_keys records_to_delete)
                (Some (_validate_timeout env timeout_ms)) metadata_topics c Hwf Hmeta)
      as (c1 & Hwf1 & Hsent1 & Hrun).
    destruct (buckets_of_spec (dict_keys records_to_delete) metadata_topics)
      as [Hbucket Hvalid].
    rewrite bool_decide_true in Hrun.
    2:{ f_equal. apply set_eq. intros tp. rewrite Hvalid, elem_of_list_to_set.
        split; [|tauto]. intros Htp. split; [done|by apply Hall]. }
    destruct (delete_records_send_run env records_to_delete
                (_validate_timeout env timeout_ms)
                (buckets_of (dict_keys records_to_delete) metadata_topics).1
                responses c1 Hwf1) as (c' & Hsend & _).
    + intros leader bucket tp Hin Htp.
      destruct (Hbucket leader bucket tp Hin Htp) as [Hkey _].
      by apply elem_of_dict_keys_is_Some.
    + rewrite Hsent1, length_app. cbn [length]. rewrite Nat.add_1_r. exact Hanswer.
    + erewrite bindM_Ok by exact Hrun. erewrite bindM_Ok by exact Hsend. done.
Qed.

(** C3: [delete_records], with the brokers it turns to answering
    by the DeleteRecords responses [replies].  If no response reports a
    non-zero error code, the call returns a dictionary with one entry
    for every partition (topic and partition index) that a response
    lists and for no other, each entry being a result returned for that
    partition, with error code zero.  If exactly one partition has a
    non-zero error code, the call raises the typed error of a non-zero
    code returned for it, with a message naming its topic and partition.
    If two or more have, it raises [BrokerResponseError] with a message
    that lists every failed partition once, and no other, as
    ["topic(partition=n): ErrorName"], the error being that of a
    non-zero code returned for the partition. *)
Theorem delete_records_outcome (records_to_delete : list (TopicPartition * Z))
    (timeout_ms : option Z) (partition_leader_id : option Z)
    (replies : list Reply) (c : Client) :
  wf env c ->
  brokers_answer c records_to_delete timeout_ms partition_leader_id
    (DeleteRecordsResponse <$> replies) ->
  let outcome :=
    (delete_records env records_to_delete timeout_ms partition_leader_id c).1 in
  ((forall tp, ~ failed_partition replies tp) ->
   exists d,
     outcome = Ok d
     /\ NoDup (dict_keys d)
     /\ (forall tp, tp ∈ dict_keys d <-> exists result, returned replies tp result)
     /\ (forall tp result,
           dict_get tp d = Some result ->
           returned replies tp result /\ error_code result = 0))
  /\ (forall tp,
        failed_partition replies tp ->
        (forall tp', failed_partition replies tp' -> tp' = tp) ->
        exists result,
          returned replies tp result /\ error_code result <> 0
          /\ outcome
             = Raise (mkExn (for_code env (error_code result))
                        ("Error deleting records from topic " +:+ topic tp
                         +:+ " partition " +:+ pretty (partition tp))))
  /\ (forall tp1 tp2,
        failed_partition replies tp1 -> failed_partition replies tp2 -> tp1 <> tp2 ->
        exists failures : list (TopicPartition * Z),
          outcome
          = Raise (mkExn Errors.BrokerResponseError
                     ("The following errors occured when trying to delete records: "
                      +:+ join ", " (failure_text <$> failures)))
          /\ NoDup failures.*1
          /\ (forall tp, tp ∈ failures.*1 <-> failed_partition replies tp)
          /\ (forall tp e, (tp, e) ∈ failures ->
                e <> 0
                /\ (exists result, returned replies tp result /\ error_code result = e)
                /\ substring_of
                     (topic tp +:+ "(partition=" +:+ pretty (partition tp) +:+ "): "
                      +:+ for_code env e)
                     ("The following errors occured when trying to delete records: "
                      +:+ join ", " (failure_text <$> failures)))).
Proof.
  intros Hwf Hanswer outcome. unfold outcome.
  rewrite (delete_records_run _ _ _ _ _ Hwf Hanswer).
  destruct (results_of_replies replies) as (results & Hresults & Hreturned).
  assert (forall tp, failed results tp <-> failed_partition replies tp) as Hfailed.
  { intros tp. unfold failed, failed_partition. by setoid_rewrite Hreturned. }
  destruct (partition2error_of_spec results) as (Hnd & Hkeys & Hget).
  destruct (partition2result_of_spec results) as (Hcover & Hfrom).
  pose proof (partition2result_of_NoDup results) as Hnd_result.
  unfold delete_records_result. rewrite Hresults. cbn [mbind Result_bind].
  setoid_rewrite Hfailed in Hkeys.
  split_and!.
  - intros Hnone.
    destruct (partition2error_of results) as [|[tp e] errors] eqn:He.
    + eexists. split; [done|]. split; [done|]. split.
      * intros tp. rewrite elem_of_dict_keys_is_Some. split.
        -- intros [result Hresult]. exists result. by apply Hreturned, Hfrom.
        -- intros [result Hresult]. apply (Hcover tp result). by apply Hreturned.
      * intros tp result Hresult. apply Hfrom, Hreturned in Hresult.
        split; [done|].
        destruct (Z.eq_dec (error_code result) 0) as [|Hne]; [done|].
        exfalso. apply (Hnone tp). by exists result.
    + exfalso. apply (Hnone tp), Hkeys. unfold dict_keys. rewrite fmap_cons. left.
  - intros tp Hfailed_tp Honly. unfold dict_keys in *.
    destruct (partition2error_of results) as [|[tp1 e1] [|[tp2 e2] errors]] eqn:He.
    + apply Hkeys in Hfailed_tp. by apply elem_of_nil in Hfailed_tp.
    + assert (tp1 = tp) as ->.
      { apply Honly, Hkeys. rewrite fmap_cons. left. }
      destruct (Hget tp e1) as (Hne & p & Hp & Hpe).
      { simpl. by rewrite decide_True. }
      exists p. subst e1. split; [by apply Hreturned|]. by split.
    + exfalso. rewrite !fmap_cons in Hnd. cbn [fst] in Hnd.
      apply NoDup_cons in Hnd as [Hnotin _]. apply Hnotin.
      assert (tp1 = tp) as -> by (apply Honly, Hkeys; rewrite fmap_cons; left).
      assert (tp2 = tp) as ->
        by (apply Honly, Hkeys; rewrite !fmap_cons; right; left).
      left.
  - intros tp1 tp2 Hf1 Hf2 Hne. unfold dict_keys in *.
    exists (partition2error_of results).
    assert (forall tp e, (tp, e) ∈ partition2error_of results ->
              dict_get tp (partition2error_of results) = Some e) as Hin
      by (intros tp e; by apply elem_of_dict_NoDup).
    destruct (partition2error_of results) as [|[k1 e1] [|[k2 e2] errors]] eqn:He.
    + apply Hkeys in Hf1. by apply elem_of_nil in Hf1.
    + exfalso. apply Hkeys in Hf1, Hf2. rewrite fmap_cons in Hf1, Hf2.
      apply list_elem_of_singleton in Hf1, Hf2. simpl in *. congruence.
    + split; [done|]. split; [done|]. split; [done|].
      intros tp e Hte. destruct (Hget tp e (Hin tp e Hte)) as (Hnz & p & Hp & Hpe).
      split_and!; [done| |].
      * exists p. split; [by apply Hreturned|done].
      * apply substring_of_append_r, substring_of_join.
        apply (list_elem_of_fmap_2 failure_text _ (tp, e)) in Hte.
        exact Hte.
Qed.

End Call.

(** Scenario S4: partition 0 of ["t"] is led by node 1 and partition 1
    by node 2; the response of node 2 carries error code 3 for
    partition 1. *)
Definition s4_env : Env :=
  Scenario.scripted 0
    [Succeeded (MetadataResponse 0 1
       [mkTopicMetadata "t" [mkPartitionMetadata 0 1; mkPartitionMetadata 1 2]]);
     Succeeded (DeleteRecordsResponse [("t", [mkDeleteRecordsPartition 0 100 0])]);
     Succeeded (DeleteRecordsResponse [("t", [mkDeleteRecordsPartition 1 (-1) 3])])]
    Scenario.fifo.

Definition s4_offsets : list (TopicPartition * Z) :=
  [(mkTopicPartition "t" 0, 100); (mkTopicPartition "t" 1, 200)].

Definition s4_replies : list Reply :=
  [[("t", [mkDeleteRecordsPartition 0 100 0])];
   [("t", [mkDeleteRecordsPartition 1 (-1) 3])]].

Lemma delete_records_outcome_witness :
  (delete_records s4_env s4_offsets None None Scenario.fresh_client).1
  = Raise (mkExn Errors.UnknownTopicOrPartitionError
             "Error deleting records from topic t partition 1").
Proof.
  destruct (delete_records_outcome s4_env s4_offsets None None s4_replies
              Scenario.fresh_client) as (_ & Hone & _).
  - apply wf_fresh.
  - exists [mkTopicMetadata "t" [mkPartitionMetadata 0 1; mkPartitionMetadata 1 2]].
    split_and!.
    + split; [reflexivity|]. eexists _, _. vm_compute. reflexivity.
    + intros tp Htp. apply elem_of_cons in Htp as [->|Htp]; [left|].
      apply list_elem_of_singleton in Htp as ->. right. left.
    + split; [vm_compute; reflexivity|].
      intros [|[|i]] leader request Hi; vm_compute in Hi; [| |discriminate];
        injection Hi as <- <-; (split; [reflexivity|]); eexists;
        (split; [reflexivity|]); (split; [discriminate|]); reflexivity.
  - assert (forall tp result,
              returned s4_replies tp result ->
              (tp = mkTopicPartition "t" 0 /\ result = mkDeleteRecordsPartition 0 100 0)
              \/ (tp = mkTopicPartition "t" 1
                  /\ result = mkDeleteRecordsPartition 1 (-1) 3)) as Hcases.
    { intros [t p] result (reply & partitions & Hreply & Ht & Hp & Hindex).
      cbn [topic partition] in *.
      apply elem_of_cons in Hreply as [->|Hreply%list_elem_of_singleton]; [|subst reply];
        apply list_elem_of_singleton in Ht as [= -> ->];
        apply list_elem_of_singleton in Hp as ->; cbn in Hindex; subst p;
        [by left|by right]. }
    destruct (Hone (mkTopicPartition "t" 1)) as (result & Hreturned & Hne & Hrun).
    + exists (mkDeleteRecordsPartition 1 (-1) 3). split; [|done].
      eexists _, _. split_and!; [right; left|left|left|done].
    + intros tp' (result & Hreturned & He).
      destruct (Hcases _ _ Hreturned) as [[_ ->]|[-> _]]; done.
    + destruct (Hcases _ _ Hreturned) as [[[=] _]|[_ ->]]. exact Hrun.
Defined.

Example delete_records_two_failures :
  (delete_records
     (Scenario.scripted 0
        [Succeeded (DeleteRecordsResponse
           [("t", [mkDeleteRecordsPartition 0 (-1) 3]);
            ("u", [mkDeleteRecordsPartition 7 (-1) 41])])]
        Scenario.fifo)
     [(mkTopicPartition "t" 0, 5); (mkTopicPartition "u" 7, 9)] None (Some 3)
     Scenario.fresh_client).1
  = Raise (mkExn Errors.BrokerResponseError
             "The following errors occured when trying to delete records: t(partition=0): UnknownTopicOrPartitionError, u(partition=7): NotControllerError").
Proof. vm_compute. reflexivity. Qed.

End DeleteRecordsCallFacts.
